(** * iris_spot: labelling-project preparation and mask harvesting

    A shallow embedding of the two scripts of the repository,
    [1_run_after_copy_images.py] and [2_run_after_edit.py], together with the
    properties their specification states about them.

    Conventions of the embedding.
    - A Python exception is a value of [exn]; a function that may raise
      returns a [result].
    - A path is the list of its components; [p </> s] is pathlib's [p / s] for
      a component [s] without separators.
    - The file store maps the path of a file to its content.  A directory
      exists when a file lies below it, so a [mkdir] that succeeds leaves the
      store as it is.  Failures of the operating system (permissions, full
      disk) and symbolic links are not represented; a directory in the place
      of a file, or a file in the place of a directory, is an error where the
      definition of the operation says so.
    - Console output ([print]) is not represented.
    - A JSON text is represented by its syntax tree [json]; the printer and the
      parser of Python's [json] module are inverse to each other on trees.
    - Python objects that are mutated (dicts and lists of the configuration
      documents) live in a store of cells addressed by position; a Python
      value is a scalar or a reference [VRef] into that store.
    - A NumPy array whose leading axes are (height, width) is an [ndarray]:
      its cells are listed row by row, and a trailing axis, when there is
      one, is the list held by each cell.
    - Raster samples are integers (8 or 16 bit digital numbers).  Floats are
      IEEE 754 values ([spec_float]): binary32 for NumPy's float32, binary64
      for Python's float. *)

From Stdlib Require Import ZArith String Ascii Lia.
From Stdlib Require Import Floats.SpecFloat.
From stdpp Require Import base option list gmap strings sorting.

Set Warnings "-register-all,-clear-no-such-hyp".

Open Scope string_scope.
Open Scope Z_scope.
Open Scope list_scope.

(** ** Exceptions *)

Inductive exn : Type :=
| FileNotFoundError
| KeyError (key : string)
| TypeError
| IndexError
| ValueError
| RasterioIOError
| JSONDecodeError
| SameFileError
| IsADirectoryError
| NotADirectoryError
| FileExistsError
| AttributeError.

Inductive result (A : Type) : Type :=
| Ok (a : A)
| Raise (e : exn).
Arguments Ok {A} a.
Arguments Raise {A} e.

#[global] Instance result_ret : MRet result := λ A a, Ok a.
#[global] Instance result_bind : MBind result := λ A B f m,
  match m with Ok a => f a | Raise e => Raise e end.
#[global] Instance result_fmap : FMap result := λ A B f m,
  match m with Ok a => Ok (f a) | Raise e => Raise e end.

Definition is_ok {A} (m : result A) : Prop :=
  match m with Ok _ => True | Raise _ => False end.

(** ** Paths *)

Abbreviation path := (list string) (only parsing).

Definition joinpath (p : path) (s : string) : path := p ++ [s].
Infix "</>" := joinpath (at level 45, left associativity).

(** [p.name] and [p.parent] of pathlib. *)
Definition path_name (p : path) : string := List.last p "".
Definition path_parent (p : path) : path := removelast p.

(** ** Numbers: floats and colours *)

Abbreviation float32 := spec_float (only parsing).
Abbreviation pyfloat := spec_float (only parsing).

(** [numpy.float32(z)]: the nearest binary32 value, ties to even. *)
Definition to_float32 (z : Z) : float32 := binary_normalize 24 128 z 0 false.

(** Python float arithmetic (binary64). *)
Definition pyfloat_of_Z (z : Z) : pyfloat := binary_normalize 53 1024 z 0 false.
Definition pyfloat_add (x y : pyfloat) : pyfloat := SFadd 53 1024 x y.
Definition pyfloat_div (x y : pyfloat) : pyfloat := SFdiv 53 1024 x y.

(** A display colour: three bytes (red, green, blue), the cell of a uint8
    RGB picture. *)
Abbreviation colour := (Byte.byte * Byte.byte * Byte.byte)%type (only parsing).
Definition black : colour := (Byte.x00, Byte.x00, Byte.x00).

(** ** Arrays *)

Record ndarray (A : Type) : Type := Ndarray {
  height : nat;
  width : nat;
  pixels : list A
}.
Arguments Ndarray {A} height width pixels.
Arguments height {A} _.
Arguments width {A} _.
Arguments pixels {A} _.


(** [a[y, x]]; out of range is NumPy's IndexError, here [None]. *)
Definition cell {A} (a : ndarray A) (y x : nat) : option A :=
  if decide (y < height a ∧ x < width a)%nat
  then pixels a !! (y * width a + x)%nat
  else None.

(** [a[y, x, c]] of an array with a trailing axis. *)
Definition cell3 {A} (a : ndarray (list A)) (y x c : nat) : option A :=
  v ← cell a y x; v !! c.

(** Element-wise operations. *)
Definition arr_map {A B} (f : A → B) (a : ndarray A) : ndarray B :=
  Ndarray (height a) (width a) (f <$> pixels a).

Definition arr_zip {A B C} (f : A → B → C) (a : ndarray A) (b : ndarray B)
  : ndarray C :=
  Ndarray (height a) (width a) (zip_with f (pixels a) (pixels b)).

(** [np.zeros(shape)], [np.ones(shape)]: every cell holds [x]. *)
Definition np_full {A} (H W : nat) (x : A) : ndarray A :=
  Ndarray H W (replicate (H * W) x).

(** [a.astype("uint8")] on integer samples: reduction modulo 256. *)
Definition astype_uint8 (a : ndarray Z) : ndarray Z :=
  arr_map (λ v, v mod 256) a.

(** [a == c] and [a > c]. *)
Definition arr_eqb (a : ndarray Z) (c : Z) : ndarray bool :=
  arr_map (λ v, (v =? c)%Z) a.
Definition arr_gtb (a : ndarray Z) (c : Z) : ndarray bool :=
  arr_map (λ v, (c <? v)%Z) a.

(** [np.where(cond, x, a)] with a scalar [x]. *)
Definition np_where {A} (cond : ndarray bool) (x : A) (a : ndarray A)
  : ndarray A :=
  arr_zip (λ (b : bool) v, if b then x else v) cond a.

(** [a[:, :, k]], for a channel [k] within the trailing axis. *)
Definition channel (a : ndarray (list bool)) (k : nat) : ndarray bool :=
  arr_map (λ v, default false (v !! k)) a.

(** [a[:, :, k] |= mask]. *)
Definition ior_channel (a : ndarray (list bool)) (k : nat)
    (mask : ndarray bool) : ndarray (list bool) :=
  arr_zip (λ v (b : bool), alter (λ old, old || b) k v) a mask.

(** [a[mask] = x]: boolean-mask assignment of one cell value. *)
Definition assign_where {A} (a : ndarray A) (mask : ndarray bool) (x : A)
  : ndarray A :=
  arr_zip (λ old (b : bool), if b then x else old) a mask.



(** ** Rasters *)

Record bounds : Type := Bounds {
  b_left : pyfloat; b_bottom : pyfloat; b_right : pyfloat; b_top : pyfloat
}.

(** What rasterio exposes of an opened GeoTIFF: the size, the bands in file
    order (each listed row by row), the coordinate reference system when
    there is one, and the bounding box. *)
Record tiff : Type := Tiff {
  tif_width : nat;
  tif_height : nat;
  tif_bands : list (list Z);
  tif_crs : option string;
  tif_bounds : bounds
}.


(** The (channel, height, width) array returned by [src.read()]. *)
Record bandarray : Type := Bandarray {
  ba_count : nat;
  ba_height : nat;
  ba_width : nat;
  ba_bands : list (list Z)
}.


(** [src.read()]. *)
Definition read_all (t : tiff) : bandarray :=
  Bandarray (length (tif_bands t)) (tif_height t) (tif_width t) (tif_bands t).

(** [src.read(i)], bands being numbered from 1. *)
Definition read_band (t : tiff) (i : nat) : result (ndarray Z) :=
  match i with
  | O => Raise IndexError
  | S i' =>
      match tif_bands t !! i' with
      | Some b => Ok (Ndarray (tif_height t) (tif_width t) b)
      | None => Raise IndexError
      end
  end.

(** [np.moveaxis(arr, 0, -1)]: cell (y, x) collects the samples of all bands
    at (y, x), in band order. *)
Definition moveaxis_first_to_last (a : bandarray) : ndarray (list Z) :=
  Ndarray (ba_height a) (ba_width a)
    ((λ p, (λ b : list Z, b !!! p) <$> ba_bands a)
       <$> seq 0 (ba_height a * ba_width a)).

(** [a.astype("float32")]. *)
Definition astype_float32 (a : ndarray (list Z)) : ndarray (list float32) :=
  arr_map (fmap to_float32) a.

(** ** JSON documents and the Python objects that hold them *)

Inductive json : Type :=
| JNull
| JBool (b : bool)
| JInt (z : Z)
| JFloat (f : pyfloat)
| JStr (s : string)
| JArr (items : list json)
| JObj (members : list (string * json)).

(** A Python value: a scalar, or a reference to a list or dict cell. *)
Inductive val : Type :=
| VNone
| VBool (b : bool)
| VInt (z : Z)
| VFloat (f : pyfloat)
| VStr (s : string)
| VRef (a : nat).

Inductive obj : Type :=
| OList (items : list val)
| ODict (members : list (string * val)).

Abbreviation store := (list obj) (only parsing).

(** Python dicts keep insertion order; assigning to a key that is present
    replaces the value in place. *)
Fixpoint dict_get {V} (k : string) (d : list (string * V)) : option V :=
  match d with
  | [] => None
  | (k', v) :: d' => if decide (k = k') then Some v else dict_get k d'
  end.

Fixpoint dict_set {V} (k : string) (v : V) (d : list (string * V))
  : list (string * V) :=
  match d with
  | [] => [(k, v)]
  | (k', v') :: d' =>
      if decide (k = k') then (k, v) :: d' else (k', v') :: dict_set k v d'
  end.

(** The dict built from the members of a JSON object in reading order: a
    repeated key keeps its first position and its last value. *)
Definition dict_of_pairs {V} (l : list (string * V)) : list (string * V) :=
  foldl (λ d kv, dict_set kv.1 kv.2 d) [] l.

(** A new cell. *)
Definition py_alloc (o : obj) (h : store) : store * val :=
  (h ++ [o], VRef (length h)).

(** [json.loads]: every array and object of the text becomes a new cell. *)
Fixpoint loads (j : json) (h : store) : store * val :=
  match j with
  | JNull => (h, VNone)
  | JBool b => (h, VBool b)
  | JInt z => (h, VInt z)
  | JFloat f => (h, VFloat f)
  | JStr s => (h, VStr s)
  | JArr items =>
      let '(h', vs) :=
        (fix go (items : list json) (h : store) : store * list val :=
           match items with
           | [] => (h, [])
           | j :: rest =>
               let '(h1, v) := loads j h in
               let '(h2, vs) := go rest h1 in
               (h2, v :: vs)
           end) items h in
      py_alloc (OList vs) h'
  | JObj members =>
      let '(h', kvs) :=
        (fix go (members : list (string * json)) (h : store)
           : store * list (string * val) :=
           match members with
           | [] => (h, [])
           | (k, j) :: rest =>
               let '(h1, v) := loads j h in
               let '(h2, kvs) := go rest h1 in
               (h2, (k, v) :: kvs)
           end) members h in
      py_alloc (ODict (dict_of_pairs kvs)) h'
  end.

(** The two local loops of [loads], named. *)
Fixpoint loads_items (items : list json) (h : store) : store * list val :=
  match items with
  | [] => (h, [])
  | j :: rest =>
      let '(h1, v) := loads j h in
      let '(h2, vs) := loads_items rest h1 in
      (h2, v :: vs)
  end.

Fixpoint loads_members (members : list (string * json)) (h : store)
  : store * list (string * val) :=
  match members with
  | [] => (h, [])
  | (k, j) :: rest =>
      let '(h1, v) := loads j h in
      let '(h2, kvs) := loads_members rest h1 in
      (h2, (k, v) :: kvs)
  end.

(** The serialiser walks the object graph.  [fuel] bounds the nesting; a
    graph through which the walk does not end is a circular reference. *)
Fixpoint dumps (fuel : nat) (h : store) (v : val) : option json :=
  match fuel with
  | O => None
  | S n =>
      match v with
      | VNone => Some JNull
      | VBool b => Some (JBool b)
      | VInt z => Some (JInt z)
      | VFloat f => Some (JFloat f)
      | VStr s => Some (JStr s)
      | VRef a =>
          match h !! a with
          | Some (OList vs) => JArr <$> mapM (dumps n h) vs
          | Some (ODict kvs) =>
              JObj <$> mapM (λ kv, pair kv.1 <$> dumps n h kv.2) kvs
          | None => None
          end
      end
  end.

(** [json.dumps(v)]: a store of n cells nests at most n deep unless it is
    circular, which the serialiser reports as a ValueError. *)
Definition py_dumps (h : store) (v : val) : result json :=
  match dumps (S (length h)) h v with
  | Some j => Ok j
  | None => Raise ValueError
  end.

(** [v[k]] with a string key. *)
Definition py_getitem (h : store) (v : val) (k : string) : result val :=
  match v with
  | VRef a =>
      match h !! a with
      | Some (ODict d) =>
          match dict_get k d with
          | Some x => Ok x
          | None => Raise (KeyError k)
          end
      | _ => Raise TypeError
      end
  | _ => Raise TypeError
  end.

(** [v[k] = x] with a string key. *)
Definition py_setitem (h : store) (v : val) (k : string) (x : val)
  : result store :=
  match v with
  | VRef a =>
      match h !! a with
      | Some (ODict d) => Ok (<[a := ODict (dict_set k x d)]> h)
      | _ => Raise TypeError
      end
  | _ => Raise TypeError
  end.

(** [v.setdefault(k, x)]. *)
Definition py_setdefault (h : store) (v : val) (k : string) (x : val)
  : result store :=
  match v with
  | VRef a =>
      match h !! a with
      | Some (ODict d) =>
          match dict_get k d with
          | Some _ => Ok h
          | None => Ok (<[a := ODict (dict_set k x d)]> h)
          end
      | _ => Raise AttributeError
      end
  | _ => Raise AttributeError
  end.

(** [for c in v]: a list yields its items, a dict its keys, a string its
    characters. *)
Definition py_iter (h : store) (v : val) : result (list val) :=
  match v with
  | VRef a =>
      match h !! a with
      | Some (OList vs) => Ok vs
      | Some (ODict d) => Ok (VStr <$> d.*1)
      | None => Raise TypeError
      end
  | VStr s => Ok ((λ c, VStr (String c EmptyString)) <$> list_ascii_of_string s)
  | _ => Raise TypeError
  end.

(** [tuple(v[:n])]. *)
Definition py_prefix (h : store) (v : val) (n : nat) : result (list val) :=
  match v with
  | VRef a =>
      match h !! a with
      | Some (OList vs) => Ok (take n vs)
      | _ => Raise TypeError
      end
  | VStr s =>
      Ok ((λ c, VStr (String c EmptyString)) <$> take n (list_ascii_of_string s))
  | _ => Raise TypeError
  end.

(** The class table handed to [build_caches_from_mask] is typed
    [list[str]] and [list[tuple[int,int,int]]], the colours being cells of a
    uint8 picture.  A template whose names are not strings, or whose colours
    are not three integers of 0..255, lies outside that type; it is rejected
    here, where Python would only fail, or convert, once a mask is painted. *)
Definition as_name (v : val) : result string :=
  match v with
  | VStr s => Ok s
  | _ => Raise TypeError
  end.

Definition as_byte (v : val) : result Byte.byte :=
  match v with
  | VInt z =>
      if decide (0 ≤ z < 256) then
        match Byte.of_N (Z.to_N z) with
        | Some b => Ok b
        | None => Raise TypeError
        end
      else Raise TypeError
  | _ => Raise TypeError
  end.

Definition as_colour (t : list val) : result colour :=
  match t with
  | [r; g; b] =>
      r ← as_byte r; g ← as_byte g; b ← as_byte b; Ok (r, g, b)
  | _ => Raise TypeError
  end.

(** ** The file store *)

Inductive content : Type :=
| CTiff (t : tiff)
| CNpyFloat32 (a : ndarray (list float32))
| CNpyBool3 (a : ndarray (list bool))
| CNpyBool2 (a : ndarray bool)
| CPng (a : ndarray colour)
| CJson (j : json)
| CText (s : string).

Abbreviation fsys := (gmap (list string) content) (only parsing).

(** [p.exists()]: [p] is a file, or a directory with a file below it. *)
Definition path_exists (fs : fsys) (p : path) : bool :=
  bool_decide (Exists (λ q, p `prefix_of` q) (elements (dom fs))).

(** [p.unlink()]. *)
Definition unlink (p : path) (fs : fsys) : result fsys :=
  match fs !! p with
  | Some _ => Ok (delete p fs)
  | None =>
      if path_exists fs p then Raise IsADirectoryError
      else Raise FileNotFoundError
  end.

(** [np.save], [Image.save], [write_text], [json.dump]: the file at [p] is
    created or replaced. *)
Definition write_file (p : path) (c : content) (fs : fsys) : fsys :=
  <[p := c]> fs.

(** A picture read as a raster: three bands of bytes, no coordinate
    reference system, and the pixel grid as its extent. *)
Definition byte_Z (b : Byte.byte) : Z := Z.of_N (Byte.to_N b).

Definition png_raster (a : ndarray colour) : tiff :=
  Tiff (width a) (height a)
    [ (λ c : colour, byte_Z c.1.1) <$> pixels a;
      (λ c : colour, byte_Z c.1.2) <$> pixels a;
      (λ c : colour, byte_Z c.2) <$> pixels a ]
    None
    (Bounds (pyfloat_of_Z 0) (pyfloat_of_Z (Z.of_nat (height a)))
            (pyfloat_of_Z (Z.of_nat (width a))) (pyfloat_of_Z 0)).

(** [rasterio.open(p)]: the format is recognised from the content of the
    file, whatever its name. *)
Definition rio_open (fs : fsys) (p : path) : result tiff :=
  match fs !! p with
  | Some (CTiff t) => Ok t
  | Some (CPng a) => Ok (png_raster a)
  | _ => Raise RasterioIOError
  end.

(** [json.load(open(p))]. *)
Definition read_json (fs : fsys) (p : path) : result json :=
  match fs !! p with
  | Some (CJson j) => Ok j
  | Some _ => Raise JSONDecodeError
  | None =>
      if path_exists fs p then Raise IsADirectoryError
      else Raise FileNotFoundError
  end.

(** A plain file stands on the way to [p]: a directory above [p], other
    than the working directory, is a file of the store. *)
Definition file_above (fs : fsys) (p : path) : bool :=
  bool_decide (Exists (λ q, q `prefix_of` p ∧ q ≠ p ∧ q ≠ [])
                 (elements (dom fs))).

(** [p.mkdir(parents=True, exist_ok=True)]. *)
Definition mkdir_p (p : path) (fs : fsys) : result fsys :=
  if file_above fs p then Raise NotADirectoryError
  else match fs !! p with
       | Some _ => Raise FileExistsError
       | None => Ok fs
       end.

(** [shutil.copyfile(src, dst)], the directory of [dst] being there: [src]
    is opened for reading, then [dst] for writing. *)
Definition copyfile (src dst : path) (fs : fsys) : result fsys :=
  match fs !! src with
  | Some c =>
      if decide (src = dst) then Raise SameFileError
      else if file_above fs dst then Raise NotADirectoryError
      else match fs !! dst with
           | Some _ => Ok (write_file dst c fs)
           | None =>
               if path_exists fs dst then Raise IsADirectoryError
               else Ok (write_file dst c fs)
           end
  | None =>
      if path_exists fs src then Raise IsADirectoryError
      else Raise FileNotFoundError
  end.

Definition path_str (p : path) : string := String.concat "/" p.

Definition nl : string := String (ascii_of_nat 10) EmptyString.

(** ** 1_run_after_copy_images.py *)

Definition BASE_JSON : string := "base.json".
Definition IMAGES_ROOT : path := ["spot"; "images"].
Definition MASK_TIF_NAME : string := "f_1dpwseg.tif".
Definition OVERWRITE_JSON : bool := true.

(** [sorted([p.name for p in root.iterdir() if p.is_dir()])]. *)
Definition list_ids (fs : fsys) (root : path) : list string :=
  merge_sort (λ a b, String.leb a b)
    (remove_dups
       (omap (λ q : list string,
                if decide (root `prefix_of` q ∧ (length root + 1 < length q)%nat)
                then q !! length root else None)
             (elements (dom fs)))).

(** [write_rgb_npy_to_dest]. *)
Definition write_rgb_npy_to_dest (tif_path dest_npy : path) (fs : fsys)
  : result fsys :=
  fs ← (if path_exists fs dest_npy then unlink dest_npy fs else Ok fs);
  src ← rio_open fs tif_path;
  let arr := read_all src in
  let arr := astype_float32 (moveaxis_first_to_last arr) in
  Ok (write_file dest_npy (CNpyFloat32 arr) fs).

(** [get_width_height_from_tif]. *)
Definition get_width_height_from_tif (fs : fsys) (tif_path : path)
  : result (nat * nat) :=
  src ← rio_open fs tif_path;
  Ok (tif_width src, tif_height src).

(** [rasterio.warp.transform(src_crs, dst_crs, xs, ys)], the reprojection
    service of the PROJ library: it returns the transformed xs and ys. *)
Class Warp : Type := {
  transform : string → string → list pyfloat → list pyfloat
              → result (list pyfloat * list pyfloat)
}.

(** [xs[0]]. *)
Definition py_first {A} (xs : list A) : result A :=
  match xs with
  | x :: _ => Ok x
  | [] => Raise IndexError
  end.

(** [compute_center_latlon]. *)
Definition compute_center_latlon `{Warp} (fs : fsys) (tif_path : path)
  : result (option (pyfloat * pyfloat)) :=
  src ← rio_open fs tif_path;
  match tif_crs src with
  | None => Ok None
  | Some crs =>
      let b := tif_bounds src in
      let cx := pyfloat_div (pyfloat_add (b_left b) (b_right b)) (pyfloat_of_Z 2) in
      let cy := pyfloat_div (pyfloat_add (b_bottom b) (b_top b)) (pyfloat_of_Z 2) in
      '(lon, lat) ← transform crs "EPSG:4326" [cx] [cy];
      lat0 ← py_first lat;
      lon0 ← py_first lon;
      Ok (Some (lat0, lon0))
  end.

(** [safe_make_clean_dest_dir]: a stale link is replaced by a directory;
    neither is represented in the store. *)
Definition safe_make_clean_dest_dir (p : path) (fs : fsys) : fsys := fs.

(** [remove_source_rgb_npy]: a failure to remove is only a warning. *)
Definition remove_source_rgb_npy (id_src_dir : path) (fs : fsys) : fsys :=
  let src_npy := id_src_dir </> "rgb.npy" in
  match (if path_exists fs src_npy then unlink src_npy fs else Ok fs) with
  | Ok fs' => fs'
  | Raise _ => fs
  end.

(** [classes.index(x)]. *)
Fixpoint py_index (x : string) (l : list string) : option nat :=
  match l with
  | [] => None
  | y :: l' => if decide (x = y) then Some O else S <$> py_index x l'
  end.

Definition list_index (x : string) (l : list string) : result nat :=
  match py_index x l with
  | Some k => Ok k
  | None => Raise ValueError
  end.

(** [xs[k]]. *)
Definition list_item {A} (xs : list A) (k : nat) : result A :=
  match xs !! k with
  | Some x => Ok x
  | None => Raise IndexError
  end.

(** The preview loop: [for k, _n in enumerate(classes):
    rgbmask[onehot[:, :, k]] = class_colors[k]], over the indices [ks]. *)
Fixpoint paint_classes (ks : list nat) (class_colors : list colour)
    (onehot : ndarray (list bool)) (rgbmask : ndarray colour)
  : result (ndarray colour) :=
  match ks with
  | [] => Ok rgbmask
  | k :: ks' =>
      c ← list_item class_colors k;
      paint_classes ks' class_colors onehot
        (assign_where rgbmask (channel onehot k) c)
  end.

(** [proj_dir / f"{proj_name}.iris" / "segmentation" / id_src_dir.name]. *)
Definition segmentation_dir (proj_dir : path) (proj_name : string)
    (id_src_dir : path) : path :=
  proj_dir </> (proj_name +:+ ".iris") </> "segmentation"
           </> path_name id_src_dir.

(** [build_caches_from_mask]. *)
Definition build_caches_from_mask (id_src_dir proj_dir : path)
    (proj_name : string) (classes : list string) (class_colors : list colour)
    (fs : fsys) : result fsys :=
  let tif_mask := id_src_dir </> MASK_TIF_NAME in
  if negb (path_exists fs tif_mask) then Ok fs else
  src ← rio_open fs tif_mask;
  m ← read_band src 1;
  let m := astype_uint8 m in
  let m := np_where (arr_eqb m 255) 0 m in
  let H := height m in
  let W := width m in
  let K := length classes in
  let onehot := np_full H W (replicate K false) in
  onehot ← (if bool_decide ("Clear" ∈ classes) then
              k_clear ← list_index "Clear" classes;
              Ok (ior_channel onehot k_clear (arr_eqb m 0))
            else Ok onehot);
  onehot ← (if bool_decide ("Cloud" ∈ classes) then
              k_cloud ← list_index "Cloud" classes;
              let onehot := ior_channel onehot k_cloud (arr_eqb m 1) in
              Ok (ior_channel onehot k_cloud (arr_gtb m 1))
            else Ok onehot);
  let user := np_full H W true in
  let seg_dir := segmentation_dir proj_dir proj_name id_src_dir in
  let fs := write_file (seg_dir </> "1_final.npy") (CNpyBool3 onehot) fs in
  let fs := write_file (seg_dir </> "1_user.npy") (CNpyBool2 user) fs in
  let rgbmask := np_full H W black in
  rgbmask ← paint_classes (seq 0 K) class_colors onehot rgbmask;
  Ok (write_file (seg_dir </> "mask.png") (CPng rgbmask) fs).

(** Lines 210 to 215 of [create_projects_per_id]: the per-scene document,
    a copy of the template through its JSON text, with the scene's fields
    assigned.  The right-hand side of an assignment is evaluated first. *)
Definition scene_cfg (base_cfg : val) (id_name : string) (W H : nat)
    (h : store) : result (store * val) :=
  text ← py_dumps h base_cfg;
  let '(h, cfg) := loads text h in
  h ← py_setitem h cfg "name" (VStr id_name);
  images ← py_getitem h cfg "images";
  h ← py_setitem h images "path" (VStr "images/{id}/rgb.npy");
  let '(h, shape) := py_alloc (OList [VInt (Z.of_nat W); VInt (Z.of_nat H)]) h in
  images ← py_getitem h cfg "images";
  h ← py_setitem h images "shape" shape;
  let '(h, empty) := py_alloc (ODict []) h in
  h ← py_setdefault h cfg "segmentation" empty;
  let '(h, area) :=
    py_alloc (OList [VInt 0; VInt 0; VInt (Z.of_nat W); VInt (Z.of_nat H)]) h in
  segmentation ← py_getitem h cfg "segmentation";
  h ← py_setitem h segmentation "mask_area" area;
  Ok (h, cfg).

(** The state of a run: the files and the Python objects. *)
Record world : Type := World {
  files : gmap (list string) content;
  objects : list obj
}.

(** The [metadata.json] document of a scene. *)
Definition metadata_doc (id_name : string) (lat lon : pyfloat) : json :=
  JObj [("scene_id", JStr id_name); ("location", JArr [JFloat lat; JFloat lon])].

(** Lines 197 to 203: [metadata.json] is written when a location was
    computed; otherwise only a warning is printed. *)
Definition write_metadata (proj_images_id_dir : path) (id_name : string)
    (latlon : option (pyfloat * pyfloat)) (fs : fsys) : fsys :=
  match latlon with
  | None => fs
  | Some (lat, lon) =>
      write_file (proj_images_id_dir </> "metadata.json")
        (CJson (metadata_doc id_name lat lon)) fs
  end.

(** The paths of a scene. *)
Definition scene_src_dir (images_root : path) (id_name : string) : path :=
  images_root </> id_name.
Definition scene_tif (images_root : path) (id_name : string) : path :=
  images_root </> id_name </> "rgb.tif".
Definition project_dir (base_json_path : path) (id_name : string) : path :=
  path_parent base_json_path </> "spot" </> id_name.
Definition project_images_dir (base_json_path : path) (id_name : string)
  : path :=
  project_dir base_json_path id_name </> "images" </> id_name.
Definition project_npy (base_json_path : path) (id_name : string) : path :=
  project_images_dir base_json_path id_name </> "rgb.npy".
Definition project_metadata (base_json_path : path) (id_name : string)
  : path :=
  project_images_dir base_json_path id_name </> "metadata.json".
Definition project_json (base_json_path : path) (id_name : string) : path :=
  project_dir base_json_path id_name </> (id_name +:+ ".json").
Definition launch_line (base_json_path : path) (id_name : string) : string :=
  "iris label " +:+ path_str (project_json base_json_path id_name).

(** The body of the loop over the scene identifiers. *)
Definition process_scene `{Warp} (base_json_path images_root : path)
    (base_cfg : val) (classes : list string) (class_colors : list colour)
    (id_name : string) (st : world * list string)
  : result (world * list string) :=
  let fs := files st.1 in
  let id_src_dir := images_root </> id_name in
  let tif_rgb := id_src_dir </> "rgb.tif" in
  if negb (path_exists fs tif_rgb) then Ok st else
  '(W, H) ← get_width_height_from_tif fs tif_rgb;
  let proj_dir := path_parent base_json_path </> "spot" </> id_name in
  let proj_images_id_dir := proj_dir </> "images" </> id_name in
  let fs := safe_make_clean_dest_dir proj_images_id_dir fs in
  let dest_npy := proj_images_id_dir </> "rgb.npy" in
  fs ← write_rgb_npy_to_dest tif_rgb dest_npy fs;
  latlon ← compute_center_latlon fs tif_rgb;
  let fs := write_metadata proj_images_id_dir id_name latlon fs in
  let fs := remove_source_rgb_npy id_src_dir fs in
  let proj_json := proj_dir </> (id_name +:+ ".json") in
  '(h, cfg) ← scene_cfg base_cfg id_name W H (objects st.1);
  fs ← (if OVERWRITE_JSON || negb (path_exists fs proj_json) then
          text ← py_dumps h cfg;
          Ok (write_file proj_json (CJson text) fs)
        else Ok fs);
  fs ← build_caches_from_mask id_src_dir proj_dir id_name classes class_colors fs;
  Ok (World fs h, st.2 ++ ["iris label " +:+ path_str proj_json]).

(** [for id_name in ids: ...]. *)
Fixpoint process_ids `{Warp} (base_json_path images_root : path)
    (base_cfg : val) (classes : list string) (class_colors : list colour)
    (ids : list string) (st : world * list string)
  : result (world * list string) :=
  match ids with
  | [] => Ok st
  | id_name :: rest =>
      st' ← process_scene base_json_path images_root base_cfg classes
              class_colors id_name st;
      process_ids base_json_path images_root base_cfg classes class_colors
        rest st'
  end.

(** The launcher script. *)
Definition run_script (run_lines : list string) : string :=
  "#!/usr/bin/env bash" +:+ nl +:+ "set -e" +:+ nl +:+ nl
  +:+ String.concat "" ((λ line, line +:+ nl) <$> run_lines).

(** [create_projects_per_id]. *)
Definition create_projects_per_id `{Warp} (base_json_path images_root : path)
    (w : world) : result world :=
  if negb (path_exists (files w) base_json_path) then Raise FileNotFoundError
  else if negb (path_exists (files w) images_root) then Raise FileNotFoundError
  else
  text ← read_json (files w) base_json_path;
  let '(h, base_cfg) := loads text (objects w) in
  cs ← py_getitem h base_cfg "classes";
  cs ← py_iter h cs;
  classes ← mapM (λ c, n ← py_getitem h c "name"; as_name n) cs;
  cs ← py_getitem h base_cfg "classes";
  cs ← py_iter h cs;
  class_colors ← mapM (λ c, col ← py_getitem h c "colour";
                            t ← py_prefix h col 3;
                            as_colour t) cs;
  let w := World (files w) h in
  let ids := list_ids (files w) images_root in
  match ids with
  | [] => Ok w
  | _ =>
      '(w, run_lines) ← process_ids base_json_path images_root base_cfg
                          classes class_colors ids (w, []);
      let run_sh := path_parent base_json_path </> "run_all_projects.sh" in
      Ok (World (write_file run_sh (CText (run_script run_lines)) (files w))
                (objects w))
  end.

(** [main], the paths being relative to the working directory. *)
Definition main `{Warp} (w : world) : result world :=
  create_projects_per_id [BASE_JSON] IMAGES_ROOT w.

(** ** 2_run_after_edit.py *)

Definition SPOT_ROOT : path := ["spot"].
Definition OUTPUT_DIR : path := ["save_mask"].
Definition IDS : list string := ["V1KRNP____19990110F185_V003"].

Record tally : Type := Tally {
  t_files : gmap (list string) content;
  ok : nat;
  missing : nat
}.

(** A name that pathlib joins to a path as one component: not empty, not
    [.] or [..], and without separator. *)
Definition is_component (s : string) : bool :=
  negb (String.eqb s "") && negb (String.eqb s ".")
  && negb (String.eqb s "..")
  && forallb (λ a, negb (Ascii.eqb a "/")) (list_ascii_of_string s).

Definition preview_src (id_name : string) : path :=
  SPOT_ROOT </> id_name </> (id_name +:+ ".iris") </> "segmentation"
            </> id_name </> "mask.png".

Definition preview_dst (id_name : string) : path :=
  OUTPUT_DIR </> (id_name +:+ ".png").

(** The body of the loop over [IDS]. *)
Definition harvest_step (id_name : string) (st : tally) : result tally :=
  let src := preview_src id_name in
  let dst := preview_dst id_name in
  if negb (path_exists (t_files st) src) then
    Ok (Tally (t_files st) (ok st) (missing st + 1))
  else
    fs ← copyfile src dst (t_files st);
    Ok (Tally fs (ok st) (missing st)).

Fixpoint harvest (ids : list string) (st : tally) : result tally :=
  match ids with
  | [] => Ok st
  | id_name :: rest => st' ← harvest_step id_name st; harvest rest st'
  end.

(** The script: [OUTPUT_DIR.mkdir(parents=True, exist_ok=True)], then the
    loop with both counters at zero. *)
Definition run_after_edit (ids : list string) (fs : fsys) : result tally :=
  fs ← mkdir_p OUTPUT_DIR fs;
  harvest ids (Tally fs 0 0).

(** ** The encoder seen from one sample

    What [build_caches_from_mask] computes at one cell, as a function of the
    raw sample: the same operations, cell-wise.  The lemmas below show that the
    arrays the function writes are these functions mapped over the band. *)



(** ** Notions used to state the properties of the documents *)

(** The member [k] of a JSON object as Python's parser reads the text: the
    last one when the key is repeated. *)
Definition json_get (k : string) (j : json) : option json :=
  match j with
  | JObj ms => dict_get k (dict_of_pairs ms)
  | _ => None
  end.

(** The values a cell holds. *)
Definition children (o : obj) : list val :=
  match o with
  | OList vs => vs
  | ODict kvs => kvs.*2
  end.

(** [d[k]] of the dict at address [a], and the items of the list at [a]. *)
Definition py_field (h : store) (a : nat) (k : string) : option val :=
  match h !! a with
  | Some (ODict d) => dict_get k d
  | _ => None
  end.

Definition py_list (h : store) (a : nat) : option (list val) :=
  match h !! a with
  | Some (OList vs) => Some vs
  | _ => None
  end.

(** A value that refers, if at all, to a cell of the region [lo, hi). *)
Definition val_in (lo hi : nat) (v : val) : Prop :=
  match v with
  | VRef a => (lo ≤ a < hi)%nat
  | _ => True
  end.

(** The region [lo, hi) of a store is closed when its cells refer only to
    cells of the region. *)
Definition closed (h : store) (lo hi : nat) : Prop :=
  ∀ a o, (lo ≤ a < hi)%nat → h !! a = Some o →
    Forall (val_in lo hi) (children o).

(** Two stores that hold the same cells in the region [lo, hi). *)
Definition agree_on (lo hi : nat) (h h' : store) : Prop :=
  ∀ a, (lo ≤ a < hi)%nat → h' !! a = h !! a.

(** What the loop of the harvester does to the store: it creates or
    replaces files of the output directory itself, so the previews seen by the
    loop are those of the initial store; and it removes nothing. *)
Definition outside_output (fs0 fs : gmap (list string) content) : Prop :=
  (∀ q, head q ≠ Some "save_mask" ∨ length q ≠ 2%nat → fs !! q = fs0 !! q)
  ∧ ∀ q, is_Some (fs0 !! q) → is_Some (fs !! q).

(** Related dicts: the same keys in the same order, with related values. *)
Definition dict_rel {V W} (R : V → W → Prop) :
    list (string * V) → list (string * W) → Prop :=
  Forall2 (λ kv kw, kv.1 = kw.1 ∧ R kv.2 kw.2).

(** A value that the serialiser reads with fuel [n]. *)
Definition readable (n : nat) (h : list obj) (v : val) : Prop :=
  is_Some (dumps n h v).

#[local] Instance readable_dec (n : nat) (h : list obj) (v : val) :
  Decision (readable n h v).
Proof. unfold readable. apply _. Defined.

(** The store grew from [h0] to [h] by a closed region. *)
Definition extends_closed (h0 h : list obj) : Prop :=
  (length h0 ≤ length h)%nat
  ∧ agree_on 0 (length h0) h0 h
  ∧ closed h (length h0) (length h).

(** Case analysis on the first step of a computation that returned. *)
Ltac inv_bind H x Hx :=
  match type of H with
  | mbind _ ?m = Ok _ =>
      destruct m as [x|] eqn:Hx; [cbn [mbind result_bind] in H|discriminate H]
  end.

(** A dict cell, its keys distinct. *)
Definition good_dict (h : list obj) (a : nat) : Prop :=
  ∃ d, h !! a = Some (ODict d) ∧ NoDup d.*1.

(** What [json.loads] leaves for a member of an object: a dict cell for a
    member that is an object. *)
Definition loaded_kind (h : list obj) (v : val) (j : json) : Prop :=
  match j with
  | JObj _ => ∃ a, v = VRef a ∧ good_dict h a
  | _ => True
  end.

(** ** Notions used by the further properties *)

(** The files that processing a scene writes or removes. *)
Definition scene_outputs (base_json_path images_root : list string)
    (id_name : string) : list (list string) :=
  let seg_dir := segmentation_dir (project_dir base_json_path id_name) id_name
                   (scene_src_dir images_root id_name) in
  [project_npy base_json_path id_name;
   project_metadata base_json_path id_name;
   scene_src_dir images_root id_name </> "rgb.npy";
   project_json base_json_path id_name;
   seg_dir </> "1_final.npy"; seg_dir </> "1_user.npy"; seg_dir </> "mask.png"].




(** Python dicts hold every key once. *)
Definition store_wf (h : list obj) : Prop :=
  Forall (λ o, match o with ODict d => NoDup d.*1 | OList _ => True end) h.

(** A text in which no object repeats a key, as [json.dumps] writes it. *)
Inductive canonical : json → Prop :=
| canonical_null : canonical JNull
| canonical_bool b : canonical (JBool b)
| canonical_int z : canonical (JInt z)
| canonical_float f : canonical (JFloat f)
| canonical_str s : canonical (JStr s)
| canonical_arr items : Forall canonical items → canonical (JArr items)
| canonical_obj ms :
    NoDup ms.*1 → Forall (λ kv, canonical kv.2) ms → canonical (JObj ms).

(** A value on which item assignment with a string key fails: a scalar or
    a list. *)
Definition not_a_dict (h : list obj) (v : val) : Prop :=
  match v with
  | VRef a => is_Some (py_list h a)
  | _ => True
  end.

(** What [json.loads] leaves for a member: a dict cell for an object,
    something else for anything else. *)
Definition loaded_shape (h : list obj) (v : val) (j : json) : Prop :=
  match j with
  | JObj _ => ∃ a, v = VRef a ∧ good_dict h a
  | _ => not_a_dict h v
  end.

Definition is_object (j : json) : bool :=
  match j with JObj _ => true | _ => false end.

#[local] Instance store_wf_dec (h : list obj) : Decision (store_wf h).
Proof.
  unfold store_wf. apply Forall_dec. intros [vs|d]; apply _.
Defined.

(** ** A small project, to exercise the statements *)

Definition ex_bounds : bounds :=
  Bounds (pyfloat_of_Z 0) (pyfloat_of_Z 0) (pyfloat_of_Z 20) (pyfloat_of_Z 20).

(** The mask of the specification's example, and a three-band image. *)
Definition ex_mask : tiff := Tiff 2 2 [[0; 1; 255; 2]] None ex_bounds.
Definition ex_rgb : tiff :=
  Tiff 2 2 [[1; 2; 3; 4]; [5; 6; 7; 8]; [9; 10; 11; 12]] None ex_bounds.

Definition ex_classes : list string := ["Clear"; "Cloud"].
Definition ex_colours : list colour :=
  [(Byte.xff, Byte.xff, Byte.xff); (Byte.xff, Byte.x00, Byte.x00)].

Definition ex_template : json :=
  JObj [("name", JStr "spot");
        ("images", JObj [("path", JStr "images/{id}/image.tif")]);
        ("classes",
         JArr [JObj [("name", JStr "Clear");
                     ("colour", JArr [JInt 255; JInt 255; JInt 255; JInt 0])];
               JObj [("name", JStr "Cloud");
                     ("colour", JArr [JInt 255; JInt 0; JInt 0; JInt 70])]])].

Definition ex_fs : gmap (list string) content :=
  <[ ["spot"; "images"; "S1"; "rgb.tif"] := CTiff ex_rgb ]>
    (<[ ["spot"; "images"; "S1"; "f_1dpwseg.tif"] := CTiff ex_mask ]>
       (<[ ["base.json"] := CJson ex_template ]> ∅)).

(** The template as [json.load] leaves it in an empty store. *)
Definition ex_h0 : list obj := (loads ex_template []).1.
Definition ex_base : val := (loads ex_template []).2.

(** The documents of two scenes made one after the other. *)
Definition ex_scene1 : list obj * val :=
  Eval vm_compute in
    match scene_cfg ex_base "S1" 2 2 ex_h0 with
    | Ok r => r
    | Raise _ => ([], VNone)
    end.
Definition ex_scene2 : list obj * val :=
  Eval vm_compute in
    match scene_cfg ex_base "S2" 2 2 ex_scene1.1 with
    | Ok r => r
    | Raise _ => ([], VNone)
    end.

(** A reprojection that leaves the coordinates as they are. *)
Definition ex_warp : Warp := {| transform := λ _ _ xs ys, Ok (xs, ys) |}.

(** The image path that the specification describes: the template
    "images/{id}/rgb.npy" with the scene identifier in the place of the
    placeholder. *)
Definition instantiated_image_path (id_name : string) : string :=
  "images/" +:+ id_name +:+ "/rgb.npy".

(** The files of the scene "S1" as the run of [main] leaves them, step by
    step. *)
Definition ex_fs1 : gmap (list string) content :=
  Eval vm_compute in
    match write_rgb_npy_to_dest (scene_tif IMAGES_ROOT "S1")
            (project_npy ["base.json"] "S1") ex_fs with
    | Ok fs => fs
    | Raise _ => ∅
    end.
Definition ex_text1 : json :=
  Eval vm_compute in
    match py_dumps ex_scene1.1 ex_scene1.2 with
    | Ok j => j
    | Raise _ => JNull
    end.
Definition ex_fs3 : gmap (list string) content :=
  Eval vm_compute in
    match build_caches_from_mask (scene_src_dir IMAGES_ROOT "S1")
            (project_dir ["base.json"] "S1") "S1" ex_classes ex_colours
            (write_file (project_json ["base.json"] "S1") (CJson ex_text1)
               (remove_source_rgb_npy (scene_src_dir IMAGES_ROOT "S1") ex_fs1))
    with
    | Ok fs => fs
    | Raise _ => ∅
    end.

(** The state in which [main] leaves the small project. *)
Definition ex_world : world :=
  Eval vm_compute in
    match @main ex_warp (World ex_fs []) with
    | Ok w => w
    | Raise _ => World ∅ []
    end.

(** The files of the scene "S1" when its caches are about to be built. *)
Definition ex_staged : gmap (list string) content :=
  write_file (project_json ["base.json"] "S1") (CJson ex_text1)
    (remove_source_rgb_npy (scene_src_dir IMAGES_ROOT "S1") ex_fs1).

(** A template without an [images] member, loaded in an empty store. *)
Definition ex_bare : json :=
  JObj [("name", JStr "spot"); ("classes", JArr [])].
Definition ex_bare_h : list obj := (loads ex_bare []).1.
Definition ex_bare_v : val := (loads ex_bare []).2.

(** Previews to harvest: those of "A" and "C", and a copy of an earlier
    harvest. *)
Definition ex_previews : gmap (list string) content :=
  <[ ["save_mask"; "A.png"] := CText "an earlier copy" ]>
    (<[ preview_src "A" := CText "preview of A" ]>
       (<[ preview_src "C" := CText "preview of C" ]> ∅)).

(** * Properties *)

(** ** Lists, paths and the store of files *)

Lemma joinpath_inj (p q : list string) (a b : string) :
  p </> a = q </> b → p = q ∧ a = b.
Proof.
  unfold joinpath. intros E. apply app_inj_tail in E. done.
Qed.

Lemma joinpath_ne_name (p q : list string) (a b : string) :
  a ≠ b → p </> a ≠ q </> b.
Proof. intros Hab E. apply joinpath_inj in E. tauto. Qed.

Lemma zip_with_nest_l {A B C} (f : A → B → A) (g : C → B) (F : A → C → A)
    (l : list A) (k : list C) :
  zip_with F (zip_with f l (g <$> k)) k
  = zip_with (λ a c, F (f a (g c)) c) l k.
Proof.
  revert k. induction l as [|a l IH]; intros [|c k]; simpl; [done..|].
  by rewrite IH.
Qed.








Lemma path_exists_spec (fs : gmap (list string) content) (p : list string) :
  path_exists fs p = true ↔ ∃ q, is_Some (fs !! q) ∧ p `prefix_of` q.
Proof.
  unfold path_exists. rewrite bool_decide_eq_true, Exists_exists.
  split; intros (q & H1 & H2); exists q.
  - apply elem_of_elements, elem_of_dom in H1. done.
  - split; [|done]. by apply elem_of_elements, elem_of_dom.
Qed.

Lemma path_exists_file (fs : gmap (list string) content) (p : list string) c :
  fs !! p = Some c → path_exists fs p = true.
Proof. intros E. apply path_exists_spec. exists p. split; [by eexists|done]. Qed.

Lemma path_exists_false (fs : gmap (list string) content) (p : list string) :
  path_exists fs p = false → fs !! p = None.
Proof.
  intros E. destruct (fs !! p) as [c|] eqn:El; [|done].
  apply path_exists_file in El. congruence.
Qed.

(** The two comprehensions of [create_projects_per_id] run over the same
    [base_cfg["classes"]]: the table handed to [build_caches_from_mask] has
    one colour per name. *)
Lemma mapM_result_length {A B} (f : A → result B) (l : list A) (k : list B) :
  mapM f l = Ok k → length k = length l.
Proof.
  revert k. induction l as [|x l IH]; intros k; csimpl.
  - by intros [= <-].
  - destruct (f x) as [y|]; [|done]. cbn [mbind result_bind].
    destruct (mapM f l) as [k'|]; [|done]. cbn [mbind result_bind].
    intros [= <-]. simpl. f_equal. by apply IH.
Qed.

Lemma class_table_aligned (h : list obj) (cs : list val)
    (classes : list string) (class_colors : list colour) :
  mapM (λ c, n ← py_getitem h c "name"; as_name n) cs = Ok classes →
  mapM (λ c, col ← py_getitem h c "colour";
             t ← py_prefix h col 3;
             as_colour t) cs = Ok class_colors →
  length class_colors = length classes.
Proof.
  intros Hn Hc. apply mapM_result_length in Hn, Hc. congruence.
Qed.

(** ** The mask cache encoder, cell by cell *)























(** ** The claims about the mask cache encoder *)






(** ** The array materializer *)








(** ** The harvester *)

Lemma list_ascii_app (s t : string) :
  list_ascii_of_string (s +:+ t)
  = list_ascii_of_string s ++ list_ascii_of_string t.
Proof. induction s as [|a s IH]; simpl; [done|]. by rewrite IH. Qed.

Lemma string_app_inj_r (s1 s2 t : string) : s1 +:+ t = s2 +:+ t → s1 = s2.
Proof.
  intros E. apply (f_equal list_ascii_of_string) in E.
  rewrite !list_ascii_app in E. apply app_inv_tail in E.
  apply (f_equal string_of_list_ascii) in E.
  by rewrite !string_of_list_ascii_of_string in E.
Qed.

Lemma preview_dst_inj (a b : string) : preview_dst a = preview_dst b → a = b.
Proof.
  unfold preview_dst. intros E. apply joinpath_inj in E as [_ E].
  by apply string_app_inj_r in E.
Qed.

Lemma preview_src_head (id_name : string) (q : list string) :
  preview_src id_name `prefix_of` q → head q = Some "spot".
Proof. intros [k ->]. done. Qed.

Lemma preview_dst_head (id_name : string) :
  head (preview_dst id_name) = Some "save_mask".
Proof. done. Qed.

Lemma file_above_spec (fs : gmap (list string) content) (p : list string) :
  file_above fs p = true
  ↔ ∃ q, is_Some (fs !! q) ∧ q `prefix_of` p ∧ q ≠ p ∧ q ≠ [].
Proof.
  unfold file_above. rewrite bool_decide_eq_true, Exists_exists.
  split; intros (q & H1 & H2); exists q.
  - apply elem_of_elements, elem_of_dom in H1. done.
  - split; [|done]. by apply elem_of_elements, elem_of_dom.
Qed.

Lemma prefix_of_pair {A} (q : list A) (a b : A) :
  q `prefix_of` [a; b] → q = [] ∨ q = [a] ∨ q = [a; b].
Proof.
  intros [k E]. destruct q as [|x [|y [|z q]]]; simplify_eq/=; auto.
Qed.

(** Nothing stands on the way to the output directory, and only the
    directory itself on the way to a file of it. *)
Lemma file_above_output (fs : gmap (list string) content) :
  file_above fs OUTPUT_DIR = false.
Proof.
  apply not_true_is_false. rewrite file_above_spec.
  intros (q & _ & [k E] & Hne & Hnil).
  destruct q as [|x [|y q]]; [done| |done].
  injection E as <- Hk. apply Hne. unfold OUTPUT_DIR. done.
Qed.

Lemma file_above_dst (fs : gmap (list string) content) (id_name : string) :
  fs !! OUTPUT_DIR = None → file_above fs (preview_dst id_name) = false.
Proof.
  intros Hout. apply not_true_is_false. rewrite file_above_spec.
  intros (q & [c Hq] & Hpre & Hne & Hnil).
  apply prefix_of_pair in Hpre as [->| [->| ->]]; [done| |done].
  unfold OUTPUT_DIR in Hout. congruence.
Qed.

Lemma mkdir_output (fs : gmap (list string) content) :
  fs !! OUTPUT_DIR = None → mkdir_p OUTPUT_DIR fs = Ok fs.
Proof.
  intros Hout. unfold mkdir_p. by rewrite file_above_output, Hout.
Qed.

Lemma outside_output_refl (fs : gmap (list string) content) :
  outside_output fs fs.
Proof. by split. Qed.

Lemma outside_output_exists (fs0 fs : gmap (list string) content)
    (id_name : string) :
  outside_output fs0 fs →
  path_exists fs (preview_src id_name) = path_exists fs0 (preview_src id_name).
Proof.
  intros [Hinv _]. apply eq_true_iff_eq. rewrite !path_exists_spec.
  split; intros (q & Hq & Hpre); exists q; (split; [|done]);
    apply preview_src_head in Hpre as Hhead.
  - rewrite <- Hinv; [done|]. left. rewrite Hhead. by intros [=].
  - rewrite Hinv; [done|]. left. rewrite Hhead. by intros [=].
Qed.

Lemma outside_output_src (fs0 fs : gmap (list string) content)
    (id_name : string) :
  outside_output fs0 fs →
  fs !! preview_src id_name = fs0 !! preview_src id_name.
Proof. intros [Hinv _]. apply Hinv. left. by intros [=]. Qed.

Lemma outside_output_dir (fs0 fs : gmap (list string) content) :
  outside_output fs0 fs → fs !! OUTPUT_DIR = fs0 !! OUTPUT_DIR.
Proof. intros [Hinv _]. apply Hinv. right. simpl. lia. Qed.

(** A destination that was no directory at the start is none later on. *)
Lemma outside_output_dst (fs0 fs : gmap (list string) content)
    (id_name : string) :
  outside_output fs0 fs →
  (path_exists fs0 (preview_dst id_name) = true →
   is_Some (fs0 !! preview_dst id_name)) →
  path_exists fs (preview_dst id_name) = true →
  is_Some (fs !! preview_dst id_name).
Proof.
  intros [Hinv Hkeep] Hdst Hex.
  apply path_exists_spec in Hex as (q & Hq & Hpre).
  destruct (decide (length q = 2%nat)) as [Hlen|Hlen].
  - destruct Hpre as [k ->]. rewrite length_app in Hlen. simpl in Hlen.
    destruct k; [|simpl in Hlen; lia]. by rewrite app_nil_r in Hq.
  - apply Hkeep, Hdst, path_exists_spec. exists q. split; [|done].
    rewrite <- Hinv; [done|]. by right.
Qed.

Lemma outside_output_write (fs0 fs : gmap (list string) content)
    (id_name : string) (c : content) :
  outside_output fs0 fs →
  outside_output fs0 (write_file (preview_dst id_name) c fs).
Proof.
  intros [Hinv Hkeep]. unfold write_file. split.
  - intros q Hq. rewrite lookup_insert_ne; [by apply Hinv|].
    intros <-. destruct Hq as [Hq|Hq]; by apply Hq.
  - intros q Hq. apply Hkeep in Hq.
    destruct (decide (preview_dst id_name = q)) as [->|Hne].
    + rewrite lookup_insert_eq. by eexists.
    + by rewrite lookup_insert_ne.
Qed.

(** The copy of one preview, seen from a state of the loop. *)
Lemma copy_preview (fs0 fs : gmap (list string) content) (id_name : string)
    (c : content) :
  outside_output fs0 fs →
  fs0 !! OUTPUT_DIR = None →
  fs0 !! preview_src id_name = Some c →
  (path_exists fs0 (preview_dst id_name) = true →
   is_Some (fs0 !! preview_dst id_name)) →
  copyfile (preview_src id_name) (preview_dst id_name) fs
  = Ok (write_file (preview_dst id_name) c fs).
Proof.
  intros Hinv Hout Hc Hdst. unfold copyfile.
  rewrite (outside_output_src fs0 _ id_name Hinv), Hc.
  rewrite decide_False by (intros E; by apply (f_equal head) in E).
  rewrite file_above_dst
    by (by rewrite (outside_output_dir fs0 fs Hinv)).
  destruct (fs !! preview_dst id_name) as [d|] eqn:Hd; [done|].
  destruct (path_exists fs (preview_dst id_name)) eqn:Hex; [|done].
  destruct (outside_output_dst fs0 fs id_name Hinv Hdst Hex) as [d Hd'].
  congruence.
Qed.

Lemma harvest_miss (id_name : string) (rest : list string) (st : tally) :
  path_exists (t_files st) (preview_src id_name) = false →
  harvest (id_name :: rest) st
  = harvest rest (Tally (t_files st) (ok st) (missing st + 1)).
Proof. intros Hex. simpl. unfold harvest_step. by rewrite Hex. Qed.

Lemma harvest_spec (fs0 : gmap (list string) content) (ids : list string) :
  fs0 !! OUTPUT_DIR = None →
  (∀ id_name, id_name ∈ ids →
     path_exists fs0 (preview_src id_name) = true →
     is_Some (fs0 !! preview_src id_name)) →
  (∀ id_name, id_name ∈ ids →
     is_Some (fs0 !! preview_src id_name) →
     path_exists fs0 (preview_dst id_name) = true →
     is_Some (fs0 !! preview_dst id_name)) →
  ∀ st, outside_output fs0 (t_files st) →
  ∃ st', harvest ids st = Ok st'
    ∧ outside_output fs0 (t_files st')
    ∧ ok st' = ok st
    ∧ missing st'
      = (missing st
         + length (filter (λ id_name,
                             path_exists fs0 (preview_src id_name) = false)
                     ids))%nat
    ∧ (∀ id_name c, id_name ∈ ids → fs0 !! preview_src id_name = Some c →
         t_files st' !! preview_dst id_name = Some c)
    ∧ (∀ p, (∀ id_name, id_name ∈ ids →
               is_Some (fs0 !! preview_src id_name) →
               p ≠ preview_dst id_name) →
         t_files st' !! p = t_files st !! p).
Proof.
  intros Hout.
  induction ids as [|i ids IH]; intros Hfiles Hdsts st Hinv.
  - exists st. simpl. repeat split; try done; try lia; try apply Hinv.
    intros ? ? Hin. by apply elem_of_nil in Hin.
  - assert (Hfiles' : ∀ id_name, id_name ∈ ids →
              path_exists fs0 (preview_src id_name) = true →
              is_Some (fs0 !! preview_src id_name)).
    { intros j Hj. apply Hfiles. by apply elem_of_cons; right. }
    assert (Hdsts' : ∀ id_name, id_name ∈ ids →
              is_Some (fs0 !! preview_src id_name) →
              path_exists fs0 (preview_dst id_name) = true →
              is_Some (fs0 !! preview_dst id_name)).
    { intros j Hj. apply Hdsts. by apply elem_of_cons; right. }
    destruct (path_exists fs0 (preview_src i)) eqn:Hex.
    + destruct (Hfiles i ltac:(by apply elem_of_cons; left) Hex)
        as [c Hc].
      simpl. unfold harvest_step.
      rewrite (outside_output_exists fs0 _ i Hinv), Hex. cbn [negb].
      rewrite (copy_preview fs0 _ i c Hinv Hout Hc)
        by (apply Hdsts; [by apply elem_of_cons; left|by eexists]).
      cbn [mbind result_bind].
      set (st1 := Tally (write_file (preview_dst i) c (t_files st))
                    (ok st) (missing st)).
      assert (Hinv1 : outside_output fs0 (t_files st1)).
      { by apply outside_output_write. }
      destruct (IH Hfiles' Hdsts' st1 Hinv1)
        as (st' & Hrun & Hinv' & Hok & Hmiss & Hcopied & Hframe).
      exists st'. split; [done|]. split; [done|]. split; [done|]. split.
      { rewrite Hmiss. simpl.
        rewrite filter_cons_False by (rewrite Hex; discriminate). done. }
      split.
      * intros j cj Hj Hcj. apply elem_of_cons in Hj as [->|Hj].
        -- destruct (decide (i ∈ ids)) as [Hin|Hnin];
             [by apply Hcopied|].
           rewrite Hframe.
           ++ simpl. unfold write_file. rewrite lookup_insert_eq. congruence.
           ++ intros j Hj _ E. apply preview_dst_inj in E. congruence.
        -- by apply Hcopied.
      * intros p Hp. rewrite Hframe.
        -- simpl. unfold write_file. apply lookup_insert_ne.
           intros <-. eapply Hp; [by apply elem_of_cons; left| |done].
           by eexists.
        -- intros j Hj. apply Hp. by apply elem_of_cons; right.
    + rewrite harvest_miss
        by (by rewrite (outside_output_exists fs0 _ i Hinv)).
      set (st1 := Tally (t_files st) (ok st) (missing st + 1)).
      destruct (IH Hfiles' Hdsts' st1 Hinv)
        as (st' & Hrun & Hinv' & Hok & Hmiss & Hcopied & Hframe).
      exists st'. split; [done|]. split; [done|]. split; [done|]. split.
      { rewrite Hmiss. simpl. rewrite filter_cons_True by done. simpl. lia. }
      split.
      * intros j cj Hj Hcj. apply elem_of_cons in Hj as [->|Hj].
        -- apply path_exists_file in Hcj. congruence.
        -- by apply Hcopied.
      * intros p Hp. rewrite Hframe; [done|].
        intros j Hj. apply Hp. by apply elem_of_cons; right.
Qed.

(** The whole script, from a store in which [save_mask] is no plain file
    and, for the identifiers of the list, a preview is a file or absent and
    the place of a copy is no directory. *)
Lemma run_after_edit_spec (fs : gmap (list string) content)
    (ids : list string) :
  fs !! OUTPUT_DIR = None →
  (∀ id_name, id_name ∈ ids →
     path_exists fs (preview_src id_name) = true →
     is_Some (fs !! preview_src id_name)) →
  (∀ id_name, id_name ∈ ids →
     is_Some (fs !! preview_src id_name) →
     path_exists fs (preview_dst id_name) = true →
     is_Some (fs !! preview_dst id_name)) →
  ∃ st, run_after_edit ids fs = Ok st
    ∧ outside_output fs (t_files st)
    ∧ ok st = 0%nat
    ∧ missing st
      = length (filter (λ id_name,
                          path_exists fs (preview_src id_name) = false) ids)
    ∧ (∀ id_name c, id_name ∈ ids → fs !! preview_src id_name = Some c →
         t_files st !! preview_dst id_name = Some c)
    ∧ (∀ p, (∀ id_name, id_name ∈ ids →
               is_Some (fs !! preview_src id_name) →
               p ≠ preview_dst id_name) →
         t_files st !! p = fs !! p).
Proof.
  intros Hout Hfiles Hdsts. unfold run_after_edit.
  rewrite (mkdir_output fs Hout). cbn [mbind result_bind].
  destruct (harvest_spec fs ids Hout Hfiles Hdsts (Tally fs 0 0)
              (outside_output_refl fs))
    as (st & Hrun & Hinv & Hok & Hmiss & Hcopied & Hframe).
  exists st. repeat split; try done; apply Hinv.
Qed.

(** C9.  The identifiers being names of one path component: an identifier
    whose preview [spot/<ID>/<ID>.iris/segmentation/<ID>/mask.png] is absent
    never makes the loop raise, whatever the store holds: it is counted as a
    miss and the loop goes on with the identifiers that follow.  And for any
    list of requested identifiers, in a store where [save_mask] is no plain
    file, the previews are files or absent and no directory stands where a
    copy goes: the script ends without raising; the identifiers whose
    preview is absent are counted as misses, wherever they stand in the
    list; every identifier whose preview is there has it copied to
    [save_mask/<ID>.png]; and no other file changes. *)
Theorem harvest_skips_missing (ids : list string)
    (fs : gmap (list string) content) :
  (∀ id_name rest st,
     is_component id_name = true →
     path_exists (t_files st)
       ["spot"; id_name; id_name +:+ ".iris"; "segmentation"; id_name;
        "mask.png"] = false →
     harvest (id_name :: rest) st
     = harvest rest (Tally (t_files st) (ok st) (missing st + 1)))
  ∧ ((∀ id_name, id_name ∈ ids → is_component id_name = true) →
     fs !! ["save_mask"] = None →
     (∀ id_name, id_name ∈ ids →
        path_exists fs
          ["spot"; id_name; id_name +:+ ".iris"; "segmentation"; id_name;
           "mask.png"] = true →
        is_Some (fs !! ["spot"; id_name; id_name +:+ ".iris"; "segmentation";
                        id_name; "mask.png"])) →
     (∀ id_name, id_name ∈ ids →
        is_Some (fs !! ["spot"; id_name; id_name +:+ ".iris"; "segmentation";
                        id_name; "mask.png"]) →
        path_exists fs ["save_mask"; id_name +:+ ".png"] = true →
        is_Some (fs !! ["save_mask"; id_name +:+ ".png"])) →
     ∃ st, run_after_edit ids fs = Ok st
       ∧ missing st
         = length (filter (λ id_name,
                             path_exists fs
                               ["spot"; id_name; id_name +:+ ".iris";
                                "segmentation"; id_name; "mask.png"] = false)
                     ids)
       ∧ (∀ id_name c, id_name ∈ ids →
            fs !! ["spot"; id_name; id_name +:+ ".iris"; "segmentation";
                   id_name; "mask.png"] = Some c →
            t_files st !! ["save_mask"; id_name +:+ ".png"] = Some c)
       ∧ (∀ p, (∀ id_name, id_name ∈ ids →
                  is_Some (fs !! ["spot"; id_name; id_name +:+ ".iris";
                                  "segmentation"; id_name; "mask.png"]) →
                  p ≠ ["save_mask"; id_name +:+ ".png"]) →
            t_files st !! p = fs !! p)).
Proof.
  split; [intros id_name rest st _; apply harvest_miss|].
  intros _ Hout Hfiles Hdsts.
  destruct (run_after_edit_spec fs ids Hout Hfiles Hdsts)
    as (st & Hrun & _ & _ & Hmiss & Hcopied & Hframe).
  exists st. repeat split; done.
Qed.

(** ** Dicts *)

Lemma dict_get_set_eq {V} (k : string) (v : V) (d : list (string * V)) :
  dict_get k (dict_set k v d) = Some v.
Proof.
  induction d as [|[k' v'] d IH]; simpl.
  - by rewrite decide_True.
  - destruct (decide (k = k')) as [->|Hne]; simpl.
    + by rewrite decide_True.
    + by rewrite decide_False.
Qed.

Lemma dict_get_set_ne {V} (k k' : string) (v : V) (d : list (string * V)) :
  k ≠ k' → dict_get k' (dict_set k v d) = dict_get k' d.
Proof.
  intros Hne. induction d as [|[k2 v2] d IH]; simpl.
  - by rewrite decide_False.
  - destruct (decide (k = k2)) as [->|Hne2]; simpl.
    + by rewrite !decide_False by done.
    + destruct (decide (k' = k2)); [done|]. apply IH.
Qed.

Lemma dict_set_keys {V} (k : string) (v : V) (d : list (string * V)) :
  (dict_set k v d).*1 = if bool_decide (k ∈ d.*1) then d.*1 else d.*1 ++ [k].
Proof.
  induction d as [|[k' v'] d IH]; simpl; [done|].
  destruct (decide (k = k')) as [->|Hne]; csimpl.
  - rewrite bool_decide_eq_true_2; [done|]. apply elem_of_cons. by left.
  - rewrite IH. case_bool_decide as Hin.
    + rewrite bool_decide_eq_true_2; [done|]. apply elem_of_cons. by right.
    + rewrite bool_decide_eq_false_2; [done|].
      rewrite elem_of_cons. naive_solver.
Qed.

Lemma dict_set_NoDup {V} (k : string) (v : V) (d : list (string * V)) :
  NoDup d.*1 → NoDup (dict_set k v d).*1.
Proof.
  intros Hd. rewrite dict_set_keys. case_bool_decide as Hin; [done|].
  apply NoDup_app. split; [done|]. split; [|apply NoDup_singleton].
  intros x Hx ->%list_elem_of_singleton. done.
Qed.

Lemma dict_of_pairs_snoc {V} (l : list (string * V)) (k : string) (v : V) :
  dict_of_pairs (l ++ [(k, v)]) = dict_set k v (dict_of_pairs l).
Proof. unfold dict_of_pairs. by rewrite foldl_snoc. Qed.

Lemma dict_of_pairs_NoDup {V} (l : list (string * V)) :
  NoDup (dict_of_pairs l).*1.
Proof.
  induction l as [|[k v] l IH] using rev_ind; [apply NoDup_nil_2|].
  rewrite dict_of_pairs_snoc. by apply dict_set_NoDup.
Qed.

Lemma dict_set_fresh {V} (k : string) (v : V) (d : list (string * V)) :
  k ∉ d.*1 → dict_set k v d = d ++ [(k, v)].
Proof.
  induction d as [|[k' v'] d IH]; simpl; [done|].
  rewrite not_elem_of_cons. intros [Hne Hin].
  rewrite decide_False by done. by rewrite IH.
Qed.

Lemma dict_of_pairs_id {V} (l : list (string * V)) :
  NoDup l.*1 → dict_of_pairs l = l.
Proof.
  induction l as [|[k v] l IH] using rev_ind; [done|].
  rewrite fmap_app, NoDup_app. intros (Hl & Hk & _).
  rewrite dict_of_pairs_snoc, IH by done. apply dict_set_fresh.
  intros Hin. apply (Hk k Hin). simpl. apply list_elem_of_singleton. done.
Qed.

Lemma dict_rel_set {V W} (R : V → W → Prop) (k : string) (v : V) (w : W)
    (d : list (string * V)) (e : list (string * W)) :
  dict_rel R d e → R v w → dict_rel R (dict_set k v d) (dict_set k w e).
Proof.
  unfold dict_rel. intros Hde Hvw.
  induction Hde as [|[k1 v1] [k2 w2] d e [Hk Hr] Hde IH]; simpl in *.
  - by repeat constructor.
  - subst k2. destruct (decide (k = k1)); by constructor.
Qed.

Lemma dict_rel_of_pairs {V W} (R : V → W → Prop)
    (l : list (string * V)) (m : list (string * W)) :
  dict_rel R l m → dict_rel R (dict_of_pairs l) (dict_of_pairs m).
Proof.
  intros Hlm. unfold dict_of_pairs.
  assert (Hgen : ∀ d e, dict_rel R d e →
    dict_rel R (foldl (λ d kv, dict_set kv.1 kv.2 d) d l)
      (foldl (λ d kv, dict_set kv.1 kv.2 d) e m)).
  { unfold dict_rel in Hlm.
    induction Hlm as [|[k1 v1] [k2 w2] l m [Hk Hr] Hlm IH]; intros d e Hde;
      simpl in *; [done|].
    subst k2. apply IH. by apply dict_rel_set. }
  apply Hgen. constructor.
Qed.

Lemma dict_rel_get {V W} (R : V → W → Prop) (k : string)
    (d : list (string * V)) (e : list (string * W)) :
  dict_rel R d e →
  match dict_get k d, dict_get k e with
  | Some v, Some w => R v w
  | None, None => True
  | _, _ => False
  end.
Proof.
  unfold dict_rel. intros Hde.
  induction Hde as [|[k1 v1] [k2 w2] d e [Hk Hr] Hde IH]; simpl in *; [done|].
  subst k2. destruct (decide (k = k1)); done.
Qed.

Lemma dict_get_elem_of {V} (k : string) (v : V) (d : list (string * V)) :
  dict_get k d = Some v → (k, v) ∈ d.
Proof.
  induction d as [|[k' v'] d IH]; simpl; [done|].
  destruct (decide (k = k')) as [->|Hne].
  - intros [= ->]. apply elem_of_cons. by left.
  - intros Hd. apply elem_of_cons. right. by apply IH.
Qed.

Lemma dict_set_Forall {V} (P : string * V → Prop) (k : string) (v : V)
    (d : list (string * V)) :
  Forall P d → P (k, v) → Forall P (dict_set k v d).
Proof.
  intros Hd Hv. induction Hd as [|[k' v'] d Hx Hd IH]; simpl.
  - by constructor.
  - destruct (decide (k = k')); constructor; done.
Qed.

Lemma dict_of_pairs_Forall {V} (P : string * V → Prop)
    (l : list (string * V)) :
  Forall P l → Forall P (dict_of_pairs l).
Proof.
  induction l as [|[k v] l IH] using rev_ind; intros Hl; [constructor|].
  apply Forall_app in Hl as [Hl Hkv]. rewrite Forall_singleton in Hkv.
  rewrite dict_of_pairs_snoc. apply dict_set_Forall; [by apply IH|done].
Qed.

(** ** Documents in the store *)

Lemma json_ind' (P : json → Prop) :
  P JNull → (∀ b, P (JBool b)) → (∀ z, P (JInt z)) → (∀ f, P (JFloat f)) →
  (∀ s, P (JStr s)) →
  (∀ items, Forall P items → P (JArr items)) →
  (∀ members, Forall (λ kv : string * json, P kv.2) members →
     P (JObj members)) →
  ∀ j, P j.
Proof.
  intros Hn Hb Hi Hf Hs Ha Ho. fix IH 1.
  intros [|b|z|f|s|items|members]; [done..| |].
  - apply Ha. induction items as [|j items IHi]; constructor; [apply IH|done].
  - apply Ho. induction members as [|[k j] members IHm]; constructor;
      [apply IH|done].
Qed.

Lemma loads_JArr (items : list json) (h : list obj) :
  loads (JArr items) h
  = let '(h', vs) := loads_items items h in py_alloc (OList vs) h'.
Proof. reflexivity. Qed.

Lemma loads_JObj (members : list (string * json)) (h : list obj) :
  loads (JObj members) h
  = let '(h', kvs) := loads_members members h in
    py_alloc (ODict (dict_of_pairs kvs)) h'.
Proof. reflexivity. Qed.

(** Loading only appends cells. *)
Lemma loads_extends (j : json) (h h' : list obj) (v : val) :
  loads j h = (h', v) → ∃ ext, h' = h ++ ext.
Proof.
  revert h h' v.
  induction j as [|b|z|f|s|items IH|members IH] using json_ind';
    intros h h' v; try (intros [= <- <-]; exists []; by rewrite app_nil_r).
  - rewrite loads_JArr.
    assert (Hitems : ∀ h h1 vs, loads_items items h = (h1, vs) →
              ∃ ext, h1 = h ++ ext).
    { clear h h' v. induction IH as [|j items Hj _ IHitems]; intros h h1 vs;
        simpl.
      - intros [= <- <-]. exists []. by rewrite app_nil_r.
      - destruct (loads j h) as [h2 v] eqn:E2.
        destruct (loads_items items h2) as [h3 vs'] eqn:E3.
        intros [= <- <-]. destruct (Hj _ _ _ E2) as [e2 ->].
        destruct (IHitems _ _ _ E3) as [e3 ->].
        exists (e2 ++ e3). by rewrite app_assoc. }
    destruct (loads_items items h) as [h1 vs] eqn:E. unfold py_alloc.
    intros [= <- <-]. destruct (Hitems _ _ _ E) as [e ->].
    exists (e ++ [OList vs]). by rewrite app_assoc.
  - rewrite loads_JObj.
    assert (Hmembers : ∀ h h1 kvs, loads_members members h = (h1, kvs) →
              ∃ ext, h1 = h ++ ext).
    { clear h h' v.
      induction IH as [|[k j] members Hj _ IHmembers]; intros h h1 kvs;
        simpl.
      - intros [= <- <-]. exists []. by rewrite app_nil_r.
      - destruct (loads j h) as [h2 v] eqn:E2.
        destruct (loads_members members h2) as [h3 kvs'] eqn:E3.
        intros [= <- <-]. destruct (Hj _ _ _ E2) as [e2 ->].
        destruct (IHmembers _ _ _ E3) as [e3 ->].
        exists (e2 ++ e3). by rewrite app_assoc. }
    destruct (loads_members members h) as [h1 kvs] eqn:E. unfold py_alloc.
    intros [= <- <-]. destruct (Hmembers _ _ _ E) as [e ->].
    exists (e ++ [ODict (dict_of_pairs kvs)]). by rewrite app_assoc.
Qed.

Lemma loads_items_extends (items : list json) (h h' : list obj)
    (vs : list val) :
  loads_items items h = (h', vs) → ∃ ext, h' = h ++ ext.
Proof.
  revert h h' vs. induction items as [|j items IH]; intros h h' vs; simpl.
  - intros [= <- <-]. exists []. by rewrite app_nil_r.
  - destruct (loads j h) as [h2 v] eqn:E2.
    destruct (loads_items items h2) as [h3 vs'] eqn:E3.
    intros [= <- <-]. destruct (loads_extends _ _ _ _ E2) as [e2 ->].
    destruct (IH _ _ _ E3) as [e3 ->].
    exists (e2 ++ e3). by rewrite app_assoc.
Qed.

Lemma loads_members_extends (members : list (string * json))
    (h h' : list obj) (kvs : list (string * val)) :
  loads_members members h = (h', kvs) → ∃ ext, h' = h ++ ext.
Proof.
  revert h h' kvs. induction members as [|[k j] members IH];
    intros h h' kvs; simpl.
  - intros [= <- <-]. exists []. by rewrite app_nil_r.
  - destruct (loads j h) as [h2 v] eqn:E2.
    destruct (loads_members members h2) as [h3 kvs'] eqn:E3.
    intros [= <- <-]. destruct (loads_extends _ _ _ _ E2) as [e2 ->].
    destruct (IH _ _ _ E3) as [e3 ->].
    exists (e2 ++ e3). by rewrite app_assoc.
Qed.

(** *** Reading with fuel *)

Lemma readable_ref (n : nat) (h : list obj) (a : nat) :
  readable (S n) h (VRef a) ↔
    ∃ o, h !! a = Some o ∧ Forall (readable n h) (children o).
Proof.
  unfold readable. simpl. destruct (h !! a) as [[vs|kvs]|]; simpl.
  - rewrite fmap_is_Some, mapM_is_Some. naive_solver.
  - rewrite fmap_is_Some, mapM_is_Some.
    assert (Hiff : Forall (is_Some ∘ (λ kv : string * val,
                             pair kv.1 <$> dumps n h kv.2)) kvs
                   ↔ Forall (λ v, is_Some (dumps n h v)) kvs.*2).
    { rewrite Forall_fmap. apply Forall_proper; [|done].
      intros [k v]. simpl. by rewrite fmap_is_Some. }
    rewrite Hiff. naive_solver.
  - split; [by intros [? ?]|]. by intros (? & ? & _).
Qed.

Lemma readable_scalar (n : nat) (h : list obj) (v : val) :
  val_in 0 0 v → readable (S n) h v.
Proof. destruct v; simpl; try (by eexists). lia. Qed.

Lemma mapM_impl_Some {A B} (f g : A → option B) (l : list A) (k : list B) :
  Forall (λ x, ∀ y, f x = Some y → g x = Some y) l →
  mapM f l = Some k → mapM g l = Some k.
Proof.
  intros Hall. rewrite !mapM_Some. intros H2. revert Hall.
  induction H2 as [|x y l k Hxy H2 IH]; intros Hall; constructor.
  - apply Forall_cons in Hall as [Hx _]. by apply Hx.
  - apply Forall_cons in Hall as [_ Hl]. by apply IH.
Qed.

Lemma dumps_mono (n : nat) (h : list obj) (v : val) (j : json) :
  dumps n h v = Some j → dumps (S n) h v = Some j.
Proof.
  revert v j. induction n as [|n IH]; intros v j; [done|].
  destruct v; try done. intros Hd.
  change (dumps (S (S n)) h (VRef a)) with
    (match h !! a with
     | Some (OList vs) => JArr <$> mapM (dumps (S n) h) vs
     | Some (ODict kvs) =>
         JObj <$> mapM (λ kv, pair kv.1 <$> dumps (S n) h kv.2) kvs
     | None => None
     end).
  simpl in Hd. destruct (h !! a) as [[vs|kvs]|]; [| |done].
  - apply fmap_Some in Hd as (js & Hjs & ->).
    erewrite (mapM_impl_Some (dumps n h)); [done| |done].
    apply Forall_forall. intros x _ y. apply IH.
  - apply fmap_Some in Hd as (ms & Hms & ->).
    erewrite (mapM_impl_Some (λ kv, pair kv.1 <$> dumps n h kv.2));
      [done| |done].
    apply Forall_forall. intros [k x] _ y. cbn [fst snd].
    intros (jx & Hjx & ->)%fmap_Some. by rewrite (IH _ _ Hjx).
Qed.

Lemma dumps_mono_le (n m : nat) (h : list obj) (v : val) (j : json) :
  (n ≤ m)%nat → dumps n h v = Some j → dumps m h v = Some j.
Proof.
  induction 1 as [|m Hle IH]; [done|]. intros Hd. by apply dumps_mono, IH.
Qed.

Lemma readable_mono_le (n m : nat) (h : list obj) (v : val) :
  (n ≤ m)%nat → readable n h v → readable m h v.
Proof. intros Hle [j Hj]. exists j. by eapply dumps_mono_le. Qed.

(** Reading does not see cells appended to the store. *)
Lemma dumps_app (n : nat) (h ext : list obj) (v : val) (j : json) :
  dumps n h v = Some j → dumps n (h ++ ext) v = Some j.
Proof.
  revert v j. induction n as [|n IH]; intros v j; [done|].
  destruct v; try done. simpl. intros Hd.
  destruct (h !! a) as [o|] eqn:Ha; [|done].
  rewrite (lookup_app_l_Some _ _ _ _ Ha). destruct o as [vs|kvs].
  - apply fmap_Some in Hd as (js & Hjs & ->).
    erewrite (mapM_impl_Some (dumps n h)); [done| |done].
    apply Forall_forall. intros x _ y. apply IH.
  - apply fmap_Some in Hd as (ms & Hms & ->).
    erewrite (mapM_impl_Some (λ kv, pair kv.1 <$> dumps n h kv.2));
      [done| |done].
    apply Forall_forall. intros [k x] _ y. cbn [fst snd].
    intros (jx & Hjx & ->)%fmap_Some. by rewrite (IH _ _ Hjx).
Qed.

Lemma readable_app (n : nat) (h ext : list obj) (v : val) :
  readable n h v → readable n (h ++ ext) v.
Proof. intros [j Hj]. exists j. by apply dumps_app. Qed.

(** A value that needs all of its fuel refers to a cell with an item that
    needs all of the remaining fuel. *)
Lemma readable_needs_ref (n : nat) (h : list obj) (v : val) :
  readable (S (S n)) h v → ¬ readable (S n) h v →
  ∃ a o c, v = VRef a ∧ h !! a = Some o ∧ c ∈ children o
           ∧ readable (S n) h c ∧ ¬ readable n h c.
Proof.
  intros Hyes Hno. destruct v as [| | | | |a];
    try (destruct Hno; by eexists).
  apply readable_ref in Hyes as (o & Ha & Hall).
  assert (Hnall : ¬ Forall (readable n h) (children o)).
  { intros Hall'. apply Hno, readable_ref. eauto. }
  apply not_Forall_Exists in Hnall; [|apply _].
  apply Exists_exists in Hnall as (c & Hc & Hnc).
  exists a, o, c. repeat split; try done.
  rewrite Forall_forall in Hall. by apply Hall.
Qed.

Lemma readable_path (n : nat) (h : list obj) (v : val) :
  readable (S n) h v → ¬ readable n h v →
  ∃ l : list nat,
    length l = n ∧ NoDup l
    ∧ Forall (λ a, (a < length h)%nat ∧ readable (S n) h (VRef a)) l.
Proof.
  revert v. induction n as [|n IH]; intros v Hyes Hno.
  - exists []. repeat split; [apply NoDup_nil_2|constructor].
  - destruct (readable_needs_ref n h v Hyes Hno)
      as (a & o & c & -> & Ha & Hc & Hcy & Hcn).
    destruct (IH c Hcy Hcn) as (l & Hlen & Hnd & Hall).
    exists (a :: l). split; [simpl; lia|]. split.
    + apply NoDup_cons. split; [|done]. intros Hin.
      rewrite Forall_forall in Hall. destruct (Hall a Hin) as [_ Hr]. done.
    + constructor.
      * split; [by eapply lookup_lt_Some|done].
      * eapply Forall_impl; [exact Hall|]. intros b [Hb Hr].
        split; [done|]. eapply readable_mono_le; [|exact Hr]. lia.
Qed.

Lemma readable_least (N : nat) (h : list obj) (v : val) :
  readable N h v → ∃ n, readable (S n) h v ∧ ¬ readable n h v.
Proof.
  induction N as [|N IH]; intros Hr.
  - by destruct Hr.
  - destruct (decide (readable N h v)) as [Hy|Hn]; [by apply IH|].
    by exists N.
Qed.

(** A value that can be read at all is read with fuel one more than the
    number of cells: the walk passes through a cell at most once. *)
Lemma readable_bound (N : nat) (h : list obj) (v : val) :
  readable N h v → readable (S (length h)) h v.
Proof.
  intros Hr. destruct (readable_least N h v Hr) as (n & Hy & Hn).
  destruct (readable_path n h v Hy Hn) as (l & Hlen & Hnd & Hall).
  assert (Hsub : l ⊆+ seq 0 (length h)).
  { apply NoDup_submseteq; [done|]. intros a Ha.
    rewrite Forall_forall in Hall. destruct (Hall a Ha) as [Hlt _].
    apply elem_of_seq. lia. }
  apply submseteq_length in Hsub. rewrite length_seq in Hsub.
  eapply readable_mono_le; [|exact Hy]. lia.
Qed.

Lemma py_dumps_readable (N : nat) (h : list obj) (v : val) :
  readable N h v → ∃ text, py_dumps h v = Ok text.
Proof.
  intros Hr. apply readable_bound in Hr as [text Ht].
  exists text. unfold py_dumps. by rewrite Ht.
Qed.

(** Assigning a readable value to a key of a dict keeps every value
    readable. *)
Lemma readable_setitem (h : list obj) (a : nat) (d : list (string * val))
    (k : string) (x : val) (c : nat) :
  h !! a = Some (ODict d) →
  readable c (<[a := ODict (dict_set k x d)]> h) x →
  ∀ n v, readable n h v →
    readable (n + c) (<[a := ODict (dict_set k x d)]> h) v.
Proof.
  intros Ha Hx. induction n as [|n IH]; intros v Hv; [by destruct Hv|].
  destruct v as [| | | | |b]; try (by eexists).
  apply readable_ref in Hv as (o & Hb & Hall).
  change (S n + c)%nat with (S (n + c)). apply readable_ref.
  destruct (decide (b = a)) as [->|Hne].
  - rewrite Ha in Hb. injection Hb as <-.
    eexists. split; [apply list_lookup_insert_eq; by eapply lookup_lt_Some|].
    simpl in *. apply (Forall_fmap snd).
    apply (Forall_fmap snd) in Hall.
    apply dict_set_Forall.
    + eapply Forall_impl; [exact Hall|]. intros [k' v']. simpl. apply IH.
    + simpl. eapply readable_mono_le; [|exact Hx]. lia.
  - exists o. split; [by rewrite list_lookup_insert_ne|].
    eapply Forall_impl; [exact Hall|]. apply IH.
Qed.

Lemma Forall_readable_max (h : list obj) (vs : list val) :
  Forall (λ v, ∃ N, readable N h v) vs → ∃ N, Forall (readable N h) vs.
Proof.
  induction 1 as [|v vs [N1 Hv] _ [N2 Hvs]]; [by exists 0%nat|].
  exists (N1 `max` N2)%nat. constructor.
  - eapply readable_mono_le; [|exact Hv]. lia.
  - eapply Forall_impl; [exact Hvs|]. intros w Hw.
    eapply readable_mono_le; [|exact Hw]. lia.
Qed.

Lemma readable_alloc (N : nat) (h : list obj) (o : obj) :
  Forall (readable N h) (children o) →
  readable (S N) (h ++ [o]) (VRef (length h)).
Proof.
  intros Hall. apply readable_ref. exists o.
  split; [apply list_lookup_middle; done|].
  eapply Forall_impl; [exact Hall|]. intros v. apply readable_app.
Qed.

(** What [json.loads] builds can be read back. *)
Lemma loads_readable (j : json) (h h' : list obj) (v : val) :
  loads j h = (h', v) → ∃ N, readable N h' v.
Proof.
  revert h h' v.
  induction j as [|b|z|f|s|items IH|members IH] using json_ind';
    intros h h' v;
    try (intros [= <- <-]; exists 1%nat; by eexists).
  - rewrite loads_JArr.
    assert (Hitems : ∀ h h1 vs, loads_items items h = (h1, vs) →
              Forall (λ v, ∃ N, readable N h1 v) vs).
    { clear h h' v. induction IH as [|j items Hj _ IHitems]; intros h h1 vs;
        simpl; [intros [= <- <-]; constructor|].
      destruct (loads j h) as [h2 v] eqn:E2.
      destruct (loads_items items h2) as [h3 vs'] eqn:E3.
      intros [= <- <-]. constructor; [|by eapply IHitems].
      destruct (Hj _ _ _ E2) as [N HN].
      destruct (loads_items_extends _ _ _ _ E3) as [e ->].
      exists N. by apply readable_app. }
    destruct (loads_items items h) as [h1 vs] eqn:E. unfold py_alloc.
    intros [= <- <-].
    destruct (Forall_readable_max _ _ (Hitems _ _ _ E)) as [N HN].
    exists (S N). by apply readable_alloc.
  - rewrite loads_JObj.
    assert (Hmembers : ∀ h h1 kvs, loads_members members h = (h1, kvs) →
              Forall (λ kv, ∃ N, readable N h1 kv.2) kvs).
    { clear h h' v.
      induction IH as [|[k j] members Hj _ IHmembers]; intros h h1 kvs;
        simpl; [intros [= <- <-]; constructor|].
      destruct (loads j h) as [h2 v] eqn:E2.
      destruct (loads_members members h2) as [h3 kvs'] eqn:E3.
      intros [= <- <-]. constructor; [|by eapply IHmembers].
      destruct (Hj _ _ _ E2) as [N HN].
      destruct (loads_members_extends _ _ _ _ E3) as [e ->].
      exists N. by apply readable_app. }
    destruct (loads_members members h) as [h1 kvs] eqn:E. unfold py_alloc.
    intros [= <- <-].
    pose proof (dict_of_pairs_Forall _ _ (Hmembers _ _ _ E)) as Hd.
    apply (Forall_fmap snd (λ v, ∃ N, readable N h1 v)) in Hd.
    destruct (Forall_readable_max _ _ Hd) as [N HN].
    exists (S N). by apply readable_alloc.
Qed.

(** *** Regions of the store *)

Lemma val_in_widen (lo hi lo' hi' : nat) (v : val) :
  (lo' ≤ lo)%nat → (hi ≤ hi')%nat → val_in lo hi v → val_in lo' hi' v.
Proof. destruct v; simpl; lia. Qed.

Lemma mapM_ext_Forall {A B} (f g : A → option B) (l : list A) :
  Forall (λ x, f x = g x) l → mapM f l = mapM g l.
Proof.
  induction 1 as [|x l Hx _ IH]; [done|].
  change (mapM f (x :: l)) with (y ← f x; k ← mapM f l; mret (y :: k)).
  change (mapM g (x :: l)) with (y ← g x; k ← mapM g l; mret (y :: k)).
  by rewrite Hx, IH.
Qed.

(** Reading a value of a closed region looks at the cells of the region
    only. *)
Lemma closed_frame (h h' : list obj) (lo hi : nat) :
  closed h lo hi → agree_on lo hi h h' →
  ∀ n v, val_in lo hi v → dumps n h' v = dumps n h v.
Proof.
  intros Hcl Hag. induction n as [|n IH]; intros v Hv; [done|].
  destruct v as [| | | | |a]; try done. simpl in *.
  rewrite (Hag a Hv). destruct (h !! a) as [o|] eqn:Ha; [|done].
  pose proof (Hcl a o Hv Ha) as Hch. destruct o as [vs|kvs]; simpl in Hch.
  - f_equal. apply mapM_ext_Forall.
    eapply Forall_impl; [exact Hch|]. apply IH.
  - f_equal. apply mapM_ext_Forall. apply (Forall_fmap snd) in Hch.
    eapply Forall_impl; [exact Hch|]. intros [k v] Hkv. simpl in *.
    by rewrite IH.
Qed.

Lemma closed_agree (h h' : list obj) (lo hi : nat) :
  closed h lo hi → agree_on lo hi h h' → closed h' lo hi.
Proof.
  intros Hcl Hag a o Ha Ho. rewrite (Hag a Ha) in Ho. by eapply Hcl.
Qed.

Lemma closed_widen (h : list obj) (lo mid hi : nat) :
  closed h lo mid → closed h mid hi → (lo ≤ mid ≤ hi)%nat → closed h lo hi.
Proof.
  intros H1 H2 Hle a o Ha Ho. destruct (decide (a < mid)%nat).
  - eapply Forall_impl; [apply (H1 a o); [lia|done]|].
    intros v. apply val_in_widen; lia.
  - eapply Forall_impl; [apply (H2 a o); [lia|done]|].
    intros v. apply val_in_widen; lia.
Qed.

Lemma agree_on_app (h ext : list obj) (lo hi : nat) :
  (hi ≤ length h)%nat → agree_on lo hi h (h ++ ext).
Proof. intros Hhi a Ha. apply lookup_app_l. lia. Qed.

Lemma closed_snoc (h : list obj) (lo : nat) (o : obj) :
  closed h lo (length h) →
  Forall (val_in lo (S (length h))) (children o) →
  closed (h ++ [o]) lo (S (length h)).
Proof.
  intros Hcl Ho a o' Ha Ho'. destruct (decide (a < length h)%nat).
  - rewrite lookup_app_l in Ho' by done.
    eapply Forall_impl; [apply (Hcl a o'); [lia|done]|].
    intros v. apply val_in_widen; lia.
  - assert (a = length h) as -> by lia.
    rewrite list_lookup_middle in Ho' by done. by injection Ho' as <-.
Qed.

(** The cells that [json.loads] appends form a closed region, and the value
    it returns refers to it. *)
Lemma loads_closed (j : json) (h h' : list obj) (v : val) :
  loads j h = (h', v) →
  val_in (length h) (length h') v ∧ closed h' (length h) (length h').
Proof.
  revert h h' v.
  induction j as [|b|z|f|s|items IH|members IH] using json_ind';
    intros h h' v;
    try (intros [= <- <-]; split; [done|]; intros a o Ha; lia).
  - rewrite loads_JArr.
    assert (Hitems : ∀ h h1 vs, loads_items items h = (h1, vs) →
              Forall (val_in (length h) (length h1)) vs
              ∧ closed h1 (length h) (length h1)).
    { clear h h' v. induction IH as [|j items Hj _ IHitems]; intros h h1 vs;
        simpl.
      { intros [= <- <-]. split; [constructor|]. intros a o Ha. lia. }
      destruct (loads j h) as [h2 v] eqn:E2.
      destruct (loads_items items h2) as [h3 vs'] eqn:E3.
      intros [= <- <-]. destruct (Hj _ _ _ E2) as [Hv Hc2].
      destruct (IHitems _ _ _ E3) as [Hvs Hc3].
      destruct (loads_extends _ _ _ _ E2) as [e2 ->].
      destruct (loads_items_extends _ _ _ _ E3) as [e3 ->].
      rewrite !length_app in *. split.
      - constructor; [eapply val_in_widen; [| |exact Hv]; lia|].
        eapply Forall_impl; [exact Hvs|]. intros w. apply val_in_widen; lia.
      - eapply (closed_widen _ _ (length h + length e2)); [|done|lia].
        eapply closed_agree; [exact Hc2|]. apply agree_on_app.
        rewrite length_app. lia. }
    destruct (loads_items items h) as [h1 vs] eqn:E. unfold py_alloc.
    intros [= <- <-]. destruct (Hitems _ _ _ E) as [Hvs Hc].
    destruct (loads_items_extends _ _ _ _ E) as [e ->].
    rewrite !length_app in *. simpl. split; [lia|].
    replace (length h + length e + 1)%nat with (S (length (h ++ e)))
      by (rewrite length_app; lia).
    apply closed_snoc; rewrite length_app; [done|]. simpl.
    eapply Forall_impl; [exact Hvs|]. intros w. apply val_in_widen; lia.
  - rewrite loads_JObj.
    assert (Hmembers : ∀ h h1 kvs, loads_members members h = (h1, kvs) →
              Forall (λ kv, val_in (length h) (length h1) kv.2) kvs
              ∧ closed h1 (length h) (length h1)).
    { clear h h' v.
      induction IH as [|[k j] members Hj _ IHmembers]; intros h h1 kvs;
        simpl.
      { intros [= <- <-]. split; [constructor|]. intros a o Ha. lia. }
      destruct (loads j h) as [h2 v] eqn:E2.
      destruct (loads_members members h2) as [h3 kvs'] eqn:E3.
      intros [= <- <-]. destruct (Hj _ _ _ E2) as [Hv Hc2].
      destruct (IHmembers _ _ _ E3) as [Hvs Hc3].
      destruct (loads_extends _ _ _ _ E2) as [e2 ->].
      destruct (loads_members_extends _ _ _ _ E3) as [e3 ->].
      rewrite !length_app in *. split.
      - constructor; [eapply val_in_widen; [| |exact Hv]; lia|].
        eapply Forall_impl; [exact Hvs|]. intros w. apply val_in_widen; lia.
      - eapply (closed_widen _ _ (length h + length e2)); [|done|lia].
        eapply closed_agree; [exact Hc2|]. apply agree_on_app.
        rewrite length_app. lia. }
    destruct (loads_members members h) as [h1 kvs] eqn:E. unfold py_alloc.
    intros [= <- <-]. destruct (Hmembers _ _ _ E) as [Hvs Hc].
    destruct (loads_members_extends _ _ _ _ E) as [e ->].
    rewrite !length_app in *. simpl. split; [lia|].
    replace (length h + length e + 1)%nat with (S (length (h ++ e)))
      by (rewrite length_app; lia).
    apply closed_snoc; rewrite length_app; [done|]. simpl.
    apply (Forall_fmap snd). apply dict_of_pairs_Forall.
    eapply Forall_impl; [exact Hvs|]. intros w. apply val_in_widen; lia.
Qed.

Lemma extends_closed_refl (h0 : list obj) : extends_closed h0 h0.
Proof. split; [done|]. split; [done|]. intros a o Ha. lia. Qed.

Lemma extends_closed_loads (h0 h h' : list obj) (j : json) (v : val) :
  extends_closed h0 h → loads j h = (h', v) →
  extends_closed h0 h' ∧ val_in (length h0) (length h') v.
Proof.
  intros (Hlen & Hag & Hcl) Hl.
  destruct (loads_closed _ _ _ _ Hl) as [Hv Hcl'].
  destruct (loads_extends _ _ _ _ Hl) as [e ->].
  unfold extends_closed. rewrite length_app in *.
  split; [|eapply val_in_widen; [| |exact Hv]; lia].
  split; [lia|]. split.
  - intros a Ha. rewrite lookup_app_l by lia. by apply Hag.
  - apply (closed_widen _ _ (length h)); [|done|lia].
    eapply closed_agree; [exact Hcl|]. by apply agree_on_app.
Qed.

Lemma extends_closed_alloc (h0 h : list obj) (o : obj) :
  extends_closed h0 h →
  Forall (val_in (length h0) (S (length h))) (children o) →
  extends_closed h0 (h ++ [o]).
Proof.
  intros (Hlen & Hag & Hcl) Ho. unfold extends_closed.
  rewrite length_app. simpl.
  split; [lia|]. split.
  - intros a Ha. rewrite lookup_app_l by lia. by apply Hag.
  - replace (length h + 1)%nat with (S (length h)) by lia.
    by apply closed_snoc.
Qed.

Lemma extends_closed_update (h0 h : list obj) (a : nat) (o : obj) :
  extends_closed h0 h → (length h0 ≤ a)%nat →
  Forall (val_in (length h0) (length h)) (children o) →
  extends_closed h0 (<[a := o]> h).
Proof.
  intros (Hlen & Hag & Hcl) Ha Ho. unfold extends_closed.
  rewrite length_insert.
  split; [done|]. split.
  - intros b Hb. rewrite list_lookup_insert_ne by lia. by apply Hag.
  - intros b o' Hb Ho'. destruct (decide (a = b)) as [->|Hne].
    + rewrite list_lookup_insert_eq in Ho' by lia. by injection Ho' as <-.
    + rewrite list_lookup_insert_ne in Ho' by done. by eapply Hcl.
Qed.

Lemma extends_closed_getitem (h0 h : list obj) (v x : val) (k : string) :
  extends_closed h0 h → val_in (length h0) (length h) v →
  py_getitem h v k = Ok x → val_in (length h0) (length h) x.
Proof.
  intros (Hlen & Hag & Hcl) Hv. unfold py_getitem.
  destruct v as [| | | | |a]; try done.
  destruct (h !! a) as [[vs|d]|] eqn:Ha; try done.
  destruct (dict_get k d) as [y|] eqn:Hk; [|done]. intros [= ->].
  pose proof (Hcl a _ Hv Ha) as Hch. simpl in Hch.
  apply dict_get_elem_of in Hk. rewrite Forall_forall in Hch. apply Hch.
  apply list_elem_of_fmap. by exists (k, x).
Qed.

Lemma extends_closed_setitem (h0 h h' : list obj) (v x : val) (k : string) :
  extends_closed h0 h → val_in (length h0) (length h) v →
  val_in (length h0) (length h) x →
  py_setitem h v k x = Ok h' →
  extends_closed h0 h' ∧ length h' = length h.
Proof.
  intros Hec Hv Hx. unfold py_setitem.
  destruct v as [| | | | |a]; try done.
  destruct (h !! a) as [[vs|d]|] eqn:Ha; try done. intros [= <-].
  split; [|apply length_insert].
  apply extends_closed_update; [done|simpl in Hv; lia|]. simpl.
  destruct Hec as (_ & _ & Hcl). pose proof (Hcl a _ Hv Ha) as Hch.
  simpl in Hch. apply (Forall_fmap snd). apply (Forall_fmap snd) in Hch.
  by apply dict_set_Forall.
Qed.

Lemma extends_closed_setdefault (h0 h h' : list obj) (v x : val)
    (k : string) :
  extends_closed h0 h → val_in (length h0) (length h) v →
  val_in (length h0) (length h) x →
  py_setdefault h v k x = Ok h' →
  extends_closed h0 h' ∧ length h' = length h.
Proof.
  intros Hec Hv Hx. unfold py_setdefault.
  destruct v as [| | | | |a]; try done.
  destruct (h !! a) as [[vs|d]|] eqn:Ha; try done.
  destruct (dict_get k d); intros [= <-]; [done|].
  split; [|apply length_insert].
  apply extends_closed_update; [done|simpl in Hv; lia|]. simpl.
  destruct Hec as (_ & _ & Hcl). pose proof (Hcl a _ Hv Ha) as Hch.
  simpl in Hch. apply (Forall_fmap snd). apply (Forall_fmap snd) in Hch.
  by apply dict_set_Forall.
Qed.

(** The cells a scene's document is made of are new, and the document refers
    to them only. *)
Lemma scene_cfg_owned (base_cfg : val) (id_name : string) (W H : nat)
    (h0 h1 : list obj) (cfg : val) :
  scene_cfg base_cfg id_name W H h0 = Ok (h1, cfg) →
  extends_closed h0 h1 ∧ val_in (length h0) (length h1) cfg.
Proof.
  unfold scene_cfg. intros Hrun.
  inv_bind Hrun text Htext.
  destruct (loads text h0) as [ha cfg'] eqn:Hloads.
  destruct (extends_closed_loads h0 h0 ha text cfg' (extends_closed_refl h0)
              Hloads) as [Ha Hcfg].
  inv_bind Hrun hb Hname.
  destruct (extends_closed_setitem _ _ _ _ (VStr id_name) _ Ha Hcfg I Hname)
    as [Hb Hlb].
  rewrite <- Hlb in Hcfg.
  inv_bind Hrun images Himages.
  pose proof (extends_closed_getitem _ _ _ _ _ Hb Hcfg Himages) as Hi.
  inv_bind Hrun hc Hpath.
  destruct (extends_closed_setitem _ _ _ _ (VStr "images/{id}/rgb.npy") _
              Hb Hi I Hpath) as [Hc Hlc].
  rewrite <- Hlc in Hcfg.
  unfold py_alloc in Hrun at 1.
  set (hd := hc ++ [OList [VInt (Z.of_nat W); VInt (Z.of_nat H)]]) in *.
  assert (Hd : extends_closed h0 hd).
  { apply extends_closed_alloc; [done|]. by repeat constructor. }
  assert (Hld : length hd = S (length hc)).
  { unfold hd. rewrite length_app. simpl. lia. }
  assert (Hcfgd : val_in (length h0) (length hd) cfg').
  { eapply val_in_widen; [| |exact Hcfg]; lia. }
  inv_bind Hrun images' Himages'.
  pose proof (extends_closed_getitem _ _ _ _ _ Hd Hcfgd Himages') as Hi'.
  inv_bind Hrun he Hshape.
  destruct (extends_closed_setitem _ _ _ _ (VRef (length hc)) _ Hd Hi'
              ltac:(destruct Hc as [? _]; simpl; lia) Hshape) as [He Hle].
  unfold py_alloc in Hrun at 1.
  set (hf := he ++ [ODict []]) in *.
  assert (Hf : extends_closed h0 hf).
  { apply extends_closed_alloc; [done|]. constructor. }
  assert (Hlf : length hf = S (length he)).
  { unfold hf. rewrite length_app. simpl. lia. }
  assert (Hcfgf : val_in (length h0) (length hf) cfg').
  { eapply val_in_widen; [| |exact Hcfgd]; lia. }
  inv_bind Hrun hg Hdefault.
  destruct (extends_closed_setdefault _ _ _ _ (VRef (length he)) _ Hf Hcfgf
              ltac:(destruct He as [? _]; simpl; lia) Hdefault) as [Hg Hlg].
  unfold py_alloc in Hrun at 1.
  set (hi := hg ++ [OList [VInt 0; VInt 0; VInt (Z.of_nat W);
                           VInt (Z.of_nat H)]]) in *.
  assert (Hhi : extends_closed h0 hi).
  { apply extends_closed_alloc; [done|]. by repeat constructor. }
  assert (Hli : length hi = S (length hg)).
  { unfold hi. rewrite length_app. simpl. lia. }
  assert (Hcfgi : val_in (length h0) (length hi) cfg').
  { eapply val_in_widen; [| |exact Hcfgf]; lia. }
  inv_bind Hrun seg Hseg.
  pose proof (extends_closed_getitem _ _ _ _ _ Hhi Hcfgi Hseg) as Hs.
  inv_bind Hrun hj Harea.
  destruct (extends_closed_setitem _ _ _ _ (VRef (length hg)) _ Hhi Hs
              ltac:(destruct Hg as [? _]; simpl; lia) Harea) as [Hj Hlj].
  injection Hrun as <- <-. split; [done|]. by rewrite Hlj.
Qed.

Lemma py_setitem_agree (h h' : list obj) (a : nat) (k : string) (x : val) :
  py_setitem h (VRef a) k x = Ok h' →
  length h' = length h ∧ ∀ b, b ≠ a → h' !! b = h !! b.
Proof.
  unfold py_setitem. destruct (h !! a) as [[vs|d]|]; try done.
  intros [= <-]. split; [apply length_insert|].
  intros b Hb. by apply list_lookup_insert_ne.
Qed.

(** C5.  The template is loaded once; the document of every scene is a copy
    made through the JSON text.  After two scenes (with the same identifier or
    not), the template and the two documents occupy three disjoint regions of
    the store, each read from its own region only.  So creating the documents
    leaves the template as it was, and any change of the cells of one
    document, such as assigning its [name], leaves the template and the other
    document unchanged. *)
Theorem scene_documents_independent
    (template : json) (h_init h0 h1 h2 : list obj)
    (base_cfg cfg1 cfg2 : val) (id1 id2 : string) (W1 H1 W2 H2 : nat) :
  loads template h_init = (h0, base_cfg) →
  scene_cfg base_cfg id1 W1 H1 h0 = Ok (h1, cfg1) →
  scene_cfg base_cfg id2 W2 H2 h1 = Ok (h2, cfg2) →
  (length h_init ≤ length h0 ≤ length h1)%nat ∧ (length h1 ≤ length h2)%nat
  ∧ (∀ n, dumps n h1 base_cfg = dumps n h0 base_cfg
          ∧ dumps n h2 base_cfg = dumps n h0 base_cfg
          ∧ dumps n h2 cfg1 = dumps n h1 cfg1)
  ∧ (∀ h', agree_on (length h_init) (length h0) h2 h' →
       ∀ n, dumps n h' base_cfg = dumps n h2 base_cfg)
  ∧ (∀ h', agree_on (length h0) (length h1) h2 h' →
       ∀ n, dumps n h' cfg1 = dumps n h2 cfg1)
  ∧ (∀ h', agree_on (length h1) (length h2) h2 h' →
       ∀ n, dumps n h' cfg2 = dumps n h2 cfg2)
  ∧ (∀ s h', py_setitem h2 cfg1 "name" (VStr s) = Ok h' →
       py_dumps h' base_cfg = py_dumps h2 base_cfg
       ∧ py_dumps h' cfg2 = py_dumps h2 cfg2)
  ∧ (∀ s h', py_setitem h2 cfg2 "name" (VStr s) = Ok h' →
       py_dumps h' base_cfg = py_dumps h2 base_cfg
       ∧ py_dumps h' cfg1 = py_dumps h2 cfg1).
Proof.
  intros Hload Hs1 Hs2.
  destruct (loads_closed _ _ _ _ Hload) as [Hvb Hcb].
  destruct (loads_extends _ _ _ _ Hload) as [e0 He0].
  destruct (scene_cfg_owned _ _ _ _ _ _ _ Hs1) as [(Hl1 & Ha1 & Hc1) Hv1].
  destruct (scene_cfg_owned _ _ _ _ _ _ _ Hs2) as [(Hl2 & Ha2 & Hc2) Hv2].
  assert (Hl0 : (length h_init ≤ length h0)%nat).
  { rewrite He0, length_app. lia. }
  assert (Hag01 : agree_on (length h_init) (length h0) h0 h1).
  { intros a Ha. apply Ha1. lia. }
  assert (Hag02 : agree_on (length h_init) (length h0) h0 h2).
  { intros a Ha. rewrite Ha2 by lia. apply Ha1. lia. }
  assert (Hag12 : agree_on (length h0) (length h1) h1 h2).
  { intros a Ha. apply Ha2. lia. }
  pose proof (closed_agree _ _ _ _ Hcb Hag02) as Hcb2.
  pose proof (closed_agree _ _ _ _ Hc1 Hag12) as Hc12.
  split; [lia|]. split; [done|]. split.
  { intros n. split; [by apply (closed_frame h0 h1 _ _ Hcb Hag01)|].
    split; [by apply (closed_frame h0 h2 _ _ Hcb Hag02)|].
    by apply (closed_frame h1 h2 _ _ Hc1 Hag12). }
  split; [intros h' Hag n; by apply (closed_frame h2 h' _ _ Hcb2 Hag)|].
  split; [intros h' Hag n; by apply (closed_frame h2 h' _ _ Hc12 Hag)|].
  split; [intros h' Hag n; by apply (closed_frame h2 h' _ _ Hc2 Hag)|].
  split.
  - intros s h' Hset. destruct cfg1 as [| | | | |r]; try done.
    destruct (py_setitem_agree _ _ _ _ _ Hset) as [Hlen Hne].
    simpl in Hv1. unfold py_dumps. rewrite Hlen.
    rewrite (closed_frame h2 h' _ _ Hcb2) by (done || intros a Ha; apply Hne; lia).
    rewrite (closed_frame h2 h' _ _ Hc2) by (done || intros a Ha; apply Hne; lia).
    done.
  - intros s h' Hset. destruct cfg2 as [| | | | |r]; try done.
    destruct (py_setitem_agree _ _ _ _ _ Hset) as [Hlen Hne].
    simpl in Hv2. unfold py_dumps. rewrite Hlen.
    rewrite (closed_frame h2 h' _ _ Hcb2) by (done || intros a Ha; apply Hne; lia).
    rewrite (closed_frame h2 h' _ _ Hc12) by (done || intros a Ha; apply Hne; lia).
    done.
Qed.

(** *** Fields of the dicts of a document *)

Lemma good_dict_lt (h : list obj) (a : nat) :
  good_dict h a → (a < length h)%nat.
Proof. intros (d & Ha & _). by eapply lookup_lt_Some. Qed.

Lemma py_getitem_field (h : list obj) (a : nat) (k : string) (x : val) :
  py_field h a k = Some x → py_getitem h (VRef a) k = Ok x.
Proof.
  unfold py_field, py_getitem. destruct (h !! a) as [[vs|d]|]; try done.
  by intros ->.
Qed.

Lemma py_setitem_good (h : list obj) (a : nat) (k : string) (x : val) :
  good_dict h a →
  ∃ h', py_setitem h (VRef a) k x = Ok h'
    ∧ length h' = length h
    ∧ py_field h' a k = Some x
    ∧ (∀ b k', k' ≠ k → py_field h' b k' = py_field h b k')
    ∧ (∀ b, py_list h' b = py_list h b)
    ∧ (∀ b, good_dict h b → good_dict h' b)
    ∧ (∀ b, b ≠ a → h' !! b = h !! b)
    ∧ (∀ c, readable c h' x → ∀ n v, readable n h v → readable (n + c) h' v).
Proof.
  intros (d & Ha & Hnd). pose proof (lookup_lt_Some _ _ _ Ha) as Hlt.
  exists (<[a := ODict (dict_set k x d)]> h). unfold py_setitem. rewrite Ha.
  split; [done|]. split; [apply length_insert|]. split.
  { unfold py_field. rewrite list_lookup_insert_eq by done.
    apply dict_get_set_eq. }
  split.
  { intros b k' Hk. unfold py_field. destruct (decide (a = b)) as [<-|Hne].
    - rewrite list_lookup_insert_eq, Ha by done. by apply dict_get_set_ne.
    - by rewrite list_lookup_insert_ne. }
  split.
  { intros b. unfold py_list. destruct (decide (a = b)) as [<-|Hne].
    - by rewrite list_lookup_insert_eq, Ha.
    - by rewrite list_lookup_insert_ne. }
  split.
  { intros b (db & Hb & Hndb). unfold good_dict.
    destruct (decide (a = b)) as [<-|Hne].
    - rewrite list_lookup_insert_eq by done. eexists. split; [done|].
      by apply dict_set_NoDup.
    - rewrite list_lookup_insert_ne by done. eauto. }
  split.
  { intros b Hb. by apply list_lookup_insert_ne. }
  intros c Hx n v Hv. by apply readable_setitem.
Qed.

Lemma py_setdefault_good (h : list obj) (a : nat) (k : string) (x : val) :
  good_dict h a →
  ∃ h', py_setdefault h (VRef a) k x = Ok h'
    ∧ length h' = length h
    ∧ py_field h' a k = Some (default x (py_field h a k))
    ∧ (∀ b k', k' ≠ k → py_field h' b k' = py_field h b k')
    ∧ (∀ b, py_list h' b = py_list h b)
    ∧ (∀ b, good_dict h b → good_dict h' b)
    ∧ (∀ b, b ≠ a → h' !! b = h !! b)
    ∧ (∀ c, readable c h' x → ∀ n v, readable n h v → readable (n + c) h' v).
Proof.
  intros Hg. pose proof Hg as (d & Ha & Hnd).
  destruct (dict_get k d) as [y|] eqn:Hk.
  - exists h. unfold py_setdefault. rewrite Ha, Hk.
    split; [done|]. split; [done|]. split.
    { unfold py_field. by rewrite Ha, Hk. }
    repeat split; try done.
    intros c _ n v Hv. eapply readable_mono_le; [|exact Hv]. lia.
  - destruct (py_setitem_good h a k x Hg) as (h' & Hset & Hrest).
    exists h'. split.
    { revert Hset. unfold py_setdefault, py_setitem. by rewrite Ha, Hk. }
    destruct Hrest as (Hlen & Hf & Hrest). split; [done|]. split; [|done].
    rewrite Hf. unfold py_field. by rewrite Ha, Hk.
Qed.

Lemma py_alloc_good (h : list obj) (o : obj) :
  (h ++ [o]) !! length h = Some o
  ∧ (∀ b k, (b < length h)%nat → py_field (h ++ [o]) b k = py_field h b k)
  ∧ (∀ b, (b < length h)%nat → py_list (h ++ [o]) b = py_list h b)
  ∧ (∀ b, good_dict h b → good_dict (h ++ [o]) b)
  ∧ (∀ n v, readable n h v → readable n (h ++ [o]) v).
Proof.
  split; [by apply list_lookup_middle|]. split.
  { intros b k Hb. unfold py_field. by rewrite lookup_app_l. }
  split.
  { intros b Hb. unfold py_list. by rewrite lookup_app_l. }
  split.
  { intros b (d & Hb & Hnd). exists d. split; [|done].
    by apply lookup_app_l_Some. }
  intros n v. apply readable_app.
Qed.

Lemma readable_flat_list (h : list obj) (a : nat) (vs : list val) :
  py_list h a = Some vs → Forall (val_in 0 0) vs → readable 2 h (VRef a).
Proof.
  unfold py_list. intros Hl Hvs. apply readable_ref.
  destruct (h !! a) as [[vs'|d]|] eqn:Ha; try done. injection Hl as ->.
  eexists. split; [done|]. simpl.
  eapply Forall_impl; [exact Hvs|]. intros v. apply readable_scalar.
Qed.

Lemma loaded_kind_app (h ext : list obj) (v : val) (j : json) :
  loaded_kind h v j → loaded_kind (h ++ ext) v j.
Proof.
  destruct j; try done. intros (a & -> & d & Ha & Hnd).
  exists a. split; [done|]. exists d. split; [|done].
  by apply lookup_app_l_Some.
Qed.

Lemma loads_kind (j : json) (h h' : list obj) (v : val) :
  loads j h = (h', v) → loaded_kind h' v j.
Proof.
  destruct j as [| | | | | |ms]; try done. rewrite loads_JObj.
  destruct (loads_members ms h) as [hm kvs]. unfold py_alloc.
  intros [= <- <-]. exists (length hm). split; [done|].
  exists (dict_of_pairs kvs). split; [by apply list_lookup_middle|].
  apply dict_of_pairs_NoDup.
Qed.

Lemma loads_members_kind (ms : list (string * json)) (h h' : list obj)
    (kvs : list (string * val)) :
  loads_members ms h = (h', kvs) → dict_rel (loaded_kind h') kvs ms.
Proof.
  revert h h' kvs. induction ms as [|[k j] ms IH]; intros h h' kvs; simpl.
  - intros [= <- <-]. constructor.
  - destruct (loads j h) as [h2 v] eqn:E2.
    destruct (loads_members ms h2) as [h3 kvs'] eqn:E3.
    intros [= <- <-]. constructor; [|by eapply IH]. split; [done|]. simpl.
    destruct (loads_members_extends _ _ _ _ E3) as [e ->].
    apply loaded_kind_app. by eapply loads_kind.
Qed.

(** The root of a loaded object: a dict cell whose fields are those of the
    text, as the parser reads it. *)
Lemma loads_object (ms : list (string * json)) (h h' : list obj) (v : val) :
  loads (JObj ms) h = (h', v) →
  ∃ r, v = VRef r ∧ good_dict h' r
       ∧ ∀ k, match py_field h' r k, json_get k (JObj ms) with
              | Some x, Some j => loaded_kind h' x j
              | None, None => True
              | _, _ => False
              end.
Proof.
  rewrite loads_JObj. destruct (loads_members ms h) as [hm kvs] eqn:E.
  unfold py_alloc. intros [= <- <-]. exists (length hm). split; [done|].
  split.
  { exists (dict_of_pairs kvs). split; [by apply list_lookup_middle|].
    apply dict_of_pairs_NoDup. }
  intros k. unfold py_field. rewrite list_lookup_middle by done. simpl.
  pose proof (dict_rel_get _ k _ _
                (dict_rel_of_pairs _ _ _ (loads_members_kind _ _ _ _ E)))
    as Hrel.
  destruct (dict_get k (dict_of_pairs kvs)), (dict_get k (dict_of_pairs ms));
    try done.
  by apply loaded_kind_app.
Qed.

(** Reading a field of a dict cell in the text that [dumps] returns. *)
Lemma dumps_field (n : nat) (h : list obj) (a : nat) (j : json) (k : string)
    (x : val) :
  dumps (S n) h (VRef a) = Some j → good_dict h a →
  py_field h a k = Some x →
  ∃ jx, json_get k j = Some jx ∧ dumps n h x = Some jx.
Proof.
  intros Hd (d & Ha & Hnd). unfold py_field. simpl in Hd. rewrite Ha in *.
  apply fmap_Some in Hd as (ms & Hms & ->). intros Hk.
  apply mapM_Some in Hms.
  assert (Hrel : dict_rel (λ v jv, dumps n h v = Some jv) d ms).
  { eapply Forall2_impl; [exact Hms|]. intros [k1 v1] [k2 j2]. simpl.
    intros (jx & Hjx & [= <- <-])%fmap_Some. done. }
  assert (Hkeys : ms.*1 = d.*1).
  { clear -Hrel. induction Hrel as [|[k1 v1] [k2 j2] d ms [Hk _] _ IH];
      csimpl in *; [done|]. by rewrite IH, Hk. }
  simpl. rewrite dict_of_pairs_id by (by rewrite Hkeys).
  pose proof (dict_rel_get _ k _ _ Hrel) as Hget. rewrite Hk in Hget.
  destruct (dict_get k ms) as [jx|]; [|done]. by exists jx.
Qed.

Lemma dumps_int_list (n : nat) (h : list obj) (a : nat) (j : json)
    (zs : list Z) :
  dumps n h (VRef a) = Some j → py_list h a = Some (VInt <$> zs) →
  j = JArr (JInt <$> zs).
Proof.
  unfold py_list. destruct n as [|n]; [done|]. simpl.
  destruct (h !! a) as [[vs|d]|]; try done. intros Hd [= ->].
  apply fmap_Some in Hd as (js & Hjs & ->). f_equal.
  apply mapM_Some in Hjs. revert js Hjs.
  induction zs as [|z zs IH]; intros js Hjs.
  - by apply Forall2_nil_inv_l in Hjs as ->.
  - apply Forall2_cons_inv_l in Hjs as (jz & js' & Hz & Hjs & ->).
    csimpl. rewrite <- (IH _ Hjs). destruct n; [done|]. simpl in Hz.
    by injection Hz as <-.
Qed.

(** The steps of [scene_cfg] on a template with an [images] object and with
    no [segmentation] member or one that is an object: every step succeeds,
    and the cells of the document hold the assigned fields. *)
Lemma scene_cfg_cells (base_cfg : val) (id_name : string) (W H : nat)
    (h0 : list obj) (text0 : json) (mi : list (string * json)) :
  py_dumps h0 base_cfg = Ok text0 →
  json_get "images" text0 = Some (JObj mi) →
  (json_get "segmentation" text0 = None
   ∨ ∃ msg, json_get "segmentation" text0 = Some (JObj msg)) →
  ∃ h1 r ai sg s m,
    scene_cfg base_cfg id_name W H h0 = Ok (h1, VRef r)
    ∧ good_dict h1 r ∧ good_dict h1 ai ∧ good_dict h1 sg
    ∧ py_field h1 r "name" = Some (VStr id_name)
    ∧ py_field h1 r "images" = Some (VRef ai)
    ∧ py_field h1 ai "path" = Some (VStr "images/{id}/rgb.npy")
    ∧ py_field h1 ai "shape" = Some (VRef s)
    ∧ py_list h1 s = Some (VInt <$> [Z.of_nat W; Z.of_nat H])
    ∧ py_field h1 r "segmentation" = Some (VRef sg)
    ∧ py_field h1 sg "mask_area" = Some (VRef m)
    ∧ py_list h1 m = Some (VInt <$> [0; 0; Z.of_nat W; Z.of_nat H])
    ∧ ∃ N, readable N h1 (VRef r).
Proof.
  intros Htext Himg Hseg. unfold scene_cfg. rewrite Htext.
  cbn [mbind result_bind].
  destruct text0 as [| | | | | |ms]; try done.
  destruct (loads (JObj ms) h0) as [ha cfg] eqn:Hloads.
  destruct (loads_readable _ _ _ _ Hloads) as [N0 HN0].
  destruct (loads_object _ _ _ _ Hloads) as (r & -> & Hgr & Hfields).
  (* the images dict of the copy *)
  pose proof (Hfields "images") as Hfi. rewrite Himg in Hfi.
  destruct (py_field ha r "images") as [vi|] eqn:Hai; [|done].
  destruct Hfi as (ai & -> & Hgai).
  (* cfg["name"] = id_name *)
  destruct (py_setitem_good ha r "name" (VStr id_name) Hgr)
    as (hb & -> & Hlb & Hfb & Hkb & Hlistb & Hgb & _ & Hrb).
  cbn [mbind result_bind].
  assert (Hbi : py_field hb r "images" = Some (VRef ai)).
  { by rewrite Hkb. }
  rewrite (py_getitem_field _ _ _ _ Hbi). cbn [mbind result_bind].
  (* cfg["images"]["path"] = ... *)
  destruct (py_setitem_good hb ai "path" (VStr "images/{id}/rgb.npy")
              (Hgb _ Hgai))
    as (hc & -> & Hlc & Hfc & Hkc & Hlistc & Hgc & _ & Hrc).
  cbn [mbind result_bind]. unfold py_alloc at 1.
  (* [W, H] *)
  set (shape := OList [VInt (Z.of_nat W); VInt (Z.of_nat H)]).
  destruct (py_alloc_good hc shape) as (Hsd & Hkd & Hlistd & Hgd & Hrd).
  set (hd := hc ++ [shape]) in *.
  assert (Hltr : ∀ h, good_dict h r → (r < length h)%nat)
    by (intros h0'; apply good_dict_lt).
  assert (Hdi : py_field hd r "images" = Some (VRef ai)).
  { rewrite Hkd by (apply good_dict_lt; auto). by rewrite Hkc, Hkb. }
  rewrite (py_getitem_field _ _ _ _ Hdi). cbn [mbind result_bind].
  destruct (py_setitem_good hd ai "shape" (VRef (length hc))
              (Hgd _ (Hgc _ (Hgb _ Hgai))))
    as (he & -> & Hle & Hfe & Hke & Hliste & Hge & Hnee & Hre).
  cbn [mbind result_bind]. unfold py_alloc at 1.
  (* {} *)
  destruct (py_alloc_good he (ODict [])) as (Hsf & Hkf & Hlistf & Hgf & Hrf).
  set (hf := he ++ [ODict []]) in *.
  assert (Hgrf : good_dict hf r) by auto 10.
  assert (Hgef : good_dict hf (length he)).
  { exists []. split; [done|]. apply NoDup_nil_2. }
  destruct (py_setdefault_good hf r "segmentation" (VRef (length he)) Hgrf)
    as (hg & -> & Hlg & Hfg & Hkg & Hlistg & Hgg & Hneg & Hrg).
  cbn [mbind result_bind]. unfold py_alloc at 1.
  (* the segmentation dict *)
  assert (Hsg : ∃ sg, default (VRef (length he)) (py_field hf r "segmentation")
                      = VRef sg ∧ good_dict hf sg).
  { assert (Hfs : py_field hf r "segmentation" = py_field ha r "segmentation").
    { rewrite Hkf by (apply good_dict_lt; auto 10).
      rewrite Hke, Hkd by (done || apply good_dict_lt; auto 10).
      by rewrite Hkc, Hkb. }
    rewrite Hfs. pose proof (Hfields "segmentation") as Hfseg.
    destruct Hseg as [Hnone|[msg Hsome]].
    - rewrite Hnone in Hfseg.
      destruct (py_field ha r "segmentation"); [done|]. by exists (length he).
    - rewrite Hsome in Hfseg.
      destruct (py_field ha r "segmentation") as [vs|]; [|done].
      destruct Hfseg as (sg & -> & Hgsg). exists sg. split; [done|]. auto 10. }
  destruct Hsg as (sg & Hsgeq & Hgsg). rewrite Hsgeq in Hfg.
  (* [0, 0, W, H] *)
  set (area := OList [VInt 0; VInt 0; VInt (Z.of_nat W); VInt (Z.of_nat H)]).
  destruct (py_alloc_good hg area) as (Hsi & Hki & Hlisti & Hgi & Hri).
  set (hi := hg ++ [area]) in *.
  assert (Hfgi : py_field hi r "segmentation" = Some (VRef sg)).
  { rewrite Hki by (apply good_dict_lt; auto). done. }
  rewrite (py_getitem_field _ _ _ _ Hfgi). cbn [mbind result_bind].
  destruct (py_setitem_good hi sg "mask_area" (VRef (length hg))
              (Hgi _ (Hgg _ Hgsg)))
    as (hj & -> & Hlj & Hfj & Hkj & Hlistj & Hgj & Hnej & Hrj).
  cbn [mbind result_bind].
  assert (Hlens : (length hc < length hd)%nat ∧ length hf = S (length he)
                  ∧ length hi = S (length hg)).
  { unfold hd, hf, hi. rewrite !length_app. simpl. lia. }
  destruct Hlens as (Hlcd & Hlef & Hlgi).
  exists hj, r, ai, sg, (length hc), (length hg).
  split; [done|].
  split; [auto 15|]. split; [auto 15|]. split; [auto 15|].
  (* name *)
  split.
  { rewrite Hkj, Hki by (done || apply good_dict_lt; auto 15).
    rewrite Hkg, Hkf by (done || apply good_dict_lt; auto 15).
    rewrite Hke, Hkd by (done || apply good_dict_lt; auto 15).
    by rewrite Hkc. }
  (* images *)
  split.
  { rewrite Hkj, Hki by (done || apply good_dict_lt; auto 15).
    rewrite Hkg, Hkf by (done || apply good_dict_lt; auto 15).
    by rewrite Hke. }
  (* path *)
  split.
  { rewrite Hkj, Hki by (done || apply good_dict_lt; auto 15).
    rewrite Hkg, Hkf by (done || apply good_dict_lt; auto 15).
    rewrite Hke, Hkd by (done || apply good_dict_lt; auto 15). done. }
  (* shape *)
  split.
  { rewrite Hkj, Hki by (done || apply good_dict_lt; auto 15).
    rewrite Hkg, Hkf by (done || apply good_dict_lt; auto 15). done. }
  split.
  { rewrite Hlistj, Hlisti by lia. rewrite Hlistg, Hlistf by lia.
    rewrite Hliste. unfold py_list. by rewrite Hsd. }
  (* segmentation *)
  split.
  { by rewrite Hkj, Hfgi. }
  split; [done|].
  split.
  { rewrite Hlistj. unfold py_list. by rewrite Hsi. }
  (* the document can be read *)
  eexists. eapply Hrj; [|eapply Hri, Hrg; [|eapply Hrf, Hre; [|eapply Hrd, Hrc;
    [|eapply Hrb; [|exact HN0]]]]].
  - eapply (readable_flat_list _ _ (VInt <$> [0; 0; Z.of_nat W; Z.of_nat H])).
    + rewrite Hlistj. unfold py_list. by rewrite Hsi.
    + by repeat constructor.
  - apply (readable_ref 0). exists (ODict []). split; [|constructor].
    destruct (decide (length he = r)) as [Heq|Hne].
    + pose proof (good_dict_lt _ _ (Hge _ (Hgd _ (Hgc _ (Hgb _ Hgr))))).
      lia.
    + by rewrite Hneg.
  - eapply (readable_flat_list _ _ (VInt <$> [Z.of_nat W; Z.of_nat H])).
    + rewrite Hliste. unfold py_list. by rewrite Hsd.
    + by repeat constructor.
  - by apply (readable_scalar 0).
  - by apply (readable_scalar 0).
Qed.

(** ** The files of a scene *)

Lemma write_rgb_frame (tif_path dest_npy : list string)
    (fs fs1 : gmap (list string) content) :
  write_rgb_npy_to_dest tif_path dest_npy fs = Ok fs1 →
  (∀ p, p ≠ dest_npy → fs1 !! p = fs !! p)
  ∧ ∃ arr, fs1 !! dest_npy = Some (CNpyFloat32 arr).
Proof.
  unfold write_rgb_npy_to_dest. intros Hrun.
  inv_bind Hrun fs0 Hunlink. inv_bind Hrun src Hopen.
  injection Hrun as <-. unfold write_file. split.
  - intros p Hp. rewrite lookup_insert_ne by done.
    destruct (path_exists fs dest_npy); [|by injection Hunlink as <-].
    unfold unlink in Hunlink. destruct (fs !! dest_npy).
    + injection Hunlink as <-. by apply lookup_delete_ne.
    + by destruct (path_exists fs dest_npy).
  - eexists. apply lookup_insert_eq.
Qed.

Lemma remove_source_frame (id_src_dir : list string)
    (fs : gmap (list string) content) (p : list string) :
  p ≠ id_src_dir </> "rgb.npy" →
  remove_source_rgb_npy id_src_dir fs !! p = fs !! p.
Proof.
  intros Hp. unfold remove_source_rgb_npy, unlink.
  destruct (path_exists fs (id_src_dir </> "rgb.npy")); [|done].
  destruct (fs !! (id_src_dir </> "rgb.npy")); [|done].
  by apply lookup_delete_ne.
Qed.

Lemma build_caches_frame (id_src_dir proj_dir : list string)
    (proj_name : string) (classes : list string) (class_colors : list colour)
    (fs fs' : gmap (list string) content) (p : list string) :
  build_caches_from_mask id_src_dir proj_dir proj_name classes class_colors fs
  = Ok fs' →
  (∀ name, p ≠ segmentation_dir proj_dir proj_name id_src_dir </> name) →
  fs' !! p = fs !! p.
Proof.
  unfold build_caches_from_mask. intros Hrun Hp.
  destruct (path_exists fs (id_src_dir </> MASK_TIF_NAME));
    [|by injection Hrun as <-].
  cbn [negb] in Hrun.
  inv_bind Hrun src Hopen. inv_bind Hrun m Hread.
  inv_bind Hrun oh1 Hclear. inv_bind Hrun oh2 Hcloud.
  inv_bind Hrun rgb Hpaint. injection Hrun as <-.
  unfold write_file. by rewrite !lookup_insert_ne.
Qed.

Section scenes.
Context `{Warp}.

(** A scene without [rgb.tif] is skipped. *)
Lemma process_scene_skip (base_json_path images_root : list string)
    (base_cfg : val) (classes : list string) (class_colors : list colour)
    (id_name : string) (st : world * list string) :
  path_exists (files st.1) (scene_tif images_root id_name) = false →
  process_scene base_json_path images_root base_cfg classes class_colors
    id_name st = Ok st.
Proof. unfold process_scene, scene_tif. by intros ->. Qed.

(** The steps of a scene that is processed. *)
Lemma process_scene_run (base_json_path images_root : list string)
    (base_cfg : val) (classes : list string) (class_colors : list colour)
    (id_name : string) (st : world * list string)
    (t : tiff) (fs1 fs3 : gmap (list string) content)
    (latlon : option (pyfloat * pyfloat)) (h : list obj) (cfg : val)
    (text : json) :
  path_exists (files st.1) (scene_tif images_root id_name) = true →
  rio_open (files st.1) (scene_tif images_root id_name) = Ok t →
  write_rgb_npy_to_dest (scene_tif images_root id_name)
    (project_npy base_json_path id_name) (files st.1) = Ok fs1 →
  compute_center_latlon fs1 (scene_tif images_root id_name) = Ok latlon →
  scene_cfg base_cfg id_name (tif_width t) (tif_height t) (objects st.1)
  = Ok (h, cfg) →
  py_dumps h cfg = Ok text →
  build_caches_from_mask (scene_src_dir images_root id_name)
    (project_dir base_json_path id_name) id_name classes class_colors
    (write_file (project_json base_json_path id_name) (CJson text)
       (remove_source_rgb_npy (scene_src_dir images_root id_name)
          (write_metadata (project_images_dir base_json_path id_name)
             id_name latlon fs1)))
  = Ok fs3 →
  process_scene base_json_path images_root base_cfg classes class_colors
    id_name st
  = Ok (World fs3 h, st.2 ++ [launch_line base_json_path id_name]).
Proof.
  intros Hex Hopen Hnpy Hll Hcfg Htext Hbuild.
  unfold process_scene, launch_line, scene_tif, project_npy, project_json,
    project_images_dir, project_dir, scene_src_dir,
    get_width_height_from_tif, safe_make_clean_dest_dir in *.
  rewrite Hex, Hopen. cbn [negb mbind result_bind].
  rewrite Hnpy. cbn [mbind result_bind]. rewrite Hll.
  cbn [mbind result_bind]. rewrite Hcfg. cbn [mbind result_bind].
  unfold OVERWRITE_JSON. cbn [orb]. rewrite Htext.
  cbn [mbind result_bind]. rewrite Hbuild. done.
Qed.

Lemma process_scene_inv (base_json_path images_root : list string)
    (base_cfg : val) (classes : list string) (class_colors : list colour)
    (id_name : string) (st st' : world * list string) :
  process_scene base_json_path images_root base_cfg classes class_colors
    id_name st = Ok st' →
  path_exists (files st.1) (scene_tif images_root id_name) = true →
  ∃ t fs1 latlon h cfg text fs3,
    rio_open (files st.1) (scene_tif images_root id_name) = Ok t
    ∧ write_rgb_npy_to_dest (scene_tif images_root id_name)
        (project_npy base_json_path id_name) (files st.1) = Ok fs1
    ∧ compute_center_latlon fs1 (scene_tif images_root id_name) = Ok latlon
    ∧ scene_cfg base_cfg id_name (tif_width t) (tif_height t)
        (objects st.1) = Ok (h, cfg)
    ∧ py_dumps h cfg = Ok text
    ∧ build_caches_from_mask (scene_src_dir images_root id_name)
        (project_dir base_json_path id_name) id_name classes class_colors
        (write_file (project_json base_json_path id_name) (CJson text)
           (remove_source_rgb_npy (scene_src_dir images_root id_name)
              (write_metadata (project_images_dir base_json_path id_name)
                 id_name latlon fs1)))
      = Ok fs3
    ∧ st' = (World fs3 h, st.2 ++ [launch_line base_json_path id_name]).
Proof.
  intros Hrun Hex.
  unfold process_scene, launch_line, scene_tif, project_npy, project_json,
    project_images_dir, project_dir, scene_src_dir,
    get_width_height_from_tif, safe_make_clean_dest_dir in *.
  rewrite Hex in Hrun. cbn [negb] in Hrun.
  inv_bind Hrun wh Hwh. inv_bind Hwh t Ht. injection Hwh as <-.
  cbn [mbind result_bind] in Hrun.
  inv_bind Hrun fs1 Hnpy. inv_bind Hrun latlon Hll.
  inv_bind Hrun hc Hcfg. destruct hc as [h cfg].
  unfold OVERWRITE_JSON in Hrun. cbn [orb] in Hrun.
  inv_bind Hrun fs2 Hwrite. inv_bind Hwrite text Htext.
  injection Hwrite as <-. inv_bind Hrun fs3 Hbuild. injection Hrun as <-.
  exists t, fs1, latlon, h, cfg, text, fs3. done.
Qed.

Lemma project_json_not_cache (base_json_path id_src_dir : list string)
    (id_name name : string) :
  project_json base_json_path id_name
  ≠ segmentation_dir (project_dir base_json_path id_name) id_name id_src_dir
    </> name.
Proof.
  unfold project_json, segmentation_dir, joinpath.
  rewrite <- !app_assoc. intros E. apply app_inv_head in E. discriminate.
Qed.

Lemma project_metadata_not_cache (base_json_path id_src_dir : list string)
    (id_name name : string) :
  project_metadata base_json_path id_name
  ≠ segmentation_dir (project_dir base_json_path id_name) id_name id_src_dir
    </> name.
Proof.
  unfold project_metadata, project_images_dir, segmentation_dir, joinpath.
  rewrite <- !app_assoc. intros E. apply app_inv_head in E. discriminate.
Qed.

Lemma project_metadata_not_json (base_json_path : list string)
    (id_name : string) :
  project_metadata base_json_path id_name
  ≠ project_json base_json_path id_name.
Proof.
  unfold project_metadata, project_images_dir, project_json, joinpath.
  rewrite <- !app_assoc. intros E. apply app_inv_head in E. discriminate.
Qed.

(** C4, as the code has it.  For a template with an [images] object and
    with no [segmentation] member or one that is an object, the document
    of a scene is made and serialised; it holds the scene identifier as
    [name], the fixed text "images/{id}/rgb.npy" as the image path (the
    placeholder is left for the annotation tool to fill), the shape
    [width, height] and the mask area [0, 0, width, height]; and it is the
    content of [<ID>.json] after the scene is processed. *)
Theorem scene_config_fields (base_cfg : val) (id_name : string)
    (h0 : list obj) (text0 : json) (mi : list (string * json)) (t : tiff) :
  py_dumps h0 base_cfg = Ok text0 →
  json_get "images" text0 = Some (JObj mi) →
  (json_get "segmentation" text0 = None
   ∨ ∃ msg, json_get "segmentation" text0 = Some (JObj msg)) →
  ∃ h1 cfg text images segmentation,
    scene_cfg base_cfg id_name (tif_width t) (tif_height t) h0
    = Ok (h1, cfg)
    ∧ py_dumps h1 cfg = Ok text
    ∧ json_get "name" text = Some (JStr id_name)
    ∧ json_get "images" text = Some images
    ∧ json_get "path" images = Some (JStr "images/{id}/rgb.npy")
    ∧ json_get "shape" images
      = Some (JArr [JInt (Z.of_nat (tif_width t));
                    JInt (Z.of_nat (tif_height t))])
    ∧ json_get "segmentation" text = Some segmentation
    ∧ json_get "mask_area" segmentation
      = Some (JArr [JInt 0; JInt 0; JInt (Z.of_nat (tif_width t));
                    JInt (Z.of_nat (tif_height t))])
    ∧ ∀ base_json_path images_root classes class_colors fs run_lines st',
        fs !! scene_tif images_root id_name = Some (CTiff t) →
        process_scene base_json_path images_root base_cfg classes
          class_colors id_name (World fs h0, run_lines) = Ok st' →
        files st'.1 !! project_json base_json_path id_name
        = Some (CJson text).
Proof.
  intros Htext Himg Hseg.
  destruct (scene_cfg_cells base_cfg id_name (tif_width t) (tif_height t)
              h0 text0 mi Htext Himg Hseg)
    as (h1 & r & ai & sg & s & m & Hrun & Hgr & Hgai & Hgsg & Hname & Hi
        & Hpath & Hshape & Hls & Hsegf & Harea & Hlm & N & HN).
  destruct (py_dumps_readable _ _ _ HN) as [text Hdump].
  pose proof Hdump as Hd. unfold py_dumps in Hd.
  destruct (dumps (S (length h1)) h1 (VRef r)) as [text'|] eqn:Hd1;
    [|done]. injection Hd as ->.
  destruct (dumps_field _ _ _ _ _ _ Hd1 Hgr Hname) as (jn & Hjn & Hdn).
  destruct (dumps_field _ _ _ _ _ _ Hd1 Hgr Hi) as (ji & Hji & Hdi).
  destruct (dumps_field _ _ _ _ _ _ Hd1 Hgr Hsegf) as (js & Hjs & Hds).
  destruct (length h1) as [|n] eqn:Hlen; [done|].
  destruct (dumps_field _ _ _ _ _ _ Hdi Hgai Hpath) as (jp & Hjp & Hdp).
  destruct (dumps_field _ _ _ _ _ _ Hdi Hgai Hshape) as (jsh & Hjsh & Hdsh).
  destruct (dumps_field _ _ _ _ _ _ Hds Hgsg Harea) as (ja & Hja & Hda).
  apply (dumps_int_list _ _ _ _ _ Hdsh) in Hls as ->.
  apply (dumps_int_list _ _ _ _ _ Hda) in Hlm as ->.
  destruct n as [|n]; [done|]. simpl in Hdn, Hdp.
  injection Hdn as <-. injection Hdp as <-.
  exists h1, (VRef r), text, ji, js.
  split; [done|]. split; [done|]. split; [done|]. split; [done|].
  split; [done|]. split; [done|]. split; [done|]. split; [done|].
  intros base_json_path images_root classes class_colors fs run_lines st'
    Hfile Hscene.
  apply process_scene_inv in Hscene;
    [|by apply (path_exists_file _ _ (CTiff t))].
  destruct Hscene as (t' & fs1 & latlon & h & cfg & text' & fs3 & Hopen
                      & _ & _ & Hcfg & Htext' & Hbuild & ->).
  simpl in *. unfold rio_open in Hopen. rewrite Hfile in Hopen.
  injection Hopen as <-. rewrite Hrun in Hcfg. injection Hcfg as <- <-.
  rewrite Hdump in Htext'. injection Htext' as <-.
  rewrite (build_caches_frame _ _ _ _ _ _ _ _ Hbuild)
    by apply project_json_not_cache.
  apply lookup_insert_eq.
Qed.

(** C8.  When the raster has no coordinate reference system,
    [compute_center_latlon] returns no location.  The scene is then
    processed as far as its other steps allow: when the array, the
    configuration and the mask caches are produced, the scene ends without
    an exception, nothing is written to its [metadata.json], its launch line
    is recorded and the loop goes on with the remaining scenes.  For any
    raster, [metadata.json] changes only when a location was computed, and
    then holds the scene identifier and that location. *)
Theorem no_crs_is_not_fatal (base_json_path images_root : list string)
    (base_cfg : val) (classes : list string) (class_colors : list colour)
    (id_name : string) (st : world * list string) :
  (∀ fs t, fs !! scene_tif images_root id_name = Some (CTiff t) →
     tif_crs t = None →
     compute_center_latlon fs (scene_tif images_root id_name) = Ok None)
  ∧ (∀ t fs1 h cfg text fs3,
       files st.1 !! scene_tif images_root id_name = Some (CTiff t) →
       tif_crs t = None →
       write_rgb_npy_to_dest (scene_tif images_root id_name)
         (project_npy base_json_path id_name) (files st.1) = Ok fs1 →
       scene_cfg base_cfg id_name (tif_width t) (tif_height t)
         (objects st.1) = Ok (h, cfg) →
       py_dumps h cfg = Ok text →
       build_caches_from_mask (scene_src_dir images_root id_name)
         (project_dir base_json_path id_name) id_name classes class_colors
         (write_file (project_json base_json_path id_name) (CJson text)
            (remove_source_rgb_npy (scene_src_dir images_root id_name) fs1))
       = Ok fs3 →
       process_scene base_json_path images_root base_cfg classes
         class_colors id_name st
       = Ok (World fs3 h, st.2 ++ [launch_line base_json_path id_name])
       ∧ fs3 !! project_metadata base_json_path id_name
         = files st.1 !! project_metadata base_json_path id_name
       ∧ ∀ rest,
           process_ids base_json_path images_root base_cfg classes
             class_colors (id_name :: rest) st
           = process_ids base_json_path images_root base_cfg classes
               class_colors rest
               (World fs3 h, st.2 ++ [launch_line base_json_path id_name]))
  ∧ (∀ st',
       process_scene base_json_path images_root base_cfg classes
         class_colors id_name st = Ok st' →
       files st'.1 !! project_metadata base_json_path id_name
       ≠ files st.1 !! project_metadata base_json_path id_name →
       ∃ fs1 lat lon,
         write_rgb_npy_to_dest (scene_tif images_root id_name)
           (project_npy base_json_path id_name) (files st.1) = Ok fs1
         ∧ compute_center_latlon fs1 (scene_tif images_root id_name)
           = Ok (Some (lat, lon))
         ∧ files st'.1 !! project_metadata base_json_path id_name
           = Some (CJson (metadata_doc id_name lat lon))).
Proof.
  assert (HA : ∀ fs t, fs !! scene_tif images_root id_name = Some (CTiff t) →
            tif_crs t = None →
            compute_center_latlon fs (scene_tif images_root id_name)
            = Ok None).
  { intros fs t Hfile Hcrs. unfold compute_center_latlon, rio_open.
    rewrite Hfile. cbn [mbind result_bind]. by rewrite Hcrs. }
  assert (Hmeta : ∀ fs1 latlon text fs3,
    write_rgb_npy_to_dest (scene_tif images_root id_name)
      (project_npy base_json_path id_name) (files st.1) = Ok fs1 →
    build_caches_from_mask (scene_src_dir images_root id_name)
      (project_dir base_json_path id_name) id_name classes class_colors
      (write_file (project_json base_json_path id_name) (CJson text)
         (remove_source_rgb_npy (scene_src_dir images_root id_name)
            (write_metadata (project_images_dir base_json_path id_name)
               id_name latlon fs1)))
    = Ok fs3 →
    fs3 !! project_metadata base_json_path id_name
    = match latlon with
      | None => files st.1 !! project_metadata base_json_path id_name
      | Some (lat, lon) => Some (CJson (metadata_doc id_name lat lon))
      end).
  { intros fs1 latlon text fs3 Hnpy Hbuild.
    rewrite (build_caches_frame _ _ _ _ _ _ _ _ Hbuild)
      by apply project_metadata_not_cache.
    unfold write_file at 1.
    rewrite lookup_insert_ne
      by (intros E; by apply (project_metadata_not_json base_json_path
                                id_name)).
    rewrite remove_source_frame by (by apply joinpath_ne_name).
    destruct latlon as [[lat lon]|]; simpl.
    - apply lookup_insert_eq.
    - apply (write_rgb_frame _ _ _ _ Hnpy). by apply joinpath_ne_name. }
  split; [exact HA|]. split.
  - intros t fs1 h cfg text fs3 Hfile Hcrs Hnpy Hcfg Htext Hbuild.
    assert (Hfile1 : fs1 !! scene_tif images_root id_name = Some (CTiff t)).
    { rewrite (proj1 (write_rgb_frame _ _ _ _ Hnpy)); [done|].
      by apply joinpath_ne_name. }
    assert (Hrun : process_scene base_json_path images_root base_cfg classes
              class_colors id_name st
            = Ok (World fs3 h, st.2 ++ [launch_line base_json_path id_name])).
    { eapply (process_scene_run _ _ _ _ _ _ _ t fs1 fs3 None h cfg text);
        try done.
      - by eapply path_exists_file.
      - unfold rio_open. by rewrite Hfile.
      - by apply (HA fs1 t). }
    split; [done|]. split.
    + by apply (Hmeta fs1 None text fs3).
    + intros rest. simpl. by rewrite Hrun.
  - intros st' Hrun Hne.
    destruct (path_exists (files st.1) (scene_tif images_root id_name))
      eqn:Hex.
    + apply process_scene_inv in Hrun; [|done].
      destruct Hrun as (t & fs1 & latlon & h & cfg & text & fs3 & Hopen
                        & Hnpy & Hll & Hcfg & Htext & Hbuild & ->).
      simpl in *. rewrite (Hmeta _ _ _ _ Hnpy Hbuild) in Hne |- *.
      destruct latlon as [[lat lon]|]; [|done].
      by exists fs1, lat, lon.
    + rewrite process_scene_skip in Hrun by done. by injection Hrun as <-.
Qed.
End scenes.

(** * Further properties of the two scripts *)

(** ** Strings and paths *)

Lemma list_ascii_length (s : string) :
  length (list_ascii_of_string s) = String.length s.
Proof. induction s as [|a s IH]; simpl; [done|]. by rewrite IH. Qed.

Lemma string_app_inj_2 (s1 s2 t1 t2 : string) :
  String.length t1 = String.length t2 →
  s1 +:+ t1 = s2 +:+ t2 → s1 = s2 ∧ t1 = t2.
Proof.
  intros Hlen E. apply (f_equal list_ascii_of_string) in E.
  rewrite !list_ascii_app in E.
  apply app_inj_2 in E as [E1 E2].
  - apply (f_equal string_of_list_ascii) in E1, E2.
    by rewrite !string_of_list_ascii_of_string in E1, E2.
  - by rewrite !list_ascii_length.
Qed.

Lemma path_name_join (p : list string) (s : string) : path_name (p </> s) = s.
Proof. unfold path_name, joinpath. apply last_last. Qed.

Lemma prefix_same_length {A} (p1 p2 q : list A) :
  p1 `prefix_of` q → p2 `prefix_of` q → length p1 = length p2 → p1 = p2.
Proof.
  intros [k1 ->] [k2 E] Hlen. by apply app_inj_1 in E as [? _].
Qed.

Lemma string_leb_trans (a b c : string) :
  String.leb a b → String.leb b c → String.leb a c.
Proof.
  unfold String.leb. revert b c.
  induction a as [|x a IH]; intros [|y b] [|z c]; simpl; try done.
  unfold Ascii.compare.
  destruct (N.compare_spec (N_of_ascii x) (N_of_ascii y)) as [Exy|Hxy|Hxy];
    destruct (N.compare_spec (N_of_ascii y) (N_of_ascii z)) as [Eyz|Hyz|Hyz];
    try done.
  - rewrite Exy, Eyz, N.compare_refl. apply IH.
  - intros _ _. rewrite Exy. by rewrite (proj2 (N.compare_lt_iff _ _) Hyz).
  - intros _ _. rewrite <- Eyz. by rewrite (proj2 (N.compare_lt_iff _ _) Hxy).
  - intros _ _.
    by rewrite (proj2 (N.compare_lt_iff _ _) (N.lt_trans _ _ _ Hxy Hyz)).
Qed.

Lemma string_leb_transitive :
  Transitive (λ a b : string, Is_true (String.leb a b)).
Proof. intros a b c. apply string_leb_trans. Qed.

Lemma string_leb_total :
  Total (λ a b : string, Is_true (String.leb a b)).
Proof.
  intros a b. destruct (String.leb_total a b) as [E|E]; rewrite E; simpl; auto.
Qed.

(** ** The scene enumerator *)

Lemma list_ids_sorted (fs : gmap (list string) content) (root : list string) :
  StronglySorted (λ a b : string, String.leb a b) (list_ids fs root).
Proof.
  unfold list_ids.
  apply (@StronglySorted_merge_sort _ _ _ string_leb_transitive
           string_leb_total).
Qed.

Lemma list_ids_NoDup (fs : gmap (list string) content) (root : list string) :
  NoDup (list_ids fs root).
Proof.
  unfold list_ids. rewrite merge_sort_Permutation. apply NoDup_remove_dups.
Qed.

Lemma list_ids_elem (fs : gmap (list string) content) (root : list string)
    (id_name : string) :
  id_name ∈ list_ids fs root ↔
    ∃ q, is_Some (fs !! q) ∧ (root </> id_name) `prefix_of` q
         ∧ q ≠ root </> id_name.
Proof.
  unfold list_ids. rewrite merge_sort_Permutation, elem_of_remove_dups,
    list_elem_of_omap.
  split.
  - intros (q & Hq & Hf). apply elem_of_elements, elem_of_dom in Hq.
    destruct (decide _) as [[[rest ->] Hlen]|]; [|done].
    rewrite lookup_app_r in Hf by lia. rewrite Nat.sub_diag in Hf.
    destruct rest as [|d rest]; [done|]. simpl in Hf. injection Hf as ->.
    exists (root ++ id_name :: rest). split; [done|]. split.
    + exists rest. unfold joinpath. by rewrite <- app_assoc.
    + unfold joinpath. intros E. apply app_inv_head in E.
      injection E as ->. rewrite length_app in Hlen. simpl in Hlen. lia.
  - intros (q & Hq & [rest ->] & Hne). exists ((root </> id_name) ++ rest).
    split; [by apply elem_of_elements, elem_of_dom|].
    unfold joinpath in *. rewrite <- app_assoc. simpl.
    destruct rest as [|r rest]; [by rewrite app_nil_r in Hne|].
    rewrite decide_True.
    + rewrite lookup_app_r by lia. by rewrite Nat.sub_diag.
    + split; [by eexists|]. rewrite length_app. simpl. lia.
Qed.

(** X1.  [list_ids] gives names in ascending order of their characters,
    each once; every sub-directory of the root under which a file lies is
    among them; a plain file of the root is not; and a name that is listed
    exists below the root. *)
Theorem list_ids_sorted_subdirectories (fs : gmap (list string) content)
    (root : list string) :
  StronglySorted (λ a b : string, String.leb a b) (list_ids fs root)
  ∧ NoDup (list_ids fs root)
  ∧ (∀ id_name q, is_Some (fs !! q) → (root </> id_name) `prefix_of` q →
       q ≠ root </> id_name → id_name ∈ list_ids fs root)
  ∧ (∀ id_name, is_Some (fs !! (root </> id_name)) →
       (∀ q, is_Some (fs !! q) → (root </> id_name) `prefix_of` q →
          q = root </> id_name) →
       id_name ∉ list_ids fs root)
  ∧ ∀ id_name, id_name ∈ list_ids fs root →
      path_exists fs (root </> id_name) = true.
Proof.
  split; [apply list_ids_sorted|]. split; [apply list_ids_NoDup|]. split.
  { intros id_name q Hq Hpre Hne. apply list_ids_elem. by exists q. }
  split.
  - intros id_name _ Hfile Hin.
    apply list_ids_elem in Hin as (q & Hq & Hpre & Hne). by apply Hne, Hfile.
  - intros id_name Hin. apply list_ids_elem in Hin as (q & Hq & Hpre & _).
    apply path_exists_spec. by exists q.
Qed.

(** ** The files of the source tree and the array *)

(** X2.  After [remove_source_rgb_npy] no file [rgb.npy] is left in the
    source directory of the scene, whatever was there, and every other file
    is as before; the function raises nothing. *)
Theorem source_npy_removed (id_src_dir : list string)
    (fs : gmap (list string) content) :
  remove_source_rgb_npy id_src_dir fs !! (id_src_dir </> "rgb.npy") = None
  ∧ ∀ p, p ≠ id_src_dir </> "rgb.npy" →
      remove_source_rgb_npy id_src_dir fs !! p = fs !! p.
Proof.
  split; [|intros p Hp; by apply remove_source_frame].
  unfold remove_source_rgb_npy, unlink.
  destruct (path_exists fs (id_src_dir </> "rgb.npy")) eqn:Hex.
  - destruct (fs !! (id_src_dir </> "rgb.npy")) as [c|] eqn:Hc.
    + apply lookup_delete_eq.
    + done.
  - by apply path_exists_false.
Qed.


(** X4.  [write_rgb_npy_to_dest] raises rasterio's error when nothing lies
    at the source path, and also when the source is the destination itself:
    the destination is removed before the source is opened. *)
Theorem write_rgb_needs_raster (tif_path dest_npy : list string)
    (fs : gmap (list string) content) :
  (path_exists fs dest_npy = true → is_Some (fs !! dest_npy)) →
  path_exists fs tif_path = false ∨ tif_path = dest_npy →
  write_rgb_npy_to_dest tif_path dest_npy fs = Raise RasterioIOError.
Proof.
  intros Hdest Hbad. unfold write_rgb_npy_to_dest.
  destruct (path_exists fs dest_npy) eqn:Hex.
  - destruct (Hdest eq_refl) as [c Hc]. unfold unlink. rewrite Hc.
    cbn [mbind result_bind]. unfold rio_open.
    destruct (decide (tif_path = dest_npy)) as [->|Hne].
    + by rewrite lookup_delete_eq.
    + rewrite lookup_delete_ne by done. destruct Hbad as [Hbad|?]; [|done].
      by rewrite (path_exists_false _ _ Hbad).
  - cbn [mbind result_bind]. unfold rio_open.
    destruct Hbad as [Hbad| ->].
    + by rewrite (path_exists_false _ _ Hbad).
    + by rewrite (path_exists_false _ _ Hex).
Qed.

Lemma write_rgb_result (tif_path dest_npy : list string)
    (fs fs1 : gmap (list string) content) (t : tiff) :
  write_rgb_npy_to_dest tif_path dest_npy fs = Ok fs1 →
  fs !! tif_path = Some (CTiff t) →
  fs1 !! dest_npy
  = Some (CNpyFloat32 (astype_float32 (moveaxis_first_to_last (read_all t))))
  ∧ fs1 !! tif_path = Some (CTiff t).
Proof.
  intros Hrun Hfile. unfold write_rgb_npy_to_dest in Hrun.
  inv_bind Hrun fs0 Hun. inv_bind Hrun src Hopen. injection Hrun as <-.
  unfold write_file. unfold rio_open in Hopen.
  assert (Hne : tif_path ≠ dest_npy).
  { intros ->. destruct (path_exists fs dest_npy) eqn:Hex.
    - unfold unlink in Hun. rewrite Hfile in Hun. injection Hun as <-.
      by rewrite lookup_delete_eq in Hopen.
    - apply path_exists_file in Hfile. congruence. }
  assert (Hsame : fs0 !! tif_path = fs !! tif_path).
  { destruct (path_exists fs dest_npy); [|by injection Hun as <-].
    unfold unlink in Hun.
    destruct (fs !! dest_npy); [|by destruct (path_exists _ _)].
    injection Hun as <-. by apply lookup_delete_ne. }
  rewrite Hsame, Hfile in Hopen. injection Hopen as <-.
  split; [apply lookup_insert_eq|].
  rewrite lookup_insert_ne by done. by rewrite Hsame.
Qed.



(** ** The mask cache encoder: files and errors *)

Lemma build_caches_frame3 (id_src_dir proj_dir : list string)
    (proj_name : string) (classes : list string) (class_colors : list colour)
    (fs fs' : gmap (list string) content) (p : list string) :
  build_caches_from_mask id_src_dir proj_dir proj_name classes class_colors fs
  = Ok fs' →
  let seg_dir := segmentation_dir proj_dir proj_name id_src_dir in
  p ≠ seg_dir </> "1_final.npy" → p ≠ seg_dir </> "1_user.npy" →
  p ≠ seg_dir </> "mask.png" → fs' !! p = fs !! p.
Proof.
  intros Hrun seg_dir H1 H2 H3. unfold build_caches_from_mask in Hrun.
  destruct (path_exists fs (id_src_dir </> MASK_TIF_NAME));
    [|by injection Hrun as <-].
  cbn [negb] in Hrun.
  inv_bind Hrun src Hopen. inv_bind Hrun m Hread.
  inv_bind Hrun oh1 Hclear. inv_bind Hrun oh2 Hcloud.
  inv_bind Hrun rgb Hpaint. injection Hrun as <-.
  unfold write_file. by rewrite !lookup_insert_ne.
Qed.

(** X6.  When [build_caches_from_mask] returns: without a mask raster it
    has written nothing; with one, the three cache files are there; in both
    cases the mask raster and every file other than the three cache files
    are as before. *)
Theorem caches_only_with_mask (id_src_dir proj_dir : list string)
    (proj_name : string) (classes : list string) (class_colors : list colour)
    (fs fs' : gmap (list string) content) :
  build_caches_from_mask id_src_dir proj_dir proj_name classes class_colors fs
  = Ok fs' →
  let seg_dir := segmentation_dir proj_dir proj_name id_src_dir in
  (path_exists fs (id_src_dir </> MASK_TIF_NAME) = false → fs' = fs)
  ∧ (path_exists fs (id_src_dir </> MASK_TIF_NAME) = true →
     ∃ onehot user rgbmask,
       fs' !! (seg_dir </> "1_final.npy") = Some (CNpyBool3 onehot)
       ∧ fs' !! (seg_dir </> "1_user.npy") = Some (CNpyBool2 user)
       ∧ fs' !! (seg_dir </> "mask.png") = Some (CPng rgbmask))
  ∧ fs' !! (id_src_dir </> MASK_TIF_NAME) = fs !! (id_src_dir </> MASK_TIF_NAME)
  ∧ ∀ p, p ≠ seg_dir </> "1_final.npy" → p ≠ seg_dir </> "1_user.npy" →
      p ≠ seg_dir </> "mask.png" → fs' !! p = fs !! p.
Proof.
  intros Hrun seg_dir.
  pose proof (λ p, build_caches_frame3 _ _ _ _ _ _ _ p Hrun) as Hframe.
  split; [|split; [|split; [|done]]].
  - intros Hex. unfold build_caches_from_mask in Hrun. rewrite Hex in Hrun.
    by injection Hrun as <-.
  - intros Hex. unfold build_caches_from_mask in Hrun. rewrite Hex in Hrun.
    cbn [negb] in Hrun.
    inv_bind Hrun src Hopen. inv_bind Hrun m Hread.
    inv_bind Hrun oh1 Hclear. inv_bind Hrun oh2 Hcloud.
    inv_bind Hrun rgb Hpaint. injection Hrun as <-.
    eexists _, _, _. unfold write_file. split; [|split].
    + rewrite !lookup_insert_ne by (by apply joinpath_ne_name).
      apply lookup_insert_eq.
    + rewrite lookup_insert_ne by (by apply joinpath_ne_name).
      apply lookup_insert_eq.
    + apply lookup_insert_eq.
  - apply Hframe; by apply joinpath_ne_name.
Qed.



(** ** The per-scene document: copy, edits and errors *)

Lemma dict_rel_keys {V W} (R : V → W → Prop) (d : list (string * V))
    (e : list (string * W)) :
  dict_rel R d e → d.*1 = e.*1.
Proof.
  induction 1 as [|[k1 v1] [k2 j2] d e [Hk _] _ IH]; csimpl in *; [done|].
  by rewrite IH, Hk.
Qed.

Lemma dumps_dict (n : nat) (h : list obj) (d : list (string * val))
    (ms : list (string * json)) :
  mapM (λ kv, pair kv.1 <$> dumps n h kv.2) d = Some ms ↔
  dict_rel (λ v j, dumps n h v = Some j) d ms.
Proof.
  rewrite mapM_Some. unfold dict_rel. split; intros Hrel.
  - eapply Forall2_impl; [exact Hrel|]. intros [k1 v1] [k2 j2]. simpl.
    intros (jx & Hjx & [= <- <-])%fmap_Some. done.
  - eapply Forall2_impl; [exact Hrel|]. intros [k1 v1] [k2 j2]. simpl.
    intros [-> ->]. done.
Qed.

Lemma dumps_canonical (h : list obj) :
  store_wf h → ∀ n v j, dumps n h v = Some j → canonical j.
Proof.
  intros Hwf. induction n as [|n IH]; intros v j; [done|]. simpl.
  destruct v as [| | | | |a]; try (intros [= <-]; constructor).
  destruct (h !! a) as [[vs|d]|] eqn:Ha; [| |done].
  - intros (js & Hjs & ->)%fmap_Some. constructor.
    apply mapM_Some in Hjs. clear Ha.
    induction Hjs as [|v j vs js Hv _ IHjs]; constructor; eauto.
  - intros (ms & Hms & ->)%fmap_Some. apply dumps_dict in Hms.
    constructor.
    + rewrite <- (dict_rel_keys _ _ _ Hms).
      unfold store_wf in Hwf. rewrite Forall_forall in Hwf.
      apply (Hwf (ODict d)). by eapply list_elem_of_lookup_2.
    + clear Ha. induction Hms as [|[k1 v1] [k2 j2] d ms [_ Hv] _ IHms];
        constructor; simpl in *; eauto.
Qed.

Lemma loads_dumps (j : json) :
  canonical j → ∀ h h' v, loads j h = (h', v) → ∃ N, dumps N h' v = Some j.
Proof.
  induction j as [|b|z|f|s|items IH|members IH] using json_ind';
    intros Hc h h' v; try (intros [= <- <-]; by exists 1%nat).
  - inversion_clear Hc as [| | | | |? Hitems|]. rewrite loads_JArr.
    assert (Hall : ∀ h h1 vs, loads_items items h = (h1, vs) →
              ∃ N, Forall2 (λ v j, dumps N h1 v = Some j) vs items).
    { clear h h' v. induction IH as [|j items Hj _ IHitems]; intros h h1 vs;
        simpl; [intros [= <- <-]; by exists 0%nat|].
      apply Forall_cons in Hitems as [Hcj Hcitems].
      destruct (loads j h) as [h2 v] eqn:E2.
      destruct (loads_items items h2) as [h3 vs'] eqn:E3.
      intros [= <- <-]. destruct (Hj Hcj _ _ _ E2) as [N1 HN1].
      destruct (IHitems Hcitems _ _ _ E3) as [N2 HN2].
      destruct (loads_items_extends _ _ _ _ E3) as [e ->].
      exists (N1 `max` N2)%nat. constructor.
      - apply (dumps_mono_le N1); [lia|]. by apply dumps_app.
      - eapply Forall2_impl; [exact HN2|]. intros v' j' Hd.
        apply (dumps_mono_le N2); [lia|done]. }
    destruct (loads_items items h) as [h1 vs] eqn:E. unfold py_alloc.
    intros [= <- <-]. destruct (Hall _ _ _ E) as [N HN].
    exists (S N). simpl. rewrite list_lookup_middle by done. simpl.
    apply fmap_Some. exists items. split; [|done]. apply mapM_Some.
    eapply Forall2_impl; [exact HN|]. intros v' j' Hd. by apply dumps_app.
  - inversion_clear Hc as [| | | | | |? Hnd Hmembers]. rewrite loads_JObj.
    assert (Hall : ∀ h h1 kvs, loads_members members h = (h1, kvs) →
              ∃ N, dict_rel (λ v j, dumps N h1 v = Some j) kvs members).
    { clear h h' v Hnd.
      induction IH as [|[k j] members Hj _ IHmembers]; intros h h1 kvs;
        simpl; [intros [= <- <-]; exists 0%nat; constructor|].
      apply Forall_cons in Hmembers as [Hcj Hcm].
      destruct (loads j h) as [h2 v] eqn:E2.
      destruct (loads_members members h2) as [h3 kvs'] eqn:E3.
      intros [= <- <-]. destruct (Hj Hcj _ _ _ E2) as [N1 HN1].
      destruct (IHmembers Hcm _ _ _ E3) as [N2 HN2].
      destruct (loads_members_extends _ _ _ _ E3) as [e ->].
      exists (N1 `max` N2)%nat. constructor.
      - split; [done|]. simpl.
        apply (dumps_mono_le N1); [lia|]. by apply dumps_app.
      - eapply Forall2_impl; [exact HN2|]. intros [k1 v1] [k2 j2] [? Hd].
        split; [done|]. apply (dumps_mono_le N2); [lia|done]. }
    destruct (loads_members members h) as [h1 kvs] eqn:E. unfold py_alloc.
    intros [= <- <-]. destruct (Hall _ _ _ E) as [N HN].
    exists (S N). simpl. rewrite list_lookup_middle by done. simpl.
    apply fmap_Some. exists members. split; [|done].
    rewrite dict_of_pairs_id by (by rewrite (dict_rel_keys _ _ _ HN)).
    apply dumps_dict. eapply Forall2_impl; [exact HN|].
    intros [k1 v1] [k2 j2] [? Hd]. split; [done|]. by apply dumps_app.
Qed.

Lemma py_dumps_of_dumps (N : nat) (h : list obj) (v : val) (j : json) :
  dumps N h v = Some j → py_dumps h v = Ok j.
Proof.
  intros Hd. assert (Hr : readable N h v) by (by eexists).
  apply readable_bound in Hr as [j' Hj']. unfold py_dumps. rewrite Hj'.
  f_equal.
  pose proof (dumps_mono_le N (N `max` S (length h)) h v j
                ltac:(lia) Hd) as H1.
  pose proof (dumps_mono_le (S (length h)) (N `max` S (length h)) h v j'
                ltac:(lia) Hj') as H2.
  congruence.
Qed.

Lemma py_dumps_inv (h : list obj) (v : val) (j : json) :
  py_dumps h v = Ok j → dumps (S (length h)) h v = Some j.
Proof.
  unfold py_dumps. destruct (dumps _ h v); [|done]. by intros [= ->].
Qed.

(** X8.  The copy made by [json.loads(json.dumps(v))] reads as the
    original: serialising the copy gives the text that serialising [v]
    gave. *)
Theorem copy_reads_the_same (h h2 h' : list obj) (v v' : val) (text : json) :
  store_wf h →
  py_dumps h v = Ok text →
  loads text h2 = (h', v') →
  py_dumps h' v' = Ok text.
Proof.
  intros Hwf Hd Hl. apply py_dumps_inv in Hd.
  pose proof (dumps_canonical _ Hwf _ _ _ Hd) as Hc.
  destruct (loads_dumps _ Hc _ _ _ Hl) as [N HN].
  by eapply py_dumps_of_dumps.
Qed.

Lemma store_wf_snoc (h : list obj) (o : obj) :
  store_wf h →
  match o with ODict d => NoDup d.*1 | OList _ => True end →
  store_wf (h ++ [o]).
Proof. intros Hh Ho. apply Forall_app. split; [done|]. by constructor. Qed.

Lemma loads_wf (j : json) :
  ∀ h h' v, store_wf h → loads j h = (h', v) → store_wf h'.
Proof.
  induction j as [|b|z|f|s|items IH|members IH] using json_ind';
    intros h h' v Hwf; try (by intros [= <- <-]).
  - rewrite loads_JArr.
    assert (Hall : ∀ h h1 vs, store_wf h → loads_items items h = (h1, vs) →
              store_wf h1).
    { clear h h' v Hwf. induction IH as [|j items Hj _ IHitems];
        intros h h1 vs Hwf; simpl; [by intros [= <- <-]|].
      destruct (loads j h) as [h2 v] eqn:E2.
      destruct (loads_items items h2) as [h3 vs'] eqn:E3.
      intros [= <- <-]. eauto. }
    destruct (loads_items items h) as [h1 vs] eqn:E. unfold py_alloc.
    intros [= <- <-]. apply store_wf_snoc; [|done]. eauto.
  - rewrite loads_JObj.
    assert (Hall : ∀ h h1 kvs, store_wf h →
              loads_members members h = (h1, kvs) → store_wf h1).
    { clear h h' v Hwf. induction IH as [|[k j] members Hj _ IHmembers];
        intros h h1 kvs Hwf; simpl; [by intros [= <- <-]|].
      destruct (loads j h) as [h2 v] eqn:E2.
      destruct (loads_members members h2) as [h3 kvs'] eqn:E3.
      intros [= <- <-]. eauto. }
    destruct (loads_members members h) as [h1 kvs] eqn:E. unfold py_alloc.
    intros [= <- <-]. apply store_wf_snoc; [eauto|].
    apply dict_of_pairs_NoDup.
Qed.

Lemma store_wf_lookup (h : list obj) (a : nat) (d : list (string * val)) :
  store_wf h → h !! a = Some (ODict d) → NoDup d.*1.
Proof.
  intros Hwf Ha. unfold store_wf in Hwf. rewrite Forall_forall in Hwf.
  apply (Hwf (ODict d)). by eapply list_elem_of_lookup_2.
Qed.

Lemma dict_get_Some_elem {V} (k : string) (v : V) (d : list (string * V)) :
  dict_get k d = Some v → v ∈ d.*2.
Proof.
  intros Hk. apply dict_get_elem_of in Hk.
  apply list_elem_of_fmap. by exists (k, v).
Qed.

Lemma loads_members_values (ms : list (string * json)) (h h' : list obj)
    (kvs : list (string * val)) :
  loads_members ms h = (h', kvs) →
  kvs.*1 = ms.*1 ∧ Forall (val_in (length h) (length h')) kvs.*2.
Proof.
  revert h h' kvs. induction ms as [|[k j] ms IH]; intros h h' kvs; simpl.
  - intros [= <- <-]. done.
  - destruct (loads j h) as [h2 v] eqn:E2.
    destruct (loads_members ms h2) as [h3 kvs'] eqn:E3.
    intros [= <- <-]. destruct (IH _ _ _ E3) as [Hk Hv].
    destruct (loads_closed _ _ _ _ E2) as [Hin _].
    destruct (loads_extends _ _ _ _ E2) as [e2 ->].
    destruct (loads_members_extends _ _ _ _ E3) as [e3 ->].
    csimpl. split; [by rewrite Hk|]. constructor.
    + eapply val_in_widen; [| |exact Hin]; [lia|]. rewrite !length_app. lia.
    + eapply Forall_impl; [exact Hv|]. intros x.
      apply val_in_widen; [|lia]. rewrite length_app. lia.
Qed.

(** The value of a member is loaded on its own stretch of the store, which
    holds the cell of no other member. *)
Lemma member_region (ms : list (string * json)) (h h' : list obj)
    (kvs : list (string * val)) (k : string) :
  loads_members ms h = (h', kvs) →
  match dict_get k ms with
  | None => dict_get k kvs = None
  | Some j =>
      ∃ v ha hb ext,
        dict_get k kvs = Some v ∧ loads j ha = (hb, v) ∧ h' = hb ++ ext
        ∧ (length h ≤ length ha)%nat
        ∧ ∀ k' a, k' ≠ k → dict_get k' kvs = Some (VRef a) →
            ¬ (length ha ≤ a < length hb)%nat
  end.
Proof.
  revert h h' kvs. induction ms as [|[k0 j0] ms IH]; intros h h' kvs; simpl.
  - by intros [= <- <-].
  - destruct (loads j0 h) as [h2 v0] eqn:E2.
    destruct (loads_members ms h2) as [h3 kvs'] eqn:E3.
    intros [= <- <-]. simpl.
    destruct (loads_closed _ _ _ _ E2) as [Hin0 _].
    destruct (loads_extends _ _ _ _ E2) as [e2 He2].
    destruct (decide (k = k0)) as [->|Hne].
    + destruct (loads_members_extends _ _ _ _ E3) as [e3 ->].
      exists v0, h, h2, e3. split; [done|]. split; [done|]. split; [done|].
      split; [done|]. intros k' a Hk'. rewrite decide_False by done.
      intros Hget. apply dict_get_Some_elem in Hget.
      destruct (loads_members_values _ _ _ _ E3) as [_ Hv].
      rewrite Forall_forall in Hv. apply Hv in Hget. simpl in Hget. lia.
    + specialize (IH _ _ _ E3). destruct (dict_get k ms) as [j|]; [|done].
      destruct IH as (v & ha & hb & ext & Hget & Hl & -> & Hlen & Hex).
      exists v, ha, hb, ext. split; [done|]. split; [done|]. split; [done|].
      subst h2. rewrite length_app in Hlen. split; [lia|].
      intros k' a Hk'. destruct (decide (k' = k0)) as [->|Hne'].
      * intros [= ->]. simpl in Hin0. rewrite length_app in Hin0. lia.
      * by apply Hex.
Qed.

(** A loaded value reads as its text in every store that keeps its cells. *)
Lemma loaded_value_stable (j : json) (ha hb h1 : list obj) (v : val) :
  canonical j → loads j ha = (hb, v) →
  (∀ b, (length ha ≤ b < length hb)%nat → h1 !! b = hb !! b) →
  ∀ n jx, dumps n h1 v = Some jx → jx = j.
Proof.
  intros Hc Hl Hag n jx Hd.
  destruct (loads_closed _ _ _ _ Hl) as [Hin Hcl].
  destruct (loads_dumps _ Hc _ _ _ Hl) as [N HN].
  rewrite (closed_frame hb h1 _ _ Hcl Hag n v Hin) in Hd.
  pose proof (dumps_mono_le n (n `max` N) hb v jx ltac:(lia) Hd) as H1.
  pose proof (dumps_mono_le N (n `max` N) hb v j ltac:(lia) HN) as H2.
  congruence.
Qed.

Lemma canonical_member (ms : list (string * json)) (k : string) (j : json) :
  Forall (λ kv, canonical kv.2) ms → dict_get k ms = Some j → canonical j.
Proof.
  intros Hall Hk. apply dict_get_elem_of in Hk.
  rewrite Forall_forall in Hall. by apply (Hall (k, j)).
Qed.

Lemma members_stable (ms : list (string * json)) (ha hm : list obj)
    (kvs : list (string * val)) (k : string) :
  loads_members ms ha = (hm, kvs) →
  Forall (λ kv, canonical kv.2) ms →
  match dict_get k kvs with
  | None => dict_get k ms = None
  | Some v =>
      ∃ j, dict_get k ms = Some j
        ∧ ∀ h1,
            (∀ b, (length ha ≤ b < length hm)%nat →
               h1 !! b = hm !! b
               ∨ ∃ k', k' ≠ k ∧ dict_get k' kvs = Some (VRef b)) →
            ∀ n jx, dumps n h1 v = Some jx → jx = j
  end.
Proof.
  intros Hl Hc. pose proof (member_region _ _ _ _ k Hl) as Hreg.
  destruct (dict_get k ms) as [j|] eqn:Hj; [|by rewrite Hreg].
  destruct Hreg as (v & hx & hy & ext & -> & Hlv & -> & Hlen & Hex).
  exists j. split; [done|]. intros h1 Hframe.
  apply (loaded_value_stable j hx hy); [by eapply canonical_member|done|].
  intros b Hb.
  destruct (loads_extends _ _ _ _ Hlv) as [e He].
  destruct (Hframe b) as [Hsame|(k' & Hk' & Hget)].
  - rewrite length_app. lia.
  - rewrite Hsame. apply lookup_app_l. lia.
  - by destruct (Hex k' b Hk' Hget).
Qed.

Lemma dumps_get (n : nat) (h : list obj) (a : nat) (d : list (string * val))
    (j : json) (k : string) :
  dumps (S n) h (VRef a) = Some j → h !! a = Some (ODict d) → NoDup d.*1 →
  json_get k j = dict_get k d ≫= dumps n h.
Proof.
  intros Hd Ha Hnd. simpl in Hd. rewrite Ha in Hd.
  apply fmap_Some in Hd as (ms & Hms & ->). apply dumps_dict in Hms.
  simpl. rewrite dict_of_pairs_id by (by rewrite <- (dict_rel_keys _ _ _ Hms)).
  pose proof (dict_rel_get _ k _ _ Hms) as Hget.
  destruct (dict_get k d) as [x|], (dict_get k ms) as [jx|]; try done.
Qed.

Lemma loads_dict_cell (j : json) (ha hb : list obj) (a : nat)
    (d : list (string * val)) :
  loads j ha = (hb, VRef a) → hb !! a = Some (ODict d) →
  ∃ mi hm kvs, j = JObj mi ∧ loads_members mi ha = (hm, kvs)
    ∧ hb = hm ++ [ODict (dict_of_pairs kvs)] ∧ a = length hm
    ∧ d = dict_of_pairs kvs.
Proof.
  destruct j as [| | | | |items|mi]; try done.
  - rewrite loads_JArr. destruct (loads_items items ha) as [h1 vs].
    unfold py_alloc. intros [= <- <-]. by rewrite list_lookup_middle.
  - rewrite loads_JObj. destruct (loads_members mi ha) as [hm kvs] eqn:E.
    unfold py_alloc. intros [= <- <-]. rewrite list_lookup_middle by done.
    intros [= <-]. by exists mi, hm, kvs.
Qed.

Lemma py_setitem_inv (h h' : list obj) (v x : val) (k : string) :
  py_setitem h v k x = Ok h' →
  ∃ a d, v = VRef a ∧ h !! a = Some (ODict d)
         ∧ h' = <[a := ODict (dict_set k x d)]> h.
Proof.
  unfold py_setitem. destruct v as [| | | | |a]; try done.
  destruct (h !! a) as [[vs|d]|] eqn:Ha; try done.
  intros [= <-]. by exists a, d.
Qed.

Lemma py_getitem_inv (h : list obj) (v x : val) (k : string) :
  py_getitem h v k = Ok x →
  ∃ a d, v = VRef a ∧ h !! a = Some (ODict d) ∧ dict_get k d = Some x.
Proof.
  unfold py_getitem. destruct v as [| | | | |a]; try done.
  destruct (h !! a) as [[vs|d]|] eqn:Ha; try done.
  destruct (dict_get k d) as [y|] eqn:Hk; [|done].
  intros [= <-]. by exists a, d.
Qed.

Lemma py_setdefault_inv (h h' : list obj) (v x : val) (k : string) :
  py_setdefault h v k x = Ok h' →
  ∃ a d, v = VRef a ∧ h !! a = Some (ODict d)
         ∧ h' = match dict_get k d with
                | Some _ => h
                | None => <[a := ODict (dict_set k x d)]> h
                end.
Proof.
  unfold py_setdefault. destruct v as [| | | | |a]; try done.
  destruct (h !! a) as [[vs|d]|] eqn:Ha; try done.
  exists a, d. destruct (dict_get k d); by injection H as <-.
Qed.

Lemma lookup_snoc_dec {A} (l : list A) (b : nat) (o : A) :
  (l ++ [o]) !! b = if decide (b = length l) then Some o else l !! b.
Proof.
  case_decide as E.
  - subst. by apply list_lookup_middle.
  - destruct (decide (b < length l)%nat).
    + by apply lookup_app_l.
    + rewrite !lookup_ge_None_2; [done|lia|]. rewrite length_app. simpl. lia.
Qed.

Lemma py_setitem_step (h h' : list obj) (v x : val) (k : string) :
  py_setitem h v k x = Ok h' →
  ∃ a d, v = VRef a ∧ h !! a = Some (ODict d) ∧ length h' = length h
    ∧ ∀ b, h' !! b = if decide (b = a)
                     then Some (ODict (dict_set k x d)) else h !! b.
Proof.
  intros (a & d & -> & Ha & ->)%py_setitem_inv. exists a, d.
  split; [done|]. split; [done|]. split; [apply length_insert|].
  intros b. case_decide as E.
  - subst. apply list_lookup_insert_eq. by eapply lookup_lt_Some.
  - by apply list_lookup_insert_ne.
Qed.

Lemma py_setdefault_step (h h' : list obj) (v x : val) (k : string) :
  py_setdefault h v k x = Ok h' →
  ∃ a d, v = VRef a ∧ h !! a = Some (ODict d) ∧ length h' = length h
    ∧ ∀ b, h' !! b
           = if decide (b = a)
             then Some (ODict (match dict_get k d with
                               | Some _ => d
                               | None => dict_set k x d
                               end))
             else h !! b.
Proof.
  intros (a & d & -> & Ha & ->)%py_setdefault_inv. exists a, d.
  split; [done|]. split; [done|].
  destruct (dict_get k d).
  - split; [done|]. intros b. case_decide; by subst.
  - split; [apply length_insert|]. intros b. case_decide as E.
    + subst. apply list_lookup_insert_eq. by eapply lookup_lt_Some.
    + by apply list_lookup_insert_ne.
Qed.

(** A new cell, seen from its length and its lookups. *)
Lemma alloc_step (h : list obj) (o : obj) :
  ∃ h', h ++ [o] = h' ∧ length h' = S (length h)
    ∧ ∀ b, h' !! b = if decide (b = length h) then Some o else h !! b.
Proof.
  exists (h ++ [o]). split; [done|]. split.
  - rewrite length_app. simpl. lia.
  - intros b. apply lookup_snoc_dec.
Qed.

(** An object of the template whose cells below its own were left alone:
    the members that the edits did not assign read as in the template. *)
Lemma object_kept (j0 jf : json) (ha hb hj : list obj) (a n : nat)
    (d d_f : list (string * val)) (k : string) :
  canonical j0 → loads j0 ha = (hb, VRef a) →
  hb !! a = Some (ODict d) →
  (∀ b, (length ha ≤ b < a)%nat → hj !! b = hb !! b) →
  hj !! a = Some (ODict d_f) → (NoDup d.*1 → NoDup d_f.*1) →
  dict_get k d_f = dict_get k d →
  dumps (S n) hj (VRef a) = Some jf →
  json_get k jf = json_get k j0.
Proof.
  intros Hcan Hl Ha Hframe Hf Hnd Hk Hd.
  destruct (loads_dict_cell _ _ _ _ _ Hl Ha)
    as (mi & hm & kvs & -> & Hmem & -> & -> & ->).
  inversion_clear Hcan as [| | | | | |? Hndm Hcm].
  destruct (loads_members_values _ _ _ _ Hmem) as [Hkeys _].
  rewrite (dict_of_pairs_id kvs) in * by (by rewrite Hkeys).
  specialize (Hnd ltac:(by rewrite Hkeys)).
  rewrite (dumps_get _ _ _ _ _ k Hd Hf Hnd), Hk. simpl.
  rewrite (dict_of_pairs_id mi) by done.
  pose proof (members_stable _ _ _ _ k Hmem Hcm) as Hst.
  destruct (dict_get k kvs) as [v|] eqn:Hv; [|by rewrite Hst].
  destruct Hst as (j & -> & Hst). simpl.
  destruct (dumps_field n hj (length hm) jf k v Hd) as (jx & _ & Hjx).
  { by exists d_f. }
  { unfold py_field. rewrite Hf. congruence. }
  rewrite Hjx. f_equal. eapply (Hst hj); [|exact Hjx].
  intros b Hb. left. rewrite Hframe by done. apply lookup_app_l. lia.
Qed.

(** X9.  The edits of a scene's document touch nothing else: every member
    of the template other than [name], [images] and [segmentation], every
    member of [images] other than [path] and [shape], and every member of
    [segmentation] other than [mask_area] is in the scene's document as it is
    in the template. *)
Theorem scene_cfg_keeps_members (base_cfg : val) (id_name : string)
    (W H : nat) (h0 h1 : list obj) (cfg : val) (text0 text : json) :
  store_wf h0 →
  py_dumps h0 base_cfg = Ok text0 →
  scene_cfg base_cfg id_name W H h0 = Ok (h1, cfg) →
  py_dumps h1 cfg = Ok text →
  (∀ k, k ≠ "name" → k ≠ "images" → k ≠ "segmentation" →
     json_get k text = json_get k text0)
  ∧ (∀ images0 images k,
       json_get "images" text0 = Some images0 →
       json_get "images" text = Some images →
       k ≠ "path" → k ≠ "shape" →
       json_get k images = json_get k images0)
  ∧ (∀ seg0 seg k,
       json_get "segmentation" text0 = Some seg0 →
       json_get "segmentation" text = Some seg →
       k ≠ "mask_area" →
       json_get k seg = json_get k seg0).
Proof.
  intros Hwf Hd0 Hrun Hd1.
  pose proof (dumps_canonical _ Hwf _ _ _ (py_dumps_inv _ _ _ Hd0)) as Hcan.
  unfold scene_cfg in Hrun. rewrite Hd0 in Hrun.
  cbn [mbind result_bind] in Hrun.
  destruct (loads text0 h0) as [hL cfg0] eqn:Hloads.
  inv_bind Hrun hb Hset1.
  apply py_setitem_inv in Hset1 as (r & d0 & -> & Hr & ->).
  destruct (loads_dict_cell _ _ _ _ _ Hloads Hr)
    as (ms & hM & kvs & -> & Hmem & -> & -> & ->).
  inversion_clear Hcan as [| | | | | |? Hnd Hcms].
  destruct (loads_members_values _ _ _ _ Hmem) as [Hkeys Hvals].
  rewrite (dict_of_pairs_id kvs) in * by (by rewrite Hkeys).
  clear Hr Hloads.
  rewrite insert_app_r_alt, Nat.sub_diag in Hrun by done.
  cbn [insert list_insert] in Hrun.
  set (r := length hM) in *.
  set (d1 := dict_set "name" (VStr id_name) kvs) in *.
  destruct (alloc_step hM (ODict d1)) as (hb & Ehb & Lenb & Lb).
  rewrite Ehb in Hrun. clear Ehb. fold r in Lenb, Lb.
  (* images = cfg["images"] *)
  inv_bind Hrun vi Hget1.
  apply py_getitem_inv in Hget1 as (? & dr & [= <-] & Hr1 & Hi1).
  rewrite Lb, decide_True in Hr1 by done. injection Hr1 as <-.
  unfold d1 in Hi1. rewrite dict_get_set_ne in Hi1 by done.
  (* images["path"] = ... *)
  inv_bind Hrun hc Hset2.
  apply py_setitem_step in Hset2 as (ai & di & -> & Hai & Lenc & Lc).
  assert (Hailt : (ai < r)%nat).
  { apply dict_get_Some_elem in Hi1. rewrite Forall_forall in Hvals.
    apply Hvals in Hi1. simpl in Hi1. unfold r. lia. }
  rewrite Lb, decide_False in Hai by lia.
  (* [W, H] *)
  unfold py_alloc at 1 in Hrun. cbv beta iota in Hrun.
  destruct (alloc_step hc (OList [VInt (Z.of_nat W); VInt (Z.of_nat H)]))
    as (hd & Ehd & Lend & Ld).
  rewrite Ehd in Hrun. clear Ehd.
  inv_bind Hrun vi2 Hget2.
  apply py_getitem_inv in Hget2 as (? & dr2 & [= <-] & Hr2 & Hi2).
  rewrite Ld, Lc, Lb in Hr2. repeat case_decide; try lia.
  injection Hr2 as <-.
  unfold d1 in Hi2. rewrite dict_get_set_ne in Hi2 by done.
  rewrite Hi1 in Hi2. injection Hi2 as <-.
  (* images["shape"] = [W, H] *)
  inv_bind Hrun he Hset3.
  apply py_setitem_step in Hset3 as (? & di2 & [= <-] & Hai2 & Lene & Le).
  rewrite Ld, Lc in Hai2. repeat case_decide; try lia.
  injection Hai2 as <-.
  (* {} *)
  unfold py_alloc at 1 in Hrun. cbv beta iota in Hrun.
  destruct (alloc_step he (ODict [])) as (hf & Ehf & Lenf & Lf).
  rewrite Ehf in Hrun. clear Ehf.
  inv_bind Hrun hg Hsd.
  apply py_setdefault_step in Hsd as (? & dr3 & [= <-] & Hr3 & Leng & Lg).
  rewrite Lf, Le, Ld, Lc, Lb in Hr3. repeat case_decide; try lia.
  injection Hr3 as <-.
  unfold d1 in Lg. rewrite dict_get_set_ne in Lg by done. fold d1 in Lg.
  (* [0, 0, W, H] *)
  unfold py_alloc at 1 in Hrun. cbv beta iota in Hrun.
  destruct (alloc_step hg (OList [VInt 0; VInt 0; VInt (Z.of_nat W);
                                  VInt (Z.of_nat H)]))
    as (hi & Ehi & Leni & Li).
  rewrite Ehi in Hrun. clear Ehi.
  inv_bind Hrun vs Hget3.
  apply py_getitem_inv in Hget3 as (? & dr4 & [= <-] & Hr4 & Hs4).
  rewrite Li, Lg in Hr4. repeat case_decide; try lia.
  injection Hr4 as <-.
  inv_bind Hrun hj Hset4.
  apply py_setitem_step in Hset4 as (sg & ds & -> & Hsg & Lenj & Lj).
  injection Hrun as <- <-.
  rename hj into h1.
  assert (Hlens : length hc = S r ∧ length he = S (S r)
                  ∧ length hg = S (S (S r)) ∧ length h1 = S (S (S (S r))))
    by lia.
  destruct Hlens as (Lc' & Le' & Lg' & L1').
  rewrite Lc', ?Le', ?Lg' in *.
  assert (Hseg : (dict_get "segmentation" kvs = Some (VRef sg) ∧ (sg < r)%nat)
                 ∨ (dict_get "segmentation" kvs = None ∧ sg = S (S r))).
  { destruct (dict_get "segmentation" kvs) as [vseg|] eqn:Hk.
    - left. unfold d1 in Hs4. rewrite dict_get_set_ne in Hs4 by done.
      rewrite Hk in Hs4. injection Hs4 as ->. split; [done|].
      apply dict_get_Some_elem in Hk. rewrite Forall_forall in Hvals.
      apply Hvals in Hk. simpl in Hk. lia.
    - right. split; [done|]. rewrite dict_get_set_eq in Hs4.
      by injection Hs4 as <-. }
  assert (Hndk : NoDup kvs.*1) by (by rewrite Hkeys).
  (* the cells of the final store *)
  assert (Hother : ∀ b, (b < r)%nat → b ≠ ai → b ≠ sg → h1 !! b = hM !! b).
  { intros b Hb Hbi Hbs. rewrite Lj, Li, Lg, Lf, Le, Ld, Lc, Lb.
    repeat case_decide; try lia; done. }
  set (d_r := match dict_get "segmentation" kvs with
              | Some _ => d1
              | None => dict_set "segmentation" (VRef (S (S r))) d1
              end) in *.
  assert (Hroot : h1 !! r = Some (ODict d_r)).
  { rewrite Lj, Li, Lg. repeat case_decide; try lia; try done.
    all: destruct Hseg as [[_ ?]|[_ ?]]; lia. }
  assert (Hndr : NoDup d_r.*1).
  { unfold d_r, d1. destruct (dict_get "segmentation" kvs);
      repeat apply dict_set_NoDup; done. }
  assert (Hdr : ∀ k, k ≠ "name" → k ≠ "segmentation" →
            dict_get k d_r = dict_get k kvs).
  { intros k Hk1 Hk2. unfold d_r, d1.
    destruct (dict_get "segmentation" kvs);
      rewrite ?(dict_get_set_ne "segmentation"), ?(dict_get_set_ne "name")
        by done; done. }
  assert (Hgood : ∀ a d, h1 !! a = Some (ODict d) → NoDup d.*1 →
            good_dict h1 a).
  { intros a d Ha Hd. by exists d. }
  apply py_dumps_inv in Hd1. rewrite L1' in Hd1.
  pose proof (member_region _ _ _ _ "images" Hmem) as Rimg.
  pose proof (member_region _ _ _ _ "segmentation" Hmem) as Rseg.
  split; [|split].
  - intros k Hk1 Hk2 Hk3.
    rewrite (dumps_get _ _ _ _ _ k Hd1 Hroot Hndr), Hdr by done.
    cbn [json_get]. rewrite (dict_of_pairs_id ms) by done.
    pose proof (members_stable _ _ _ _ k Hmem Hcms) as Hst.
    destruct (dict_get k kvs) as [v|] eqn:Hv; [|by rewrite Hst].
    destruct Hst as (j & -> & Hst). cbn [mbind option_bind].
    destruct (dumps_field _ h1 r text k v Hd1) as (jx & _ & Hjx).
    { by eapply Hgood. }
    { unfold py_field. rewrite Hroot, Hdr by done. done. }
    rewrite Hjx. f_equal. eapply (Hst h1); [|exact Hjx].
    intros b Hb. destruct (decide (b = ai)) as [->|Hbi].
    { right. by exists "images". }
    destruct (decide (b = sg)) as [->|Hbs].
    { right. exists "segmentation". split; [done|].
      destruct Hseg as [[? _]|[_ ?]]; [done|lia]. }
    left. apply Hother; [lia|done..].
  - intros images0 images k Hi0 Hit Hk1 Hk2.
    simpl in Hi0. rewrite (dict_of_pairs_id ms) in Hi0 by done.
    rewrite Hi0 in Rimg.
    destruct Rimg as (v & ha & hx & ext & Hv & Hl & HM & Hlen & Hex).
    rewrite Hi1 in Hv. injection Hv as <-.
    destruct (loads_closed _ _ _ _ Hl) as [Hin _]. simpl in Hin.
    assert (Hsga : sg ≠ ai).
    { destruct Hseg as [[Hs _]|[_ ->]]; [|lia]. intros ->.
      by apply (Hex "segmentation" ai). }
    destruct (dumps_field _ h1 r text "images" (VRef ai) Hd1)
      as (jx & Hjx & Hdi).
    { by eapply Hgood. }
    { unfold py_field. rewrite Hroot, Hdr by done. done. }
    rewrite Hit in Hjx. injection Hjx as <-.
    eapply (object_kept images0 images ha hx h1 ai _ di).
    + by eapply canonical_member.
    + done.
    + rewrite HM in Hai. rewrite lookup_app_l in Hai by lia. done.
    + intros b Hb. rewrite Hother, HM; [by rewrite lookup_app_l by lia|lia..|].
      intros ->. destruct Hseg as [[Hs _]|[_ ?]]; [|lia].
      apply (Hex "segmentation" sg); [done..|lia].
    + rewrite Lj, Li, Lg, Lf, Le. repeat case_decide; try lia; done.
    + intros Hnd'. by repeat apply dict_set_NoDup.
    + by rewrite !dict_get_set_ne by done.
    + exact Hdi.
  - intros seg0 seg k Hs0 Hst Hk1.
    simpl in Hs0. rewrite (dict_of_pairs_id ms) in Hs0 by done.
    rewrite Hs0 in Rseg.
    destruct Rseg as (v & ha & hx & ext & Hv & Hl & HM & Hlen & Hex).
    destruct Hseg as [[Hs Hsr]|[Hs _]]; [|congruence].
    rewrite Hs in Hv. injection Hv as <-.
    destruct (loads_closed _ _ _ _ Hl) as [Hin _]. simpl in Hin.
    assert (Hsga : sg ≠ ai).
    { intros ->. by apply (Hex "images" ai). }
    destruct (dumps_field _ h1 r text "segmentation" (VRef sg) Hd1)
      as (jx & Hjx & Hdi).
    { by eapply Hgood. }
    { unfold py_field. rewrite Hroot. unfold d_r, d1. rewrite Hs.
      by rewrite dict_get_set_ne. }
    rewrite Hst in Hjx. injection Hjx as <-.
    assert (HsgM : hM !! sg = Some (ODict ds)).
    { rewrite Li, Lg, Lf, Le, Ld, Lc, Lb in Hsg.
      repeat case_decide; try lia; done. }
    eapply (object_kept seg0 seg ha hx h1 sg _ ds).
    + by eapply canonical_member.
    + done.
    + rewrite HM in HsgM. rewrite lookup_app_l in HsgM by lia. done.
    + intros b Hb. rewrite Hother, HM; [by rewrite lookup_app_l by lia|lia| |lia].
      intros ->. apply (Hex "images" ai); [done..|lia].
    + rewrite Lj. by rewrite decide_True.
    + intros Hnd'. by apply dict_set_NoDup.
    + by rewrite dict_get_set_ne.
    + exact Hdi.
Qed.

Lemma py_setitem_wf (h h' : list obj) (v x : val) (k : string) :
  store_wf h → py_setitem h v k x = Ok h' → store_wf h'.
Proof.
  intros Hwf (a & d & -> & Ha & ->)%py_setitem_inv.
  apply Forall_insert; [done|]. apply dict_set_NoDup.
  by eapply store_wf_lookup.
Qed.

Lemma py_setdefault_wf (h h' : list obj) (v x : val) (k : string) :
  store_wf h → py_setdefault h v k x = Ok h' → store_wf h'.
Proof.
  intros Hwf (a & d & -> & Ha & ->)%py_setdefault_inv.
  destruct (dict_get k d); [done|].
  apply Forall_insert; [done|]. apply dict_set_NoDup.
  by eapply store_wf_lookup.
Qed.

(** The store keeps its dicts well formed through the making of a scene's
    document. *)
Lemma scene_cfg_wf (base_cfg : val) (id_name : string) (W H : nat)
    (h0 h1 : list obj) (cfg : val) :
  store_wf h0 → scene_cfg base_cfg id_name W H h0 = Ok (h1, cfg) →
  store_wf h1.
Proof.
  intros Hwf Hrun. unfold scene_cfg in Hrun.
  inv_bind Hrun text Htext.
  destruct (loads text h0) as [ha cfg0] eqn:Hloads.
  pose proof (loads_wf _ _ _ _ Hwf Hloads) as Hwa.
  inv_bind Hrun hb Hs1. apply (py_setitem_wf _ _ _ _ _ Hwa) in Hs1.
  inv_bind Hrun images Hg1.
  inv_bind Hrun hc Hs2. apply (py_setitem_wf _ _ _ _ _ Hs1) in Hs2.
  unfold py_alloc at 1 in Hrun. cbv beta iota in Hrun.
  inv_bind Hrun images2 Hg2.
  inv_bind Hrun he Hs3.
  apply (py_setitem_wf _ _ _ _ _ (store_wf_snoc _ (OList _) Hs2 I)) in Hs3.
  unfold py_alloc at 1 in Hrun. cbv beta iota in Hrun.
  inv_bind Hrun hg Hsd.
  apply (py_setdefault_wf _ _ _ _ _
           (store_wf_snoc _ (ODict []) Hs3 (NoDup_nil_2))) in Hsd.
  unfold py_alloc at 1 in Hrun. cbv beta iota in Hrun.
  inv_bind Hrun seg Hg3.
  inv_bind Hrun hj Hs4.
  apply (py_setitem_wf _ _ _ _ _ (store_wf_snoc _ (OList _) Hsd I)) in Hs4.
  by injection Hrun as <- <-.
Qed.

Lemma not_a_dict_app (h ext : list obj) (v : val) :
  not_a_dict h v → not_a_dict (h ++ ext) v.
Proof.
  destruct v as [| | | | |a]; try done. unfold not_a_dict, py_list.
  destruct (h !! a) as [o|] eqn:Ha; [|by intros [? ?]].
  by rewrite (lookup_app_l_Some _ _ _ _ Ha).
Qed.

Lemma loaded_shape_app (h ext : list obj) (v : val) (j : json) :
  loaded_shape h v j → loaded_shape (h ++ ext) v j.
Proof.
  destruct j; try apply not_a_dict_app. intros (a & -> & d & Ha & Hnd).
  exists a. split; [done|]. exists d. split; [|done].
  by apply lookup_app_l_Some.
Qed.

Lemma loads_shape (j : json) (h h' : list obj) (v : val) :
  loads j h = (h', v) → loaded_shape h' v j.
Proof.
  destruct j as [| | | | |items|ms]; try (by intros [= <- <-]).
  - rewrite loads_JArr. destruct (loads_items items h) as [h1 vs].
    unfold py_alloc. intros [= <- <-]. simpl. unfold py_list.
    by rewrite list_lookup_middle.
  - rewrite loads_JObj.
    destruct (loads_members ms h) as [hm kvs]. unfold py_alloc.
    intros [= <- <-]. exists (length hm). split; [done|].
    exists (dict_of_pairs kvs). split; [by apply list_lookup_middle|].
    apply dict_of_pairs_NoDup.
Qed.

Lemma loads_members_shape (ms : list (string * json)) (h h' : list obj)
    (kvs : list (string * val)) :
  loads_members ms h = (h', kvs) → dict_rel (loaded_shape h') kvs ms.
Proof.
  revert h h' kvs. induction ms as [|[k j] ms IH]; intros h h' kvs; simpl.
  - intros [= <- <-]. constructor.
  - destruct (loads j h) as [h2 v] eqn:E2.
    destruct (loads_members ms h2) as [h3 kvs'] eqn:E3.
    intros [= <- <-]. constructor; [|by eapply IH]. split; [done|]. simpl.
    destruct (loads_members_extends _ _ _ _ E3) as [e ->].
    apply loaded_shape_app. by eapply loads_shape.
Qed.

Lemma loads_object_shape (ms : list (string * json)) (h h' : list obj)
    (v : val) :
  loads (JObj ms) h = (h', v) →
  ∃ r, v = VRef r ∧ good_dict h' r
       ∧ ∀ k, match py_field h' r k, json_get k (JObj ms) with
              | Some x, Some j => loaded_shape h' x j
              | None, None => True
              | _, _ => False
              end.
Proof.
  rewrite loads_JObj. destruct (loads_members ms h) as [hm kvs] eqn:E.
  unfold py_alloc. intros [= <- <-]. exists (length hm). split; [done|].
  split.
  { exists (dict_of_pairs kvs). split; [by apply list_lookup_middle|].
    apply dict_of_pairs_NoDup. }
  intros k. unfold py_field. rewrite list_lookup_middle by done. simpl.
  pose proof (dict_rel_get _ k _ _
                (dict_rel_of_pairs _ _ _ (loads_members_shape _ _ _ _ E)))
    as Hrel.
  destruct (dict_get k (dict_of_pairs kvs)), (dict_get k (dict_of_pairs ms));
    try done.
  by apply loaded_shape_app.
Qed.

Lemma py_setitem_not_dict (h : list obj) (v x : val) (k : string) :
  not_a_dict h v → py_setitem h v k x = Raise TypeError.
Proof.
  destruct v as [| | | | |a]; try done. unfold not_a_dict, py_list.
  simpl. destruct (h !! a) as [[vs|d]|]; try done; by intros [? ?].
Qed.

Lemma py_getitem_missing (h : list obj) (a : nat) (k : string) :
  good_dict h a → py_field h a k = None →
  py_getitem h (VRef a) k = Raise (KeyError k).
Proof.
  intros (d & Ha & _). unfold py_field, py_getitem. rewrite Ha.
  by intros ->.
Qed.

Lemma not_a_dict_keep (h h' : list obj) (v : val) :
  (∀ b, (b < length h)%nat → py_list h' b = py_list h b) →
  not_a_dict h v → not_a_dict h' v.
Proof.
  intros Hl. destruct v as [| | | | |a]; try done. simpl. intros Hs.
  rewrite Hl; [done|]. destruct Hs as [vs Hvs]. unfold py_list in Hvs.
  destruct (h !! a) eqn:Ha; [|done]. by eapply lookup_lt_Some.
Qed.

(** The outcomes of [scene_cfg], by the shape of the template. *)
Lemma scene_cfg_cases (base_cfg : val) (id_name : string) (W H : nat)
    (h0 : list obj) (text0 : json) :
  py_dumps h0 base_cfg = Ok text0 →
  let run := scene_cfg base_cfg id_name W H h0 in
  if is_object text0 then
    match json_get "images" text0 with
    | None => run = Raise (KeyError "images")
    | Some images =>
        if is_object images then
          match json_get "segmentation" text0 with
          | None => is_ok run
          | Some seg => if is_object seg then is_ok run
                        else run = Raise TypeError
          end
        else run = Raise TypeError
    end
  else run = Raise TypeError.
Proof.
  intros Htext run.
  destruct (is_object text0) eqn:Hobj.
  2:{ subst run. unfold scene_cfg. rewrite Htext. cbn [mbind result_bind].
      destruct text0 as [| | | | |items|ms]; try done.
      rewrite loads_JArr. destruct (loads_items items h0) as [h1 vs].
      unfold py_alloc. unfold py_setitem.
      by rewrite list_lookup_middle. }
  destruct text0 as [| | | | | |ms]; try done.
  destruct (json_get "images" (JObj ms)) as [images|] eqn:Himg.
  2:{ subst run. unfold scene_cfg. rewrite Htext. cbn [mbind result_bind].
      destruct (loads (JObj ms) h0) as [ha cfg] eqn:Hloads.
      destruct (loads_object_shape _ _ _ _ Hloads) as (r & -> & Hgr & Hf).
      pose proof (Hf "images") as Hfi. rewrite Himg in Hfi.
      destruct (py_field ha r "images") eqn:Hai; [done|].
      destruct (py_setitem_good ha r "name" (VStr id_name) Hgr)
        as (hb & -> & _ & _ & Hkb & _ & Hgb & _).
      cbn [mbind result_bind].
      rewrite py_getitem_missing; [done|by apply Hgb|].
      by rewrite Hkb. }
  destruct (is_object images) eqn:Hio.
  2:{ subst run. unfold scene_cfg. rewrite Htext. cbn [mbind result_bind].
      destruct (loads (JObj ms) h0) as [ha cfg] eqn:Hloads.
      destruct (loads_object_shape _ _ _ _ Hloads) as (r & -> & Hgr & Hf).
      pose proof (Hf "images") as Hfi. rewrite Himg in Hfi.
      destruct (py_field ha r "images") as [vi|] eqn:Hai; [|done].
      assert (Hnd : not_a_dict ha vi) by (by destruct images).
      destruct (py_setitem_good ha r "name" (VStr id_name) Hgr)
        as (hb & -> & Hlb & _ & Hkb & Hlistb & Hgb & _).
      cbn [mbind result_bind].
      rewrite (py_getitem_field hb r "images" vi) by (by rewrite Hkb).
      cbn [mbind result_bind].
      rewrite py_setitem_not_dict; [done|].
      eapply not_a_dict_keep; [|exact Hnd]. intros b _. apply Hlistb. }
  destruct images as [| | | | | |mi]; try done.
  destruct (json_get "segmentation" (JObj ms)) as [seg|] eqn:Hseg.
  2:{ destruct (scene_cfg_cells base_cfg id_name W H h0 (JObj ms) mi Htext
                  Himg ltac:(by left)) as (h1 & r & ? & ? & ? & ? & Hrun & _).
      subst run. by rewrite Hrun. }
  destruct (is_object seg) eqn:Hso.
  { destruct seg as [| | | | | |msg]; try done.
    destruct (scene_cfg_cells base_cfg id_name W H h0 (JObj ms) mi Htext
                Himg ltac:(right; by eexists))
      as (h1 & r & ? & ? & ? & ? & Hrun & _).
    subst run. by rewrite Hrun. }
  subst run. unfold scene_cfg. rewrite Htext. cbn [mbind result_bind].
  destruct (loads (JObj ms) h0) as [ha cfg] eqn:Hloads.
  destruct (loads_object_shape _ _ _ _ Hloads) as (r & -> & Hgr & Hf).
  pose proof (Hf "images") as Hfi. rewrite Himg in Hfi.
  destruct (py_field ha r "images") as [vi|] eqn:Hai; [|done].
  destruct Hfi as (ai & -> & Hgai).
  pose proof (Hf "segmentation") as Hfs. rewrite Hseg in Hfs.
  destruct (py_field ha r "segmentation") as [vs|] eqn:Has; [|done].
  assert (Hnd : not_a_dict ha vs) by (by destruct seg).
  (* cfg["name"] = id_name *)
  destruct (py_setitem_good ha r "name" (VStr id_name) Hgr)
    as (hb & -> & Hlb & _ & Hkb & Hlistb & Hgb & _).
  cbn [mbind result_bind].
  rewrite (py_getitem_field hb r "images" (VRef ai)) by (by rewrite Hkb).
  cbn [mbind result_bind].
  (* cfg["images"]["path"] = ... *)
  destruct (py_setitem_good hb ai "path" (VStr "images/{id}/rgb.npy")
              (Hgb _ Hgai))
    as (hc & -> & Hlc & _ & Hkc & Hlistc & Hgc & _).
  cbn [mbind result_bind]. unfold py_alloc at 1.
  set (shape := OList [VInt (Z.of_nat W); VInt (Z.of_nat H)]).
  destruct (py_alloc_good hc shape) as (_ & Hkd & Hlistd & Hgd & _).
  set (hd := hc ++ [shape]) in *.
  assert (Hdi : py_field hd r "images" = Some (VRef ai)).
  { rewrite Hkd by (apply good_dict_lt; auto). by rewrite Hkc, Hkb. }
  rewrite (py_getitem_field _ _ _ _ Hdi). cbn [mbind result_bind].
  destruct (py_setitem_good hd ai "shape" (VRef (length hc))
              (Hgd _ (Hgc _ (Hgb _ Hgai))))
    as (he & -> & Hle & _ & Hke & Hliste & Hge & _).
  cbn [mbind result_bind]. unfold py_alloc at 1.
  (* cfg.setdefault("segmentation", {}) leaves the member as it is *)
  destruct (py_alloc_good he (ODict [])) as (_ & Hkf & Hlistf & Hgf & _).
  set (hf := he ++ [ODict []]) in *.
  assert (Hgrf : good_dict hf r) by auto 10.
  assert (Hfs' : py_field hf r "segmentation" = Some vs).
  { rewrite Hkf by (apply good_dict_lt; auto 10).
    rewrite Hke, Hkd by (done || apply good_dict_lt; auto 10).
    by rewrite Hkc, Hkb. }
  destruct (py_setdefault_good hf r "segmentation" (VRef (length he)) Hgrf)
    as (hg & -> & Hlg & Hfg & Hkg & Hlistg & Hgg & _).
  cbn [mbind result_bind]. unfold py_alloc at 1.
  rewrite Hfs' in Hfg. simpl in Hfg.
  set (area := OList [VInt 0; VInt 0; VInt (Z.of_nat W); VInt (Z.of_nat H)]).
  destruct (py_alloc_good hg area) as (_ & Hki & Hlisti & Hgi & _).
  set (hi := hg ++ [area]) in *.
  rewrite (py_getitem_field hi r "segmentation" vs)
    by (rewrite Hki by (apply good_dict_lt; auto); done).
  cbn [mbind result_bind].
  rewrite py_setitem_not_dict; [done|].
  assert (Hlens : (length hc < length hd)%nat ∧ length hf = S (length he)).
  { unfold hd, hf. rewrite !length_app. simpl. lia. }
  eapply not_a_dict_keep; [|exact Hnd]. intros b Hb.
  rewrite Hlisti by lia. rewrite Hlistg. rewrite Hlistf by lia.
  rewrite Hliste. rewrite Hlistd by lia. by rewrite Hlistc, Hlistb.
Qed.

(** X10.  What [scene_cfg] does with any template: when the template is
    not an object, or its [images] member is not one, or its [segmentation]
    member is there and is not one, the assignment into it raises TypeError;
    when the template has no [images] member the lookup raises
    KeyError('images'); in every other case the document is made. *)
Theorem scene_cfg_outcome (base_cfg : val) (id_name : string) (W H : nat)
    (h0 : list obj) (text0 : json) :
  py_dumps h0 base_cfg = Ok text0 →
  let run := scene_cfg base_cfg id_name W H h0 in
  if is_object text0 then
    match json_get "images" text0 with
    | None => run = Raise (KeyError "images")
    | Some images =>
        if is_object images then
          match json_get "segmentation" text0 with
          | None => is_ok run
          | Some seg => if is_object seg then is_ok run
                        else run = Raise TypeError
          end
        else run = Raise TypeError
    end
  else run = Raise TypeError.
Proof. apply scene_cfg_cases. Qed.

(** The document of a scene carries its name. *)
Lemma scene_named (base_cfg : val) (id_name : string) (W H : nat)
    (h0 h1 : list obj) (cfg : val) (text : json) :
  scene_cfg base_cfg id_name W H h0 = Ok (h1, cfg) →
  py_dumps h1 cfg = Ok text →
  json_get "name" text = Some (JStr id_name).
Proof.
  intros Hrun Hd.
  assert (∃ text0, py_dumps h0 base_cfg = Ok text0) as [text0 Htext].
  { unfold scene_cfg in Hrun. destruct (py_dumps h0 base_cfg); [|done].
    by eexists. }
  pose proof (scene_cfg_cases base_cfg id_name W H h0 text0 Htext) as Hout.
  cbv zeta in Hout. rewrite Hrun in Hout.
  destruct (is_object text0); [|done].
  destruct (json_get "images" text0) as [images|] eqn:Himg; [|done].
  destruct images as [| | | | | |mi]; try done. simpl in Hout.
  assert (Hseg : json_get "segmentation" text0 = None
                 ∨ ∃ msg, json_get "segmentation" text0 = Some (JObj msg)).
  { destruct (json_get "segmentation" text0) as [seg|]; [|by left].
    destruct seg; try done. right. by eexists. }
  destruct (scene_cfg_cells base_cfg id_name W H h0 text0 mi Htext Himg Hseg)
    as (h1' & r & ai & sg & s & m & Hrun' & Hgr & _ & _ & Hname & _).
  rewrite Hrun in Hrun'. injection Hrun' as <- ->.
  apply py_dumps_inv in Hd.
  destruct (dumps_field _ _ _ _ _ _ Hd Hgr Hname) as (jn & Hjn & Hdn).
  rewrite Hjn. f_equal.
  destruct (length h1) as [|n]; [done|]. simpl in Hdn. by injection Hdn as <-.
Qed.

(** ** The loop over the scenes *)

Section more_scenes.
Context `{Warp}.

Lemma process_scene_frame (base_json_path images_root : list string)
    (base_cfg : val) (classes : list string) (class_colors : list colour)
    (id_name : string) (st st' : world * list string) (q : list string) :
  process_scene base_json_path images_root base_cfg classes class_colors
    id_name st = Ok st' →
  q ∉ scene_outputs base_json_path images_root id_name →
  files st'.1 !! q = files st.1 !! q.
Proof.
  intros Hrun Hq.
  destruct (path_exists (files st.1) (scene_tif images_root id_name)) eqn:Hex;
    [|rewrite process_scene_skip in Hrun by done; by injection Hrun as <-].
  apply process_scene_inv in Hrun; [|done].
  destruct Hrun as (t & fs1 & latlon & h & cfg & text & fs3 & Hopen
                    & Hnpy & Hll & Hcfg & Htext & Hbuild & ->).
  unfold scene_outputs in Hq. rewrite !not_elem_of_cons in Hq.
  destruct Hq as (Q1 & Q2 & Q3 & Q4 & Q5 & Q6 & Q7 & _).
  simpl. rewrite (build_caches_frame3 _ _ _ _ _ _ _ _ Hbuild) by done.
  unfold write_file at 1. rewrite lookup_insert_ne by done.
  rewrite remove_source_frame by done.
  rewrite <- (proj1 (write_rgb_frame _ _ _ _ Hnpy) q) by done.
  destruct latlon as [[lat lon]|]; simpl; [|done].
  unfold write_file. by rewrite lookup_insert_ne.
Qed.

Lemma scene_outputs_names (base_json_path images_root : list string)
    (id_name : string) (q : list string) :
  q ∈ scene_outputs base_json_path images_root id_name →
  path_name q ∈ ["rgb.npy"; "metadata.json"; id_name +:+ ".json";
                 "1_final.npy"; "1_user.npy"; "mask.png"].
Proof.
  unfold scene_outputs, project_npy, project_metadata, project_json.
  rewrite !elem_of_cons.
  intros [->|[->|[->|[->|[->|[->|[->|Hq]]]]]]]; rewrite ?path_name_join;
    [set_solver..|by apply elem_of_nil in Hq].
Qed.

Lemma process_scene_keeps_rasters (base_json_path images_root : list string)
    (base_cfg : val) (classes : list string) (class_colors : list colour)
    (id_name : string) (st st' : world * list string) (q : list string) :
  process_scene base_json_path images_root base_cfg classes class_colors
    id_name st = Ok st' →
  path_name q = "rgb.tif" ∨ path_name q = MASK_TIF_NAME →
  files st'.1 !! q = files st.1 !! q.
Proof.
  intros Hrun Hname. apply (process_scene_frame _ _ _ _ _ _ _ _ _ Hrun).
  intros Hq. apply scene_outputs_names in Hq.
  rewrite !elem_of_cons in Hq.
  assert (Hjson : path_name q ≠ id_name +:+ ".json").
  { intros E. destruct Hname as [Hn|Hn]; rewrite Hn in E.
    - apply (string_app_inj_2 "rg" id_name "b.tif" ".json") in E as [_ E];
        done.
    - apply (string_app_inj_2 "f_1dpwse" id_name "g.tif" ".json") in E
        as [_ E]; done. }
  destruct Hname as [Hn|Hn]; rewrite Hn in Hq, Hjson;
    destruct Hq as [Hq|[Hq|[Hq|[Hq|[Hq|[Hq|Hq]]]]]]; try done;
    by apply elem_of_nil in Hq.
Qed.

(** X11.  Processing a scene never writes a raster: every file named
    [rgb.tif] or [f_1dpwseg.tif], of this scene or of any other, is after
    the scene as it was before. *)
Theorem rasters_are_never_written (base_json_path images_root : list string)
    (base_cfg : val) (classes : list string) (class_colors : list colour)
    (id_name : string) (st st' : world * list string) (q : list string) :
  process_scene base_json_path images_root base_cfg classes class_colors
    id_name st = Ok st' →
  path_name q = "rgb.tif" ∨ path_name q = MASK_TIF_NAME →
  files st'.1 !! q = files st.1 !! q.
Proof. apply process_scene_keeps_rasters. Qed.

(** What a processed scene leaves. *)
Lemma processed_scene_state (base_json_path images_root : list string)
    (base_cfg : val) (classes : list string) (class_colors : list colour)
    (id_name : string) (st st' : world * list string) (t : tiff) :
  process_scene base_json_path images_root base_cfg classes class_colors
    id_name st = Ok st' →
  files st.1 !! scene_tif images_root id_name = Some (CTiff t) →
  files st'.1 !! (scene_src_dir images_root id_name </> "rgb.npy") = None
  ∧ files st'.1 !! scene_tif images_root id_name = Some (CTiff t)
  ∧ (project_images_dir base_json_path id_name
     ≠ scene_src_dir images_root id_name →
     files st'.1 !! project_npy base_json_path id_name
     = Some (CNpyFloat32
               (astype_float32 (moveaxis_first_to_last (read_all t)))))
  ∧ st'.2 = st.2 ++ [launch_line base_json_path id_name].
Proof.
  intros Hrun Hfile.
  pose proof (process_scene_keeps_rasters _ _ _ _ _ _ _ _
                (scene_tif images_root id_name) Hrun
                (or_introl (path_name_join _ _))) as Htif.
  apply process_scene_inv in Hrun; [|by eapply path_exists_file].
  destruct Hrun as (t' & fs1 & latlon & h & cfg & text & fs3 & Hopen
                    & Hnpy & Hll & Hcfg & Htext & Hbuild & ->).
  cbn [fst snd files] in *.
  assert (Hjson : ∀ p, project_json base_json_path id_name ≠ p </> "rgb.npy").
  { intros p E. apply joinpath_inj in E as [_ E].
    by apply (string_app_inj_2 id_name "rg" ".json" "b.npy") in E as [_ E]. }
  split; [|split; [by rewrite Htif|split; [|done]]].
  - rewrite (build_caches_frame3 _ _ _ _ _ _ _ _ Hbuild)
      by (by apply joinpath_ne_name).
    unfold write_file at 1. rewrite lookup_insert_ne by apply Hjson.
    unfold remove_source_rgb_npy, unlink.
    set (fs2 := write_metadata _ _ _ _).
    destruct (path_exists fs2 _) eqn:Hex.
    + destruct (fs2 !! _) as [c|] eqn:Hc; [apply lookup_delete_eq|done].
    + by apply path_exists_false.
  - intros Hdir.
    rewrite (build_caches_frame3 _ _ _ _ _ _ _ _ Hbuild)
      by (by apply joinpath_ne_name).
    unfold write_file at 1. rewrite lookup_insert_ne by apply Hjson.
    rewrite remove_source_frame
      by (unfold project_npy; intros E; by apply joinpath_inj in E as [? _]).
    destruct (write_rgb_result _ _ _ _ _ Hnpy Hfile) as [Harr _].
    destruct latlon as [[lat lon]|]; simpl; [|done].
    unfold write_file. rewrite lookup_insert_ne; [done|].
    by apply joinpath_ne_name.
Qed.

(** X12.  After a scene with an [rgb.tif] is processed: no [rgb.npy] is
    left in its source directory, the [rgb.tif] is still there, the project
    holds the array made from it (the project's image directory not being the
    source directory itself), and the launch line of the scene has been
    appended. *)
Theorem processed_scene_files (base_json_path images_root : list string)
    (base_cfg : val) (classes : list string) (class_colors : list colour)
    (id_name : string) (st st' : world * list string) (t : tiff) :
  process_scene base_json_path images_root base_cfg classes class_colors
    id_name st = Ok st' →
  files st.1 !! scene_tif images_root id_name = Some (CTiff t) →
  files st'.1 !! (scene_src_dir images_root id_name </> "rgb.npy") = None
  ∧ files st'.1 !! scene_tif images_root id_name = Some (CTiff t)
  ∧ (project_images_dir base_json_path id_name
     ≠ scene_src_dir images_root id_name →
     files st'.1 !! project_npy base_json_path id_name
     = Some (CNpyFloat32
               (astype_float32 (moveaxis_first_to_last (read_all t)))))
  ∧ st'.2 = st.2 ++ [launch_line base_json_path id_name].
Proof. apply processed_scene_state. Qed.

(** X13.  Processing a scene leaves the project directories of the
    other scenes alone: a file below the project directory of another
    identifier is unchanged, unless it is the [rgb.npy] of the processed
    scene's source directory, which is removed. *)
Theorem other_projects_untouched (base_json_path images_root : list string)
    (base_cfg : val) (classes : list string) (class_colors : list colour)
    (id_name other : string) (st st' : world * list string)
    (q : list string) :
  process_scene base_json_path images_root base_cfg classes class_colors
    id_name st = Ok st' →
  other ≠ id_name →
  project_dir base_json_path other `prefix_of` q →
  q ≠ scene_src_dir images_root id_name </> "rgb.npy" →
  files st'.1 !! q = files st.1 !! q.
Proof.
  intros Hrun Hne Hpre Hsrc.
  apply (process_scene_frame _ _ _ _ _ _ _ _ _ Hrun).
  intros Hq.
  assert (Hin : project_dir base_json_path id_name `prefix_of` q).
  { unfold scene_outputs, project_npy, project_metadata, project_json,
      project_images_dir, segmentation_dir in Hq.
    rewrite !elem_of_cons in Hq.
    destruct Hq as [->|[->|[->|[->|[->|[->|[->|Hq]]]]]]];
      try done; try (by apply elem_of_nil in Hq);
      unfold joinpath; rewrite <- ?app_assoc; by eexists. }
  assert (E : project_dir base_json_path other
              = project_dir base_json_path id_name).
  { apply (prefix_same_length _ _ q); [done..|].
    unfold project_dir, joinpath. by rewrite !length_app. }
  apply joinpath_inj in E as [_ E]. done.
Qed.
Lemma process_ids_lines (base_json_path images_root : list string)
    (base_cfg : val) (classes : list string) (class_colors : list colour)
    (ids : list string) :
  ∀ st st',
  process_ids base_json_path images_root base_cfg classes class_colors ids st
  = Ok st' →
  st'.2 = st.2 ++ (launch_line base_json_path
                     <$> filter (λ id_name,
                                   is_Some (files st.1
                                              !! scene_tif images_root id_name))
                           ids)
  ∧ ∀ q, path_name q = "rgb.tif" → files st'.1 !! q = files st.1 !! q.
Proof.
  induction ids as [|i ids IH]; intros st st' Hrun; simpl in Hrun.
  - injection Hrun as <-. simpl. by rewrite app_nil_r.
  - inv_bind Hrun st1 Hstep.
    pose proof (λ q Hq, process_scene_keeps_rasters _ _ _ _ _ _ _ _ q Hstep
                          (or_introl Hq)) as Hkeep.
    destruct (IH _ _ Hrun) as [Hlines Hfiles].
    split; [|intros q Hq; rewrite Hfiles, Hkeep; done].
    rewrite Hlines.
    rewrite (list_filter_iff
               (λ id_name, is_Some (files st1.1 !! scene_tif images_root id_name))
               (λ id_name, is_Some (files st.1 !! scene_tif images_root id_name)))
      by (intros x; rewrite Hkeep; [done|apply path_name_join]).
    destruct (path_exists (files st.1) (scene_tif images_root i)) eqn:Hex.
    + apply process_scene_inv in Hstep; [|done].
      destruct Hstep as (t & fs1 & latlon & h & cfg & text & fs3 & Hopen
                         & _ & _ & _ & _ & _ & ->).
      unfold rio_open in Hopen.
      destruct (files st.1 !! scene_tif images_root i) as [c|] eqn:Hc;
        [|done].
      rewrite filter_cons_True by (rewrite Hc; by eexists).
      simpl. by rewrite <- app_assoc.
    + rewrite process_scene_skip in Hstep by done. injection Hstep as <-.
      rewrite filter_cons_False; [done|].
      rewrite (path_exists_false _ _ Hex). by intros [? ?].
Qed.

(** X14.  When [create_projects_per_id] returns: with no scene directory
    it has changed no file, and no launcher is written; otherwise
    [run_all_projects.sh] holds the header and one [iris label] line for
    every scene directory that has an [rgb.tif], in the order of
    [list_ids], and no line for the others. *)
Theorem launcher_lists_scenes (base_json_path images_root : list string)
    (w w' : world) :
  create_projects_per_id base_json_path images_root w = Ok w' →
  let ids := list_ids (files w) images_root in
  (ids = [] → files w' = files w)
  ∧ (ids ≠ [] →
     files w' !! (path_parent base_json_path </> "run_all_projects.sh")
     = Some (CText (run_script
                      (launch_line base_json_path
                         <$> filter (λ id_name,
                                       is_Some (files w
                                                  !! scene_tif images_root
                                                       id_name))
                               ids)))).
Proof.
  intros Hrun. cbv zeta. unfold create_projects_per_id in Hrun.
  destruct (path_exists (files w) base_json_path); [|done].
  destruct (path_exists (files w) images_root); [|done].
  cbn [negb] in Hrun. inv_bind Hrun text Htext.
  destruct (loads text (objects w)) as [h base_cfg]. cbv beta iota in Hrun.
  inv_bind Hrun cs0 Hcs0. inv_bind Hrun cs Hcs.
  inv_bind Hrun classes Hclasses. inv_bind Hrun class_colors Hcolours.
  cbn [files] in Hrun.
  destruct (list_ids (files w) images_root) as [|i ids'] eqn:Hids.
  - injection Hrun as <-. split; [done|]. by intros [].
  - split; [done|]. intros _.
    inv_bind Hrun r Hloop. destruct r as [w1 run_lines].
    injection Hrun as <-. cbn [files].
    apply process_ids_lines in Hloop as [Hlines _]. simpl in Hlines.
    rewrite Hlines. unfold write_file. apply lookup_insert_eq.
Qed.
(** X15.  [create_projects_per_id] returns only when its required inputs
    are there: the images root exists, and the template file holds a JSON
    object with a [classes] member. *)
Theorem needs_template_and_images (base_json_path images_root : list string)
    (w w' : world) :
  create_projects_per_id base_json_path images_root w = Ok w' →
  path_exists (files w) images_root = true
  ∧ ∃ ms, files w !! base_json_path = Some (CJson (JObj ms))
          ∧ is_Some (json_get "classes" (JObj ms)).
Proof.
  intros Hrun. unfold create_projects_per_id in Hrun.
  destruct (path_exists (files w) base_json_path); [|done].
  destruct (path_exists (files w) images_root); [|done].
  split; [done|]. cbn [negb] in Hrun. inv_bind Hrun text Htext.
  unfold read_json in Htext.
  destruct (files w !! base_json_path) as [[| | | | |j|]|] eqn:Hfile;
    try done; [|by destruct (path_exists _ _)].
  injection Htext as ->.
  destruct (loads text (objects w)) as [h base_cfg] eqn:Hloads.
  cbv beta iota in Hrun. inv_bind Hrun cs0 Hcs0.
  apply py_getitem_inv in Hcs0 as (r & d & -> & Hr & Hk).
  destruct (loads_dict_cell _ _ _ _ _ Hloads Hr)
    as (ms & hm & kvs & -> & Hmem & -> & -> & ->).
  exists ms. split; [done|].
  destruct (loads_object _ _ _ _ Hloads) as (r' & [= <-] & _ & Hf).
  specialize (Hf "classes"). unfold py_field in Hf. rewrite Hr, Hk in Hf.
  destruct (json_get "classes" (JObj ms)); [by eexists|done].
Qed.

Lemma process_ids_frame (base_json_path images_root : list string)
    (base_cfg : val) (classes : list string) (class_colors : list colour)
    (q : list string) (ids : list string) :
  (∀ id_name, q ∉ scene_outputs base_json_path images_root id_name) →
  ∀ st st',
  process_ids base_json_path images_root base_cfg classes class_colors ids st
  = Ok st' →
  files st'.1 !! q = files st.1 !! q.
Proof.
  intros Hq. induction ids as [|i ids IH]; intros st st' Hrun;
    simpl in Hrun; [by injection Hrun as <-|].
  inv_bind Hrun st1 Hstep. rewrite (IH _ _ Hrun).
  by apply (process_scene_frame _ _ _ _ _ _ _ _ _ Hstep).
Qed.

(** X16.  A run of [main] that returns has not changed its inputs: the
    template [base.json] and every file named [rgb.tif] or [f_1dpwseg.tif]
    are as before. *)
Theorem main_keeps_inputs (w w' : world) (q : list string) :
  main w = Ok w' →
  q = [BASE_JSON] ∨ path_name q = "rgb.tif" ∨ path_name q = MASK_TIF_NAME →
  files w' !! q = files w !! q.
Proof.
  unfold main. intros Hrun Hq.
  assert (Hout : ∀ id_name, q ∉ scene_outputs [BASE_JSON] IMAGES_ROOT id_name).
  { intros id_name Hin. destruct Hq as [->|Hq].
    - unfold scene_outputs in Hin. rewrite !elem_of_cons in Hin.
      destruct Hin as [Hin|[Hin|[Hin|[Hin|[Hin|[Hin|[Hin|Hin]]]]]]];
        try discriminate Hin. by apply elem_of_nil in Hin.
    - apply scene_outputs_names in Hin. rewrite !elem_of_cons in Hin.
      assert (Hjson : path_name q ≠ id_name +:+ ".json").
      { intros E. destruct Hq as [Hn|Hn]; rewrite Hn in E.
        - by apply (string_app_inj_2 "rg" id_name "b.tif" ".json") in E
            as [_ E].
        - by apply (string_app_inj_2 "f_1dpwse" id_name "g.tif" ".json")
            in E as [_ E]. }
      destruct Hq as [Hn|Hn]; rewrite Hn in Hin, Hjson;
        destruct Hin as [Hin|[Hin|[Hin|[Hin|[Hin|[Hin|Hin]]]]]]; try done;
        by apply elem_of_nil in Hin. }
  unfold create_projects_per_id in Hrun.
  destruct (path_exists (files w) [BASE_JSON]); [|done].
  destruct (path_exists (files w) IMAGES_ROOT); [|done].
  cbn [negb] in Hrun. inv_bind Hrun text Htext.
  destruct (loads text (objects w)) as [h base_cfg].
  cbv beta iota in Hrun.
  inv_bind Hrun cs0 Hcs0. inv_bind Hrun cs Hcs.
  inv_bind Hrun classes Hclasses. inv_bind Hrun class_colors Hcolours.
  cbn [files] in Hrun.
  destruct (list_ids (files w) IMAGES_ROOT) as [|i ids'].
  - by injection Hrun as <-.
  - inv_bind Hrun r Hloop. destruct r as [w1 run_lines].
    injection Hrun as <-. cbn [files].
    apply (process_ids_frame _ _ _ _ _ q) in Hloop; [|done].
    simpl in Hloop. unfold write_file. rewrite lookup_insert_ne; [done|].
    intros <-. destruct Hq as [Hq|[Hq|Hq]]; done.
Qed.
Lemma process_ids_member_frame (base_json_path images_root : list string)
    (base_cfg : val) (classes : list string) (class_colors : list colour)
    (q : list string) (ids : list string) :
  (∀ id_name, id_name ∈ ids →
     q ∉ scene_outputs base_json_path images_root id_name) →
  ∀ st st',
  process_ids base_json_path images_root base_cfg classes class_colors ids st
  = Ok st' →
  files st'.1 !! q = files st.1 !! q.
Proof.
  induction ids as [|i ids IH]; intros Hq st st' Hrun;
    simpl in Hrun; [by injection Hrun as <-|].
  inv_bind Hrun st1 Hstep. rewrite (IH ltac:(set_solver) _ _ Hrun).
  apply (process_scene_frame _ _ _ _ _ _ _ _ _ Hstep). apply Hq. set_solver.
Qed.

(** In the layout of [main], the three files that tell a processed scene
    are not among the files that another scene writes or removes. *)
Lemma main_outputs_apart (id_name other : string) (q : list string) :
  id_name ≠ other →
  q ∈ [project_npy [BASE_JSON] id_name; project_json [BASE_JSON] id_name;
       scene_src_dir IMAGES_ROOT id_name </> "rgb.npy"] →
  q ∉ scene_outputs [BASE_JSON] IMAGES_ROOT other.
Proof.
  intros Hne Hq Hout. unfold scene_outputs in Hout. cbv zeta in Hout.
  rewrite !elem_of_cons in Hq. repeat rewrite elem_of_cons in Hout.
  destruct Hq as [->|[->|[->|Hq]]]; [| | |by apply elem_of_nil in Hq];
    destruct Hout as [E|[E|[E|[E|[E|[E|[E|E]]]]]]];
    try (by apply elem_of_nil in E); vm_compute in E; congruence.
Qed.

Lemma process_ids_outputs (base_cfg : val) (classes : list string)
    (class_colors : list colour) (ids : list string) :
  NoDup ids →
  ∀ st st',
  process_ids [BASE_JSON] IMAGES_ROOT base_cfg classes class_colors ids st
  = Ok st' →
  ∀ id_name t, id_name ∈ ids →
    files st.1 !! scene_tif IMAGES_ROOT id_name = Some (CTiff t) →
    files st'.1 !! project_npy [BASE_JSON] id_name
    = Some (CNpyFloat32 (astype_float32 (moveaxis_first_to_last (read_all t))))
    ∧ (∃ text, files st'.1 !! project_json [BASE_JSON] id_name
               = Some (CJson text)
               ∧ json_get "name" text = Some (JStr id_name))
    ∧ files st'.1 !! (scene_src_dir IMAGES_ROOT id_name </> "rgb.npy") = None.
Proof.
  induction ids as [|i ids IH]; intros Hnd st st' Hrun id_name t Hin Htif.
  { by apply elem_of_nil in Hin. }
  apply NoDup_cons in Hnd as [Hi Hnd]. simpl in Hrun.
  inv_bind Hrun st1 Hstep.
  destruct (decide (id_name = i)) as [->|Hne].
  - assert (Hkeep : ∀ q,
              q ∈ [project_npy [BASE_JSON] i; project_json [BASE_JSON] i;
                   scene_src_dir IMAGES_ROOT i </> "rgb.npy"] →
              files st'.1 !! q = files st1.1 !! q).
    { intros q Hq.
      eapply (process_ids_member_frame _ _ _ _ _ q ids); [|exact Hrun].
      intros other Ho. apply (main_outputs_apart i); [|done].
      intros ->. done. }
    rewrite !Hkeep by set_solver.
    destruct (processed_scene_state _ _ _ _ _ _ _ _ _ Hstep Htif)
      as (Hsrc & _ & Hnpy & _).
    split; [by apply Hnpy|]. split; [|done].
    apply process_scene_inv in Hstep; [|by eapply path_exists_file].
    destruct Hstep as (t' & fs1 & latlon & h & cfg & text & fs3 & _
                       & _ & _ & Hcfg & Htext & Hbuild & ->).
    exists text. split; [|by eapply scene_named]. simpl.
    rewrite (build_caches_frame _ _ _ _ _ _ _ _ Hbuild)
      by apply project_json_not_cache.
    apply lookup_insert_eq.
  - apply (IH Hnd st1 st' Hrun); [set_solver|].
    rewrite (process_scene_keeps_rasters _ _ _ _ _ _ _ _ _ Hstep); [done|].
    left. apply path_name_join.
Qed.

(** X17.  A run of [main] that returns leaves, for every scene directory
    with an [rgb.tif]: the array made from that raster at
    [spot/<ID>/images/<ID>/rgb.npy], a configuration [spot/<ID>/<ID>.json]
    whose [name] is the identifier, and no [rgb.npy] in the source directory;
    the scenes processed later and the launcher do not disturb them. *)
Theorem main_writes_each_scene (w w' : world) (id_name : string) (t : tiff) :
  main w = Ok w' →
  files w !! scene_tif IMAGES_ROOT id_name = Some (CTiff t) →
  files w' !! ["spot"; id_name; "images"; id_name; "rgb.npy"]
  = Some (CNpyFloat32 (astype_float32 (moveaxis_first_to_last (read_all t))))
  ∧ (∃ text, files w' !! ["spot"; id_name; id_name +:+ ".json"]
             = Some (CJson text)
             ∧ json_get "name" text = Some (JStr id_name))
  ∧ files w' !! ["spot"; "images"; id_name; "rgb.npy"] = None.
Proof.
  unfold main. intros Hrun Htif.
  assert (Hin : id_name ∈ list_ids (files w) IMAGES_ROOT).
  { apply list_ids_elem.
    exists (scene_tif IMAGES_ROOT id_name). split; [by eexists|].
    split; [by exists ["rgb.tif"]|]. discriminate. }
  unfold create_projects_per_id in Hrun.
  destruct (path_exists (files w) [BASE_JSON]); [|done].
  destruct (path_exists (files w) IMAGES_ROOT); [|done].
  cbn [negb] in Hrun. inv_bind Hrun text Htext.
  destruct (loads text (objects w)) as [h base_cfg].
  cbv beta iota in Hrun.
  inv_bind Hrun cs0 Hcs0. inv_bind Hrun cs Hcs.
  inv_bind Hrun classes Hclasses. inv_bind Hrun class_colors Hcolours.
  cbn [files] in Hrun.
  pose proof (list_ids_NoDup (files w) IMAGES_ROOT) as Hnd.
  destruct (list_ids (files w) IMAGES_ROOT) as [|i ids'] eqn:Hids.
  { by apply elem_of_nil in Hin. }
  inv_bind Hrun r Hloop. destruct r as [w1 run_lines].
  injection Hrun as <-. cbn [files].
  destruct (process_ids_outputs _ _ _ _ Hnd _ _ Hloop id_name t Hin Htif)
    as (Hnpy & (doc & Hdoc & Hname) & Hsrc).
  unfold write_file. rewrite !lookup_insert_ne by discriminate.
  split; [exact Hnpy|]. split; [|exact Hsrc]. by exists doc.
Qed.
(** The files that a run of [main] may change: those of its scenes and the
    launcher. *)
Lemma main_frame (w w' : world) (q : list string) :
  main w = Ok w' →
  (∀ id_name, q ∉ scene_outputs [BASE_JSON] IMAGES_ROOT id_name) →
  q ≠ ["run_all_projects.sh"] →
  files w' !! q = files w !! q.
Proof.
  unfold main. intros Hrun Hout Hsh.
  unfold create_projects_per_id in Hrun.
  destruct (path_exists (files w) [BASE_JSON]); [|done].
  destruct (path_exists (files w) IMAGES_ROOT); [|done].
  cbn [negb] in Hrun. inv_bind Hrun text Htext.
  destruct (loads text (objects w)) as [h base_cfg].
  cbv beta iota in Hrun.
  inv_bind Hrun cs0 Hcs0. inv_bind Hrun cs Hcs.
  inv_bind Hrun classes Hclasses. inv_bind Hrun class_colors Hcolours.
  cbn [files] in Hrun.
  destruct (list_ids (files w) IMAGES_ROOT) as [|i ids'].
  - by injection Hrun as <-.
  - inv_bind Hrun r Hloop. destruct r as [w1 run_lines].
    injection Hrun as <-. cbn [files].
    apply (process_ids_frame _ _ _ _ _ q) in Hloop; [|done].
    simpl in Hloop. unfold write_file. by rewrite lookup_insert_ne.
Qed.

(** X18.  Under [spot/<ID>/images/<ID>] a run of [main] puts only
    [rgb.npy] and [metadata.json]: every other path below that directory is
    after the run as it was before. *)
Theorem images_dir_holds_two_files (w w' : world) (id_name : string)
    (q : list string) :
  main w = Ok w' →
  ["spot"; id_name; "images"; id_name] `prefix_of` q →
  q ≠ ["spot"; id_name; "images"; id_name; "rgb.npy"] →
  q ≠ ["spot"; id_name; "images"; id_name; "metadata.json"] →
  files w' !! q = files w !! q.
Proof.
  intros Hrun [rest ->] Hnpy Hmeta. apply (main_frame _ _ _ Hrun).
  - intros other Hout. unfold scene_outputs in Hout. cbv zeta in Hout.
    repeat rewrite elem_of_cons in Hout.
    destruct Hout as [E|[E|[E|[E|[E|[E|[E|E]]]]]]];
      try (by apply elem_of_nil in E); vm_compute in E.
    + by simplify_eq.
    + by simplify_eq.
    + by simplify_eq.
    + by simplify_eq.
    + injection E as _ E _.
      by apply (string_app_inj_2 "i" other "mages" ".iris") in E as [_ E].
    + injection E as _ E _.
      by apply (string_app_inj_2 "i" other "mages" ".iris") in E as [_ E].
    + injection E as _ E _.
      by apply (string_app_inj_2 "i" other "mages" ".iris") in E as [_ E].
  - discriminate.
Qed.

(** X19.  No [metadata.json] is written in the source tree: the file
    [spot/images/<ID>/metadata.json] is after a run of [main] as it was
    before. *)
Theorem no_metadata_in_source (w w' : world) (id_name : string) :
  main w = Ok w' →
  files w' !! ["spot"; "images"; id_name; "metadata.json"]
  = files w !! ["spot"; "images"; id_name; "metadata.json"].
Proof.
  intros Hrun. apply (main_frame _ _ _ Hrun).
  - intros other Hout. unfold scene_outputs in Hout. cbv zeta in Hout.
    repeat rewrite elem_of_cons in Hout.
    destruct Hout as [E|[E|[E|[E|[E|[E|[E|E]]]]]]];
      try (by apply elem_of_nil in E); vm_compute in E; congruence.
  - discriminate.
Qed.
End more_scenes.

(** ** The harvester, run again or in another order *)

(** X20.  The harvest does not depend on the order of the identifiers.
    The identifiers being names of one path component, in a store where [save_mask] is no plain file, the previews are files or
    absent and no directory stands where a copy goes, two lists that are
    permutations of each other both run to the end, and give the same files
    and the same count of misses. *)
Theorem harvest_order_irrelevant (fs : gmap (list string) content)
    (ids ids' : list string) :
  (∀ id_name, id_name ∈ ids → is_component id_name = true) →
  fs !! ["save_mask"] = None →
  (∀ id_name, id_name ∈ ids →
     path_exists fs
       ["spot"; id_name; id_name +:+ ".iris"; "segmentation"; id_name;
        "mask.png"] = true →
     is_Some (fs !! ["spot"; id_name; id_name +:+ ".iris"; "segmentation";
                     id_name; "mask.png"])) →
  (∀ id_name, id_name ∈ ids →
     is_Some (fs !! ["spot"; id_name; id_name +:+ ".iris"; "segmentation";
                     id_name; "mask.png"]) →
     path_exists fs ["save_mask"; id_name +:+ ".png"] = true →
     is_Some (fs !! ["save_mask"; id_name +:+ ".png"])) →
  ids ≡ₚ ids' →
  ∃ st st', run_after_edit ids fs = Ok st
    ∧ run_after_edit ids' fs = Ok st'
    ∧ t_files st = t_files st' ∧ missing st = missing st'.
Proof.
  intros _ Hout Hfiles Hdsts Hperm.
  assert (Hfiles' : ∀ id_name, id_name ∈ ids' →
            path_exists fs (preview_src id_name) = true →
            is_Some (fs !! preview_src id_name)).
  { intros i Hi. apply Hfiles. by rewrite Hperm. }
  assert (Hdsts' : ∀ id_name, id_name ∈ ids' →
            is_Some (fs !! preview_src id_name) →
            path_exists fs (preview_dst id_name) = true →
            is_Some (fs !! preview_dst id_name)).
  { intros i Hi. apply Hdsts. by rewrite Hperm. }
  destruct (run_after_edit_spec fs ids Hout Hfiles Hdsts)
    as (s1 & Hrun1 & _ & _ & Hmiss1 & Hcopied1 & Hframe1).
  destruct (run_after_edit_spec fs ids' Hout Hfiles' Hdsts')
    as (s2 & Hrun2 & _ & _ & Hmiss2 & Hcopied2 & Hframe2).
  exists s1, s2. split; [done|]. split; [done|]. split.
  - apply map_eq. intros p.
    destruct (decide (Exists (λ id_name, is_Some (fs !! preview_src id_name)
                                         ∧ p = preview_dst id_name) ids))
      as [Hex|Hnex].
    + apply Exists_exists in Hex as (i & Hi & [c Hc] & ->).
      rewrite (Hcopied1 i c Hi Hc). symmetry. apply Hcopied2; [|done].
      by rewrite <- Hperm.
    + rewrite Exists_exists in Hnex.
      rewrite Hframe1, Hframe2; [done| |].
      * intros i Hi Hs ->. apply Hnex. exists i. by rewrite Hperm.
      * intros i Hi Hs ->. apply Hnex. by exists i.
  - rewrite Hmiss1, Hmiss2. by rewrite Hperm.
Qed.

(** X21.  Harvesting again changes nothing.  The identifiers being names
    of one path component, in a store where [save_mask] is no plain file, the previews are files or absent and no directory
    stands where a copy goes, the script runs to the end, and so does a
    second run over the files left by the first, which gives the same files
    and the same count of misses. *)
Theorem harvest_again_changes_nothing (fs : gmap (list string) content)
    (ids : list string) :
  (∀ id_name, id_name ∈ ids → is_component id_name = true) →
  fs !! ["save_mask"] = None →
  (∀ id_name, id_name ∈ ids →
     path_exists fs
       ["spot"; id_name; id_name +:+ ".iris"; "segmentation"; id_name;
        "mask.png"] = true →
     is_Some (fs !! ["spot"; id_name; id_name +:+ ".iris"; "segmentation";
                     id_name; "mask.png"])) →
  (∀ id_name, id_name ∈ ids →
     is_Some (fs !! ["spot"; id_name; id_name +:+ ".iris"; "segmentation";
                     id_name; "mask.png"]) →
     path_exists fs ["save_mask"; id_name +:+ ".png"] = true →
     is_Some (fs !! ["save_mask"; id_name +:+ ".png"])) →
  ∃ st st', run_after_edit ids fs = Ok st
    ∧ run_after_edit ids (t_files st) = Ok st'
    ∧ t_files st' = t_files st ∧ missing st' = missing st.
Proof.
  intros _ Hout Hfiles Hdsts.
  destruct (run_after_edit_spec fs ids Hout Hfiles Hdsts)
    as (s1 & Hrun1 & Hinv & _ & Hmiss1 & Hcopied1 & Hframe1).
  assert (Hsrc : ∀ i, t_files s1 !! preview_src i = fs !! preview_src i).
  { intros i. by apply outside_output_src. }
  assert (Hex : ∀ i, path_exists (t_files s1) (preview_src i)
                     = path_exists fs (preview_src i)).
  { intros i. by apply outside_output_exists. }
  assert (Hout1 : t_files s1 !! OUTPUT_DIR = None).
  { by rewrite (outside_output_dir fs _ Hinv). }
  assert (Hfiles1 : ∀ id_name, id_name ∈ ids →
            path_exists (t_files s1) (preview_src id_name) = true →
            is_Some (t_files s1 !! preview_src id_name)).
  { intros i Hi. rewrite Hex, Hsrc. by apply Hfiles. }
  assert (Hdsts1 : ∀ id_name, id_name ∈ ids →
            is_Some (t_files s1 !! preview_src id_name) →
            path_exists (t_files s1) (preview_dst id_name) = true →
            is_Some (t_files s1 !! preview_dst id_name)).
  { intros i Hi [c Hc] _. rewrite Hsrc in Hc.
    rewrite (Hcopied1 i c Hi Hc). by eexists. }
  destruct (run_after_edit_spec (t_files s1) ids Hout1 Hfiles1 Hdsts1)
    as (s2 & Hrun2 & _ & _ & Hmiss2 & Hcopied2 & Hframe2).
  exists s1, s2. split; [done|]. split; [done|]. split.
  - apply map_eq. intros p.
    destruct (decide (Exists (λ id_name, is_Some (fs !! preview_src id_name)
                                         ∧ p = preview_dst id_name) ids))
      as [Hpe|Hnex].
    + apply Exists_exists in Hpe as (i & Hi & [c Hc] & ->).
      rewrite (Hcopied1 i c Hi Hc). apply Hcopied2; [done|]. by rewrite Hsrc.
    + rewrite Exists_exists in Hnex. apply Hframe2.
      intros i Hi Hs ->. apply Hnex. exists i. by rewrite <- Hsrc.
  - rewrite Hmiss2, Hmiss1. f_equal. apply list_filter_iff. intros i.
    by rewrite Hex.
Qed.

(** ** The statements at work on the small project *)

(** The example of the specification: the mask [[0, 1], [255, 2]] with the
    table [Clear, Cloud]. *)
Example encoder_on_the_example :
  ∃ fs',
    build_caches_from_mask (scene_src_dir IMAGES_ROOT "S1")
      (project_dir ["base.json"] "S1") "S1" ex_classes ex_colours ex_fs
    = Ok fs'
    ∧ fs' !! ["spot"; "S1"; "S1.iris"; "segmentation"; "S1"; "1_final.npy"]
      = Some (CNpyBool3 (Ndarray 2 2 [[true; false]; [false; true];
                                      [true; false]; [false; true]]))
    ∧ fs' !! ["spot"; "S1"; "S1.iris"; "segmentation"; "S1"; "1_user.npy"]
      = Some (CNpyBool2 (Ndarray 2 2 [true; true; true; true]))
    ∧ fs' !! ["spot"; "S1"; "S1.iris"; "segmentation"; "S1"; "mask.png"]
      = Some (CPng (Ndarray 2 2 [(Byte.xff, Byte.xff, Byte.xff);
                                 (Byte.xff, Byte.x00, Byte.x00);
                                 (Byte.xff, Byte.xff, Byte.xff);
                                 (Byte.xff, Byte.x00, Byte.x00)])).
Proof.
  eexists. split; [reflexivity|]. repeat split; vm_compute; reflexivity.
Qed.

(** A run of [main] on the small project: one scene, without coordinate
    reference system. *)
Example main_on_the_example :
  @main ex_warp (World ex_fs []) = Ok ex_world
  ∧ list_ids ex_fs IMAGES_ROOT = ["S1"]
  ∧ files ex_world !! ["spot"; "S1"; "S1.json"] = Some (CJson ex_text1)
  ∧ is_Some (files ex_world !! ["spot"; "S1"; "images"; "S1"; "rgb.npy"])
  ∧ files ex_world !! ["spot"; "S1"; "images"; "S1"; "metadata.json"] = None
  ∧ files ex_world !! ["run_all_projects.sh"]
    = Some (CText (run_script ["iris label spot/S1/S1.json"])).
Proof.
  split; [reflexivity|]. split; [reflexivity|]. split; [reflexivity|].
  split; [by eexists|]. split; reflexivity.
Qed.

(** The harvester on three identifiers, the second without preview. *)
Example harvest_on_the_example :
  ∃ st,
    run_after_edit ["A"; "B"; "C"]
      {[ preview_src "A" := CText "preview of A";
         preview_src "C" := CText "preview of C" ]} = Ok st
    ∧ missing st = 1%nat
    ∧ t_files st !! ["save_mask"; "A.png"] = Some (CText "preview of A")
    ∧ t_files st !! ["save_mask"; "B.png"] = None
    ∧ t_files st !! ["save_mask"; "C.png"] = Some (CText "preview of C").
Proof.
  eexists. split; [reflexivity|]. repeat split; vm_compute; reflexivity.
Qed.

(** The harvester stopped: by a plain file named [save_mask], and by a
    directory standing where the copy of "C" goes, after "A" was copied. *)
Example harvest_stopped :
  run_after_edit ["A"]
    {[ preview_src "A" := CText "preview of A";
       ["save_mask"] := CText "not a directory" ]}
  = Raise FileExistsError
  ∧ harvest ["A"; "C"]
      (Tally {[ preview_src "A" := CText "preview of A";
                preview_src "C" := CText "preview of C";
                ["save_mask"; "C.png"; "notes.txt"] := CText "notes" ]} 0 0)
    = Raise IsADirectoryError.
Proof. split; reflexivity. Qed.

(** The array of the three-band image: the elements at (0, 1, 2) and at
    (1, 0, 0) are the floats 10 and 3. *)
Example array_on_the_example :
  ∃ arr,
    ex_fs1 !! ["spot"; "S1"; "images"; "S1"; "rgb.npy"]
    = Some (CNpyFloat32 arr)
    ∧ cell3 arr 0 1 2 = Some (S754_finite false 10485760 (-20))
    ∧ cell3 arr 1 0 0 = Some (S754_finite false 12582912 (-22)).
Proof. eexists. split; [reflexivity|]. split; reflexivity. Qed.







Lemma scene_documents_independent_witness :
  (length ([] : list obj) ≤ length ex_h0 ≤ length ex_scene1.1)%nat
  ∧ (length ex_scene1.1 ≤ length ex_scene2.1)%nat
  ∧ (∀ n, dumps n ex_scene1.1 ex_base = dumps n ex_h0 ex_base
          ∧ dumps n ex_scene2.1 ex_base = dumps n ex_h0 ex_base
          ∧ dumps n ex_scene2.1 ex_scene1.2 = dumps n ex_scene1.1 ex_scene1.2)
  ∧ (∀ h', agree_on (length ([] : list obj)) (length ex_h0) ex_scene2.1 h' →
       ∀ n, dumps n h' ex_base = dumps n ex_scene2.1 ex_base)
  ∧ (∀ h', agree_on (length ex_h0) (length ex_scene1.1) ex_scene2.1 h' →
       ∀ n, dumps n h' ex_scene1.2 = dumps n ex_scene2.1 ex_scene1.2)
  ∧ (∀ h', agree_on (length ex_scene1.1) (length ex_scene2.1) ex_scene2.1 h' →
       ∀ n, dumps n h' ex_scene2.2 = dumps n ex_scene2.1 ex_scene2.2)
  ∧ (∀ s h', py_setitem ex_scene2.1 ex_scene1.2 "name" (VStr s) = Ok h' →
       py_dumps h' ex_base = py_dumps ex_scene2.1 ex_base
       ∧ py_dumps h' ex_scene2.2 = py_dumps ex_scene2.1 ex_scene2.2)
  ∧ (∀ s h', py_setitem ex_scene2.1 ex_scene2.2 "name" (VStr s) = Ok h' →
       py_dumps h' ex_base = py_dumps ex_scene2.1 ex_base
       ∧ py_dumps h' ex_scene1.2 = py_dumps ex_scene2.1 ex_scene1.2).
Proof.
  apply (scene_documents_independent ex_template [] ex_h0 ex_scene1.1
           ex_scene2.1 ex_base ex_scene1.2 ex_scene2.2 "S1" "S2" 2 2 2 2).
  - reflexivity.
  - vm_compute. reflexivity.
  - vm_compute. reflexivity.
Defined.

Lemma harvest_skips_missing_witness :
  ∃ st,
    run_after_edit ["B"; "A"; "C"] ex_previews = Ok st
    ∧ missing st = 1%nat
    ∧ t_files st !! ["save_mask"; "A.png"] = Some (CText "preview of A")
    ∧ t_files st !! ["save_mask"; "C.png"] = Some (CText "preview of C")
    ∧ t_files st !! ["save_mask"; "B.png"] = None.
Proof.
  destruct (proj2 (harvest_skips_missing ["B"; "A"; "C"] ex_previews))
    as (st & Hrun & Hmiss & Hcopied & Hframe).
  - intros id_name Hin.
    apply elem_of_cons in Hin as [->|Hin]; [reflexivity|].
    apply elem_of_cons in Hin as [->|Hin]; [reflexivity|].
    apply list_elem_of_singleton in Hin as ->. reflexivity.
  - reflexivity.
  - intros id_name Hin Hex.
    apply elem_of_cons in Hin as [->|Hin];
      [vm_compute in Hex; discriminate|].
    apply elem_of_cons in Hin as [->|Hin]; [vm_compute; by eexists|].
    apply list_elem_of_singleton in Hin as ->. vm_compute. by eexists.
  - intros id_name Hin [c Hc] Hex.
    apply elem_of_cons in Hin as [->|Hin];
      [vm_compute in Hc; discriminate|].
    apply elem_of_cons in Hin as [->|Hin]; [vm_compute; by eexists|].
    apply list_elem_of_singleton in Hin as ->.
    vm_compute in Hex. discriminate.
  - exists st. split; [exact Hrun|].
    split; [rewrite Hmiss; vm_compute; reflexivity|].
    split; [apply (Hcopied "A"); [repeat constructor|reflexivity]|].
    split; [apply (Hcopied "C"); [repeat constructor|reflexivity]|].
    rewrite Hframe; [reflexivity|].
    intros id_name Hin [c Hc].
    apply elem_of_cons in Hin as [->|Hin];
      [vm_compute in Hc; discriminate|].
    apply elem_of_cons in Hin as [->|Hin]; [discriminate|].
    apply list_elem_of_singleton in Hin as ->. discriminate.
Defined.

Lemma scene_config_fields_witness :
  ∃ h1 cfg text images segmentation,
    scene_cfg ex_base "S1" (tif_width ex_rgb) (tif_height ex_rgb) ex_h0
    = Ok (h1, cfg)
    ∧ py_dumps h1 cfg = Ok text
    ∧ json_get "name" text = Some (JStr "S1")
    ∧ json_get "images" text = Some images
    ∧ json_get "path" images = Some (JStr "images/{id}/rgb.npy")
    ∧ json_get "shape" images
      = Some (JArr [JInt (Z.of_nat (tif_width ex_rgb));
                    JInt (Z.of_nat (tif_height ex_rgb))])
    ∧ json_get "segmentation" text = Some segmentation
    ∧ json_get "mask_area" segmentation
      = Some (JArr [JInt 0; JInt 0; JInt (Z.of_nat (tif_width ex_rgb));
                    JInt (Z.of_nat (tif_height ex_rgb))])
    ∧ ∀ base_json_path images_root classes class_colors fs run_lines st',
        fs !! scene_tif images_root "S1" = Some (CTiff ex_rgb) →
        @process_scene ex_warp base_json_path images_root ex_base classes
          class_colors "S1" (World fs ex_h0, run_lines) = Ok st' →
        files st'.1 !! project_json base_json_path "S1" = Some (CJson text).
Proof.
  apply (@scene_config_fields ex_warp ex_base "S1" ex_h0 ex_template
           [("path", JStr "images/{id}/image.tif")] ex_rgb).
  - vm_compute. reflexivity.
  - reflexivity.
  - left. reflexivity.
Defined.

(** C4 as stated fails: the image path stored for the scene "S1" is not the
    template instantiated with "S1"; it is the text with the placeholder,
    the same for every scene. *)
Lemma image_path_not_instantiated :
  ∃ h1 cfg text images,
    scene_cfg ex_base "S1" 2 2 ex_h0 = Ok (h1, cfg)
    ∧ py_dumps h1 cfg = Ok text
    ∧ json_get "images" text = Some images
    ∧ json_get "path" images = Some (JStr "images/{id}/rgb.npy")
    ∧ json_get "path" images ≠ Some (JStr (instantiated_image_path "S1")).
Proof.
  eexists _, _, _, _. split; [vm_compute; reflexivity|].
  split; [vm_compute; reflexivity|]. split; [vm_compute; reflexivity|].
  split; [vm_compute; reflexivity|]. vm_compute. discriminate.
Qed.

Lemma no_crs_is_not_fatal_witness :
  @process_scene ex_warp ["base.json"] IMAGES_ROOT ex_base ex_classes
    ex_colours "S1" (World ex_fs ex_h0, [])
  = Ok (World ex_fs3 ex_scene1.1, [launch_line ["base.json"] "S1"])
  ∧ ex_fs3 !! project_metadata ["base.json"] "S1"
    = ex_fs !! project_metadata ["base.json"] "S1".
Proof.
  destruct (@no_crs_is_not_fatal ex_warp ["base.json"] IMAGES_ROOT ex_base
              ex_classes ex_colours "S1" (World ex_fs ex_h0, []))
    as (_ & HB & _).
  destruct (HB ex_rgb ex_fs1 ex_scene1.1 ex_scene1.2 ex_text1 ex_fs3)
    as (Hrun & Hmeta & _).
  - reflexivity.
  - reflexivity.
  - reflexivity.
  - reflexivity.
  - reflexivity.
  - reflexivity.
  - split; [exact Hrun|exact Hmeta].
Defined.

(** ** The further properties at work on the small project *)


Lemma write_rgb_needs_raster_witness :
  write_rgb_npy_to_dest (scene_tif IMAGES_ROOT "S1")
    (scene_tif IMAGES_ROOT "S1") ex_fs
  = Raise RasterioIOError.
Proof.
  apply (write_rgb_needs_raster (scene_tif IMAGES_ROOT "S1")
           (scene_tif IMAGES_ROOT "S1") ex_fs).
  - intros _. vm_compute. by eexists.
  - right. reflexivity.
Defined.


Lemma caches_only_with_mask_witness :
  let id_src_dir := scene_src_dir IMAGES_ROOT "S1" in
  let seg_dir := segmentation_dir (project_dir ["base.json"] "S1") "S1"
                   id_src_dir in
  (path_exists ex_staged (id_src_dir </> MASK_TIF_NAME) = false →
   ex_fs3 = ex_staged)
  ∧ (path_exists ex_staged (id_src_dir </> MASK_TIF_NAME) = true →
     ∃ onehot user rgbmask,
       ex_fs3 !! (seg_dir </> "1_final.npy") = Some (CNpyBool3 onehot)
       ∧ ex_fs3 !! (seg_dir </> "1_user.npy") = Some (CNpyBool2 user)
       ∧ ex_fs3 !! (seg_dir </> "mask.png") = Some (CPng rgbmask))
  ∧ ex_fs3 !! (id_src_dir </> MASK_TIF_NAME)
    = ex_staged !! (id_src_dir </> MASK_TIF_NAME)
  ∧ ∀ p, p ≠ seg_dir </> "1_final.npy" → p ≠ seg_dir </> "1_user.npy" →
      p ≠ seg_dir </> "mask.png" → ex_fs3 !! p = ex_staged !! p.
Proof.
  apply (caches_only_with_mask (scene_src_dir IMAGES_ROOT "S1")
           (project_dir ["base.json"] "S1") "S1" ex_classes ex_colours
           ex_staged ex_fs3).
  reflexivity.
Defined.


Lemma copy_reads_the_same_witness :
  py_dumps (loads ex_template ex_h0).1 (loads ex_template ex_h0).2
  = Ok ex_template.
Proof.
  apply (copy_reads_the_same ex_h0 ex_h0 _ ex_base).
  - apply (bool_decide_unpack _). vm_compute. exact I.
  - reflexivity.
  - reflexivity.
Defined.

Lemma scene_cfg_keeps_members_witness :
  (∀ k, k ≠ "name" → k ≠ "images" → k ≠ "segmentation" →
     json_get k ex_text1 = json_get k ex_template)
  ∧ (∀ images0 images k,
       json_get "images" ex_template = Some images0 →
       json_get "images" ex_text1 = Some images →
       k ≠ "path" → k ≠ "shape" →
       json_get k images = json_get k images0)
  ∧ (∀ seg0 seg k,
       json_get "segmentation" ex_template = Some seg0 →
       json_get "segmentation" ex_text1 = Some seg →
       k ≠ "mask_area" →
       json_get k seg = json_get k seg0).
Proof.
  apply (scene_cfg_keeps_members ex_base "S1" 2 2 ex_h0 ex_scene1.1
           ex_scene1.2).
  - apply (bool_decide_unpack _). vm_compute. exact I.
  - reflexivity.
  - reflexivity.
  - reflexivity.
Defined.

Lemma scene_cfg_outcome_witness :
  scene_cfg ex_bare_v "S1" 2 2 ex_bare_h = Raise (KeyError "images").
Proof.
  exact (scene_cfg_outcome ex_bare_v "S1" 2 2 ex_bare_h ex_bare eq_refl).
Defined.

Lemma rasters_are_never_written_witness :
  ex_fs3 !! scene_tif IMAGES_ROOT "S1" = ex_fs !! scene_tif IMAGES_ROOT "S1".
Proof.
  apply (@rasters_are_never_written ex_warp ["base.json"] IMAGES_ROOT ex_base
           ex_classes ex_colours "S1" (World ex_fs ex_h0, [])
           (World ex_fs3 ex_scene1.1, [launch_line ["base.json"] "S1"])).
  - reflexivity.
  - left. reflexivity.
Defined.

Lemma processed_scene_files_witness :
  ex_fs3 !! (scene_src_dir IMAGES_ROOT "S1" </> "rgb.npy") = None
  ∧ ex_fs3 !! scene_tif IMAGES_ROOT "S1" = Some (CTiff ex_rgb)
  ∧ (project_images_dir ["base.json"] "S1" ≠ scene_src_dir IMAGES_ROOT "S1" →
     ex_fs3 !! project_npy ["base.json"] "S1"
     = Some (CNpyFloat32
               (astype_float32 (moveaxis_first_to_last (read_all ex_rgb)))))
  ∧ [launch_line ["base.json"] "S1"] = [] ++ [launch_line ["base.json"] "S1"].
Proof.
  apply (@processed_scene_files ex_warp ["base.json"] IMAGES_ROOT ex_base
           ex_classes ex_colours "S1" (World ex_fs ex_h0, [])
           (World ex_fs3 ex_scene1.1, [launch_line ["base.json"] "S1"])
           ex_rgb).
  - reflexivity.
  - reflexivity.
Defined.

Lemma other_projects_untouched_witness :
  ex_fs3 !! ["spot"; "S2"; "S2.json"] = ex_fs !! ["spot"; "S2"; "S2.json"].
Proof.
  apply (@other_projects_untouched ex_warp ["base.json"] IMAGES_ROOT ex_base
           ex_classes ex_colours "S1" "S2" (World ex_fs ex_h0, [])
           (World ex_fs3 ex_scene1.1, [launch_line ["base.json"] "S1"])).
  - reflexivity.
  - discriminate.
  - exists ["S2.json"]. reflexivity.
  - discriminate.
Defined.

Lemma launcher_lists_scenes_witness :
  let ids := list_ids ex_fs IMAGES_ROOT in
  (ids = [] → files ex_world = ex_fs)
  ∧ (ids ≠ [] →
     files ex_world !! (path_parent ["base.json"] </> "run_all_projects.sh")
     = Some (CText (run_script
                      (launch_line ["base.json"]
                         <$> filter (λ id_name,
                                       is_Some (ex_fs
                                                  !! scene_tif IMAGES_ROOT
                                                       id_name))
                               ids)))).
Proof.
  apply (@launcher_lists_scenes ex_warp ["base.json"] IMAGES_ROOT
           (World ex_fs []) ex_world).
  reflexivity.
Defined.

Lemma needs_template_and_images_witness :
  path_exists ex_fs IMAGES_ROOT = true
  ∧ ∃ ms, ex_fs !! ["base.json"] = Some (CJson (JObj ms))
          ∧ is_Some (json_get "classes" (JObj ms)).
Proof.
  apply (@needs_template_and_images ex_warp ["base.json"] IMAGES_ROOT
           (World ex_fs []) ex_world).
  reflexivity.
Defined.

Lemma main_keeps_inputs_witness :
  files ex_world !! [BASE_JSON] = ex_fs !! [BASE_JSON].
Proof.
  apply (@main_keeps_inputs ex_warp (World ex_fs []) ex_world [BASE_JSON]).
  - reflexivity.
  - left. reflexivity.
Defined.

Lemma harvest_order_irrelevant_witness :
  ∃ st st', run_after_edit ["A"; "B"; "C"] ex_previews = Ok st
    ∧ run_after_edit ["B"; "A"; "C"] ex_previews = Ok st'
    ∧ t_files st = t_files st' ∧ missing st = missing st'.
Proof.
  apply (harvest_order_irrelevant ex_previews ["A"; "B"; "C"]
           ["B"; "A"; "C"]).
  - intros id_name Hin.
    apply elem_of_cons in Hin as [->|Hin]; [reflexivity|].
    apply elem_of_cons in Hin as [->|Hin]; [reflexivity|].
    apply list_elem_of_singleton in Hin as ->. reflexivity.
  - reflexivity.
  - intros id_name Hin Hex.
    apply elem_of_cons in Hin as [->|Hin]; [vm_compute; by eexists|].
    apply elem_of_cons in Hin as [->|Hin];
      [vm_compute in Hex; discriminate|].
    apply list_elem_of_singleton in Hin as ->. vm_compute. by eexists.
  - intros id_name Hin [c Hc] Hex.
    apply elem_of_cons in Hin as [->|Hin]; [vm_compute; by eexists|].
    apply elem_of_cons in Hin as [->|Hin];
      [vm_compute in Hc; discriminate|].
    apply list_elem_of_singleton in Hin as ->.
    vm_compute in Hex. discriminate.
  - apply perm_swap.
Defined.

Lemma harvest_again_changes_nothing_witness :
  ∃ st st', run_after_edit ["B"; "A"; "C"] ex_previews = Ok st
    ∧ run_after_edit ["B"; "A"; "C"] (t_files st) = Ok st'
    ∧ t_files st' = t_files st ∧ missing st' = missing st.
Proof.
  apply (harvest_again_changes_nothing ex_previews ["B"; "A"; "C"]).
  - intros id_name Hin.
    apply elem_of_cons in Hin as [->|Hin]; [reflexivity|].
    apply elem_of_cons in Hin as [->|Hin]; [reflexivity|].
    apply list_elem_of_singleton in Hin as ->. reflexivity.
  - reflexivity.
  - intros id_name Hin Hex.
    apply elem_of_cons in Hin as [->|Hin];
      [vm_compute in Hex; discriminate|].
    apply elem_of_cons in Hin as [->|Hin]; [vm_compute; by eexists|].
    apply list_elem_of_singleton in Hin as ->. vm_compute. by eexists.
  - intros id_name Hin [c Hc] Hex.
    apply elem_of_cons in Hin as [->|Hin];
      [vm_compute in Hc; discriminate|].
    apply elem_of_cons in Hin as [->|Hin]; [vm_compute; by eexists|].
    apply list_elem_of_singleton in Hin as ->.
    vm_compute in Hex. discriminate.
Defined.

Lemma main_writes_each_scene_witness :
  files ex_world !! ["spot"; "S1"; "images"; "S1"; "rgb.npy"]
  = Some (CNpyFloat32
            (astype_float32 (moveaxis_first_to_last (read_all ex_rgb))))
  ∧ (∃ text, files ex_world !! ["spot"; "S1"; "S1" +:+ ".json"]
             = Some (CJson text)
             ∧ json_get "name" text = Some (JStr "S1"))
  ∧ files ex_world !! ["spot"; "images"; "S1"; "rgb.npy"] = None.
Proof.
  apply (@main_writes_each_scene ex_warp (World ex_fs []) ex_world "S1"
           ex_rgb).
  - reflexivity.
  - reflexivity.
Defined.

Lemma images_dir_holds_two_files_witness :
  files ex_world !! ["spot"; "S1"; "images"; "S1"; "notes.txt"]
  = ex_fs !! ["spot"; "S1"; "images"; "S1"; "notes.txt"].
Proof.
  apply (@images_dir_holds_two_files ex_warp (World ex_fs []) ex_world "S1").
  - reflexivity.
  - exists ["notes.txt"]. reflexivity.
  - discriminate.
  - discriminate.
Defined.

Lemma no_metadata_in_source_witness :
  files ex_world !! ["spot"; "images"; "S1"; "metadata.json"]
  = ex_fs !! ["spot"; "images"; "S1"; "metadata.json"].
Proof.
  apply (@no_metadata_in_source ex_warp (World ex_fs []) ex_world "S1").
  reflexivity.
Defined.
